(** * job-scraper-be: the discovery-to-notification pipeline

    A shallow embedding of the pipeline's core functions
    (app/utils/hash.py, app/services/matching_service.py,
    app/services/llm_service.py, app/workers/scrape_worker.py,
    app/services/notification_service.py) and the properties proved
    about them.

    Part I holds the model, Part II the theorems. *)

From Stdlib Require Import ZArith List String Ascii Bool Lia.
From stdpp Require Import base gmap strings.
Import ListNotations.

Local Open Scope Z_scope.

(* ===================================================================== *)
(** * Part I: the model                                                   *)
(* ===================================================================== *)

(** ** Python strings

    A Python [str] is modelled as a [string] of ASCII text: the
    characters are code points, [lower], [upper] and [strip] follow
    Python on code points below 128, and [encode()] is the identity on
    such text.  Operations are written on the list of characters. *)

Module PyStr.

Abbreviation chars := list_ascii_of_string.
Abbreviation text := string_of_list_ascii.

Definition code (c : ascii) : Z := Z.of_N (N_of_ascii c).

(** [str.isspace] on one ASCII character: TAB, LF, VT, FF, CR, the four
    separators FS, GS, RS, US and the blank. *)
Definition is_space (c : ascii) : bool :=
  ((9 <=? code c) && (code c <=? 13)) || ((28 <=? code c) && (code c <=? 32)).

Definition lower_char (c : ascii) : ascii :=
  if (65 <=? code c) && (code c <=? 90)
  then ascii_of_N (Z.to_N (code c + 32)) else c.

Definition upper_char (c : ascii) : ascii :=
  if (97 <=? code c) && (code c <=? 122)
  then ascii_of_N (Z.to_N (code c - 32)) else c.

Definition lower (s : string) : string := text (map lower_char (chars s)).
Definition upper (s : string) : string := text (map upper_char (chars s)).

Fixpoint lstrip_chars (l : list ascii) : list ascii :=
  match l with
  | c :: r => if is_space c then lstrip_chars r else l
  | [] => []
  end.

Definition rstrip_chars (l : list ascii) : list ascii :=
  rev (lstrip_chars (rev l)).

Definition strip_chars (l : list ascii) : list ascii :=
  rstrip_chars (lstrip_chars l).

(** [s.strip()] *)
Definition strip (s : string) : string := text (strip_chars (chars s)).

(** [s.isascii()] *)
Definition isascii (s : string) : bool :=
  forallb (fun c => code c <? 128) (chars s).

(** Whitespace only. *)
Definition blank (l : list ascii) : Prop := Forall (fun c => is_space c = true) l.

(** [sub] occurs in [s]. *)
Definition occurs_in (sub s : string) : Prop :=
  exists before after : string, s = (before ++ sub ++ after)%string.

(** [s.startswith(p)] on character lists. *)
Fixpoint starts_with (p l : list ascii) : bool :=
  match p, l with
  | [], _ => true
  | _ :: _, [] => false
  | a :: p', b :: l' => Ascii.eqb a b && starts_with p' l'
  end.

Fixpoint contains_chars (p l : list ascii) : bool :=
  starts_with p l ||
  match l with
  | [] => false
  | _ :: l' => contains_chars p l'
  end.

(** [sub in s] *)
Definition contains (sub s : string) : bool :=
  contains_chars (chars sub) (chars s).

(** [s.find(c)] for a one-character needle: the index of the first
    occurrence, [-1] when there is none. *)
Fixpoint find_from (c : ascii) (l : list ascii) (i : Z) : Z :=
  match l with
  | [] => -1
  | x :: r => if Ascii.eqb x c then i else find_from c r (i + 1)
  end.

Definition find (s : string) (c : ascii) : Z := find_from c (chars s) 0.

(** [s.rfind(c)]: the index of the last occurrence, [-1] when none. *)
Fixpoint rfind_from (c : ascii) (l : list ascii) (i : Z) (last : Z) : Z :=
  match l with
  | [] => last
  | x :: r => rfind_from c r (i + 1) (if Ascii.eqb x c then i else last)
  end.

Definition rfind (s : string) (c : ascii) : Z := rfind_from c (chars s) 0 (-1).

(** [s[a:b]] for indices [0 <= a] and [0 <= b]; an end before the start
    gives the empty string, an end past the length stops at the end. *)
Definition slice (s : string) (a b : Z) : string :=
  text (firstn (Z.to_nat (b - a)) (skipn (Z.to_nat a) (chars s))).

(** [s[:n]] for [0 <= n] *)
Definition prefix_of (s : string) (n : Z) : string :=
  text (firstn (Z.to_nat n) (chars s)).

(** [s.split(sep)] for a one-character separator: the pieces between
    the separators, one more than there are separators. *)
Fixpoint split_chars (sep : ascii) (l : list ascii) (piece : list ascii)
  : list (list ascii) :=
  match l with
  | [] => [rev piece]
  | c :: r => if Ascii.eqb c sep then rev piece :: split_chars sep r []
              else split_chars sep r (c :: piece)
  end.

Definition split (s : string) (sep : ascii) : list string :=
  map text (split_chars sep (chars s) []).

(** Python truthiness of a string. *)
Definition truthy (s : string) : bool := negb (String.eqb s "").

End PyStr.

(** ** hashlib.sha256

    SHA-256 (FIPS 180-4) on a list of bytes, with 32-bit words as [Z] and
    the wrap-around written out. *)

Module Sha256.

Definition wrap32 (x : Z) : Z := x mod 2 ^ 32.
Definition add32 (a b : Z) : Z := wrap32 (a + b).
Definition rotr (n x : Z) : Z :=
  Z.lor (Z.shiftr x n) (wrap32 (Z.shiftl x (32 - n))).
Definition shr (n x : Z) : Z := Z.shiftr x n.
Definition not32 (x : Z) : Z := Z.lxor x 0xffffffff.

Definition Ch (x y z : Z) : Z := Z.lxor (Z.land x y) (Z.land (not32 x) z).
Definition Maj (x y z : Z) : Z :=
  Z.lxor (Z.lxor (Z.land x y) (Z.land x z)) (Z.land y z).
Definition Sigma0 (x : Z) : Z := Z.lxor (Z.lxor (rotr 2 x) (rotr 13 x)) (rotr 22 x).
Definition Sigma1 (x : Z) : Z := Z.lxor (Z.lxor (rotr 6 x) (rotr 11 x)) (rotr 25 x).
Definition sigma0 (x : Z) : Z := Z.lxor (Z.lxor (rotr 7 x) (rotr 18 x)) (shr 3 x).
Definition sigma1 (x : Z) : Z := Z.lxor (Z.lxor (rotr 17 x) (rotr 19 x)) (shr 10 x).

(** The sixty-four round constants, eight to a row. *)
Definition K : list Z :=
  concat [
    [ 0x428a2f98; 0x71374491; 0xb5c0fbcf; 0xe9b5dba5; 0x3956c25b; 0x59f111f1; 0x923f82a4; 0xab1c5ed5 ];
    [ 0xd807aa98; 0x12835b01; 0x243185be; 0x550c7dc3; 0x72be5d74; 0x80deb1fe; 0x9bdc06a7; 0xc19bf174 ];
    [ 0xe49b69c1; 0xefbe4786; 0x0fc19dc6; 0x240ca1cc; 0x2de92c6f; 0x4a7484aa; 0x5cb0a9dc; 0x76f988da ];
    [ 0x983e5152; 0xa831c66d; 0xb00327c8; 0xbf597fc7; 0xc6e00bf3; 0xd5a79147; 0x06ca6351; 0x14292967 ];
    [ 0x27b70a85; 0x2e1b2138; 0x4d2c6dfc; 0x53380d13; 0x650a7354; 0x766a0abb; 0x81c2c92e; 0x92722c85 ];
    [ 0xa2bfe8a1; 0xa81a664b; 0xc24b8b70; 0xc76c51a3; 0xd192e819; 0xd6990624; 0xf40e3585; 0x106aa070 ];
    [ 0x19a4c116; 0x1e376c08; 0x2748774c; 0x34b0bcb5; 0x391c0cb3; 0x4ed8aa4a; 0x5b9cca4f; 0x682e6ff3 ];
    [ 0x748f82ee; 0x78a5636f; 0x84c87814; 0x8cc70208; 0x90befffa; 0xa4506ceb; 0xbef9a3f7; 0xc67178f2 ] ].

(** The eight working words. *)
Record words8 := W8 { wa : Z; wb : Z; wc : Z; wd : Z;
                      we : Z; wf : Z; wg : Z; wh : Z }.

Definition H0 : words8 :=
  W8 0x6a09e667 0xbb67ae85 0x3c6ef372 0xa54ff53a
     0x510e527f 0x9b05688c 0x1f83d9ab 0x5be0cd19.

(** Padding: the byte 0x80, zero bytes up to 56 modulo 64, then the
    bit length on eight bytes, most significant first. *)
Definition be_bytes (n : Z) (width : list Z) : list Z :=
  map (fun i => Z.shiftr n (8 * i) mod 256) width.

Definition pad (msg : list Z) : list Z :=
  let len := Z.of_nat (length msg) in
  msg ++ [0x80] ++ repeat 0 (Z.to_nat ((55 - len) mod 64))
      ++ be_bytes (8 * len) [7; 6; 5; 4; 3; 2; 1; 0].

Fixpoint to_words (l : list Z) : list Z :=
  match l with
  | a :: b :: c :: d :: r =>
      (Z.shiftl a 24 + Z.shiftl b 16 + Z.shiftl c 8 + d) :: to_words r
  | _ => []
  end.

Fixpoint blocks (fuel : nat) (l : list Z) : list (list Z) :=
  match fuel, l with
  | S f, _ :: _ => firstn 64 l :: blocks f (skipn 64 l)
  | _, _ => []
  end.

(** The message schedule, kept most recent word first while it grows. *)
Fixpoint extend (n : nat) (ws : list Z) : list Z :=
  match n with
  | O => ws
  | S n' =>
      let w := add32 (add32 (sigma1 (nth 1 ws 0)) (nth 6 ws 0))
                     (add32 (sigma0 (nth 14 ws 0)) (nth 15 ws 0)) in
      extend n' (w :: ws)
  end.

Definition schedule (block : list Z) : list Z :=
  rev (extend 48 (rev (to_words block))).

Definition round (s : words8) (kw : Z * Z) : words8 :=
  let t1 := add32 (add32 (add32 (wh s) (Sigma1 (we s)))
                         (add32 (Ch (we s) (wf s) (wg s)) (fst kw))) (snd kw) in
  let t2 := add32 (Sigma0 (wa s)) (Maj (wa s) (wb s) (wc s)) in
  W8 (add32 t1 t2) (wa s) (wb s) (wc s) (add32 (wd s) t1) (we s) (wf s) (wg s).

Definition compress (h : words8) (block : list Z) : words8 :=
  let s := fold_left round (combine K (schedule block)) h in
  W8 (add32 (wa h) (wa s)) (add32 (wb h) (wb s))
     (add32 (wc h) (wc s)) (add32 (wd h) (wd s))
     (add32 (we h) (we s)) (add32 (wf h) (wf s))
     (add32 (wg h) (wg s)) (add32 (wh h) (wh s)).

(** [hashlib.sha256(data)] *)
Definition sha256 (msg : list Z) : words8 :=
  let p := pad msg in fold_left compress (blocks (length p) p) H0.

Definition hex_digit (n : Z) : ascii :=
  if n <? 10 then ascii_of_N (Z.to_N (48 + n))
  else ascii_of_N (Z.to_N (87 + n)).

(** One of [0-9a-f]. *)
Definition is_hex (c : ascii) : bool :=
  ((48 <=? PyStr.code c) && (PyStr.code c <=? 57))
  || ((97 <=? PyStr.code c) && (PyStr.code c <=? 102)).

Definition hex_word (x : Z) : list ascii :=
  map (fun i => hex_digit (Z.shiftr x (4 * i) mod 16)) [7; 6; 5; 4; 3; 2; 1; 0].

(** [hash_object.hexdigest()] *)
Definition hexdigest (h : words8) : string :=
  PyStr.text (hex_word (wa h) ++ hex_word (wb h) ++ hex_word (wc h)
              ++ hex_word (wd h) ++ hex_word (we h) ++ hex_word (wf h)
              ++ hex_word (wg h) ++ hex_word (wh h)).

End Sha256.

(** ** app/utils/hash.py *)

(** [text.encode()]: the bytes of ASCII text. *)
Definition encode (s : string) : list Z := map PyStr.code (PyStr.chars s).

Definition generate_job_external_id (career_page_id job_url title : string) : string :=
  let unique_string :=
    PyStr.strip (PyStr.lower (career_page_id ++ ":" ++ job_url ++ ":" ++ title)%string) in
  let hash_object := Sha256.sha256 (encode unique_string) in
  Sha256.hexdigest hash_object.

Definition generate_simple_hash (txt : string) : string :=
  let hash_object := Sha256.sha256 (encode txt) in
  Sha256.hexdigest hash_object.

(** ** Exceptions

    A call either returns or raises.  Only subclasses of [Exception] are
    modelled; [str(e)] is the text carried by the exception. *)

Inductive exn_class :=
| AttributeError | KeyError | TypeError | JSONDecodeError | OtherError.

Record exn := Exn { exn_kind : exn_class; exn_text : string }.

Inductive result (A : Type) : Type :=
| Ok (a : A)
| Raise (e : exn).
Arguments Ok {A} a.
Arguments Raise {A} e.

Definition rbind {A B} (r : result A) (k : A -> result B) : result B :=
  match r with
  | Ok a => k a
  | Raise e => Raise e
  end.

(** [try: body  except Exception as e: handler(e)] *)
Definition try_except {A} (body : result A) (handler : exn -> result A) : result A :=
  match body with
  | Ok a => Ok a
  | Raise e => handler e
  end.

#[global] Instance result_ret : MRet result := fun A a => Ok a.
#[global] Instance result_bind : MBind result := fun A B k r => rbind r k.

(** ** Python values read from JSON

    What [json.loads] builds: [None], booleans, integers, floats (the
    decimal literal [m * 10^e], read as a double), the non-finite floats
    [NaN], [Infinity] and [-Infinity], strings, lists, and dictionaries
    (an association list with distinct keys). *)

#[warnings="-register-all"]
Inductive json :=
| JNull
| JBool (b : bool)
| JInt (n : Z)
| JFloat (m e : Z)
| JNonFinite
| JStr (s : string)
| JArr (l : list json)
| JObj (d : list (string * json)).

Fixpoint dict_get (d : list (string * json)) (k : string) : option json :=
  match d with
  | [] => None
  | (k', v) :: r => if String.eqb k' k then Some v else dict_get r k
  end.

Fixpoint dict_set (d : list (string * json)) (k : string) (v : json)
  : list (string * json) :=
  match d with
  | [] => [(k, v)]
  | (k', v') :: r =>
      if String.eqb k' k then (k', v) :: r else (k', v') :: dict_set r k v
  end.

(** A decimal literal read as a double is [0.0] exactly when it is at most
    [2^-1075], half of the smallest subnormal. *)
Definition float_nonzero (m e : Z) : bool :=
  negb (m =? 0) &&
  (if 0 <=? e then true else negb (Z.abs m * 2 ^ 1075 <=? 10 ^ (- e))).

(** Python truthiness, as [not v] and [v or w] use it. *)
Definition py_truthy (v : json) : bool :=
  match v with
  | JNull => false
  | JBool b => b
  | JInt n => negb (n =? 0)
  | JFloat m e => float_nonzero m e
  | JNonFinite => true
  | JStr s => PyStr.truthy s
  | JArr l => match l with [] => false | _ => true end
  | JObj d => match d with [] => false | _ => true end
  end.

(** [v.get(k, default)]: only a dictionary has the method. *)
Definition py_get (v : json) (k : string) (default : json) : result json :=
  match v with
  | JObj d => Ok (match dict_get d k with Some x => x | None => default end)
  | _ => Raise (Exn AttributeError "object has no attribute 'get'")
  end.

(** [v.strip()]: only a string has the method. *)
Definition py_strip (v : json) : result string :=
  match v with
  | JStr s => Ok (PyStr.strip s)
  | _ => Raise (Exn AttributeError "object has no attribute 'strip'")
  end.

(** [v[k]] for a string key. *)
Definition py_subscript (v : json) (k : string) : result json :=
  match v with
  | JObj d => match dict_get d k with
              | Some x => Ok x
              | None => Raise (Exn KeyError k)
              end
  | _ => Raise (Exn TypeError "indices must be integers")
  end.

(** ** A reference [json.loads]

    A recursive-descent reader for the JSON grammar Python accepts, on
    ASCII text.  The functions of the pipeline take [json.loads] as a
    parameter; this reader instantiates it on concrete responses.  A
    [\u] escape above U+00FF has no character in the model and is
    rejected here. *)

Module JsonRef.
Import PyStr.

Definition dquote : ascii := "034".
Definition backslash : ascii := "092".

Definition is_json_ws (c : ascii) : bool :=
  (code c =? 32) || (code c =? 9) || (code c =? 10) || (code c =? 13).

Fixpoint skip_ws (l : list ascii) : list ascii :=
  match l with
  | c :: r => if is_json_ws c then skip_ws r else l
  | [] => []
  end.

Definition is_digit (c : ascii) : bool := (48 <=? code c) && (code c <=? 57).

Definition hex_value (c : ascii) : option Z :=
  let n := code c in
  if (48 <=? n) && (n <=? 57) then Some (n - 48)
  else if (97 <=? n) && (n <=? 102) then Some (n - 87)
  else if (65 <=? n) && (n <=? 70) then Some (n - 55)
  else None.

(** The digits at the head of [l], as their value, their count, and the
    rest. *)
Fixpoint digits (l : list ascii) (acc : Z) (count : Z) : Z * Z * list ascii :=
  match l with
  | c :: r => if is_digit c then digits r (10 * acc + (code c - 48)) (count + 1)
              else (acc, count, l)
  | [] => (acc, count, [])
  end.

Definition unescape (c : ascii) : option ascii :=
  if Ascii.eqb c dquote then Some dquote
  else if Ascii.eqb c backslash then Some backslash
  else if Ascii.eqb c "/" then Some "/"%char
  else if Ascii.eqb c "b" then Some "008"%char
  else if Ascii.eqb c "f" then Some "012"%char
  else if Ascii.eqb c "n" then Some "010"%char
  else if Ascii.eqb c "r" then Some "013"%char
  else if Ascii.eqb c "t" then Some "009"%char
  else None.

(** The characters of a string literal after its opening quote. *)
Fixpoint string_body (l : list ascii) (acc : list ascii)
  : option (string * list ascii) :=
  match l with
  | [] => None
  | c :: r =>
      if Ascii.eqb c dquote then Some (text (rev acc), r)
      else if Ascii.eqb c backslash then
        match r with
        | "u"%char :: h1 :: h2 :: h3 :: h4 :: r' =>
            match hex_value h1, hex_value h2, hex_value h3, hex_value h4 with
            | Some a, Some b, Some c', Some d =>
                let cp := 4096 * a + 256 * b + 16 * c' + d in
                if cp <? 256
                then string_body r' (ascii_of_N (Z.to_N cp) :: acc)
                else None
            | _, _, _, _ => None
            end
        | e :: r' =>
            match unescape e with
            | Some x => string_body r' (x :: acc)
            | None => None
            end
        | [] => None
        end
      else if code c <? 32 then None
      else string_body r (c :: acc)
  end.

(** A number: an optional minus sign, an integer part without leading
    zeros, an optional fraction and an optional exponent; a dot or an
    exponent mark not followed by digits is left unread. *)
Definition number (l : list ascii) : option (json * list ascii) :=
  let (neg, l1) := match l with
                   | "-"%char :: r => (true, r)
                   | _ => (false, l)
                   end in
  let sign := if neg then -1 else 1 in
  match l1 with
  | d :: r1 =>
      if negb (is_digit d) then None
      else
        let '(ip, _, l2) := if Ascii.eqb d "0" then (0, 1, r1) else digits l1 0 0 in
        let '(m, fd, l3, isf) :=
          match l2 with
          | "."%char :: r2 =>
              let '(m', n, r3) := digits r2 ip 0 in
              if 0 <? n then (m', n, r3, true) else (ip, 0, l2, false)
          | _ => (ip, 0, l2, false)
          end in
        let '(ex, l4, ise) :=
          match l3 with
          | c :: r4 =>
              if Ascii.eqb c "e" || Ascii.eqb c "E" then
                let '(esign, r5) := match r4 with
                                    | "-"%char :: r => (-1, r)
                                    | "+"%char :: r => (1, r)
                                    | _ => (1, r4)
                                    end in
                let '(ev, n, r6) := digits r5 0 0 in
                if 0 <? n then (esign * ev, r6, true) else (0, l3, false)
              else (0, l3, false)
          | [] => (0, l3, false)
          end in
        if isf || ise then Some (JFloat (sign * m) (ex - fd), l4)
        else Some (JInt (sign * m), l4)
  | [] => None
  end.

Definition literal (l : list ascii) : option (json * list ascii) :=
  let try (w : string) (v : json) :=
    if starts_with (chars w) l
    then Some (v, skipn (length (chars w)) l) else None in
  match try "null" JNull, try "true" (JBool true), try "false" (JBool false) with
  | Some r, _, _ | _, Some r, _ | _, _, Some r => Some r
  | _, _, _ =>
      match try "NaN" JNonFinite, try "Infinity" JNonFinite,
            try "-Infinity" JNonFinite with
      | Some r, _, _ | _, Some r, _ | _, _, Some r => Some r
      | _, _, _ => number l
      end
  end.

(** A value, the elements of an array after its first, and the members
    of an object; the fuel bounds the nesting and the number of
    elements, and the length of the text is always enough. *)
Fixpoint value (fuel : nat) (l : list ascii) : option (json * list ascii) :=
  match fuel with
  | O => None
  | S f =>
      match l with
      | "["%char :: r =>
          match skip_ws r with
          | "]"%char :: r' => Some (JArr [], r')
          | r' => elements f r' []
          end
      | "{"%char :: r =>
          match skip_ws r with
          | "}"%char :: r' => Some (JObj [], r')
          | r' => members f r' []
          end
      | c :: r =>
          if Ascii.eqb c dquote then
            match string_body r [] with
            | Some (s, r') => Some (JStr s, r')
            | None => None
            end
          else literal l
      | [] => None
      end
  end
with elements (fuel : nat) (l : list ascii) (acc : list json)
  : option (json * list ascii) :=
  match fuel with
  | O => None
  | S f =>
      match value f l with
      | Some (v, r) =>
          match skip_ws r with
          | ","%char :: r' => elements f (skip_ws r') (v :: acc)
          | "]"%char :: r' => Some (JArr (rev (v :: acc)), r')
          | _ => None
          end
      | None => None
      end
  end
with members (fuel : nat) (l : list ascii) (acc : list (string * json))
  : option (json * list ascii) :=
  match fuel with
  | O => None
  | S f =>
      match l with
      | c :: r =>
          if Ascii.eqb c dquote then
            match string_body r [] with
            | Some (k, r1) =>
                match skip_ws r1 with
                | ":"%char :: r2 =>
                    match value f (skip_ws r2) with
                    | Some (v, r3) =>
                        match skip_ws r3 with
                        | ","%char :: r4 =>
                            members f (skip_ws r4) (dict_set acc k v)
                        | "}"%char :: r4 => Some (JObj (dict_set acc k v), r4)
                        | _ => None
                        end
                    | None => None
                    end
                | _ => None
                end
            | None => None
            end
          else None
      | [] => None
      end
  end.

(** [json.loads(s)] *)
Definition json_loads (s : string) : result json :=
  let l := chars s in
  match value (2 * length l + 2) (skip_ws l) with
  | Some (v, r) =>
      match skip_ws r with
      | [] => Ok v
      | _ => Raise (Exn JSONDecodeError "Extra data")
      end
  | None => Raise (Exn JSONDecodeError "Expecting value")
  end.

End JsonRef.

(** ** app/services/scraper_service.py: the raw unit

    The dictionary [_extract_jobs_from_scrape] and
    [_extract_jobs_from_crawl] build for one fetched page, with the keys
    they always set. *)

Module RawJob.
Record t := {
  url : string;
  career_page_id : string;
  company_name : string;
  raw_content : string;
  html_content : string;
  metadata : json;
  scraped_at : string
}.
End RawJob.

(** ** app/services/llm_service.py *)

(** The dictionary [_parse_llm_response] builds for one extracted job. *)
Module NormalizedJob.
Record t := {
  title : string;
  location : option string;
  job_type : option string;
  experience_level : option string;
  description : option string;
  requirements : option string;
  url : string;
  career_page_id : string;
  company_name : string;
  raw_data : RawJob.t
}.
End NormalizedJob.

(** [s or None] for a string [s]. *)
Definition or_none (s : string) : option string :=
  if PyStr.truthy s then Some s else None.

(** [s or t] for strings. *)
Definition or_else (s t : string) : string :=
  if PyStr.truthy s then s else t.

Section LLMService.

(** [json.loads] of the standard library. *)
Variable json_loads : string -> result json.

(** [self.client.chat(model, messages=[system, user], options)]: the
    external model, given the system and the user message. *)
Variable chat : string -> string -> result json.

(** The fixed text of the prompt around its two holes, the company name
    and the truncated content. *)
Variable prompt_template : string -> string -> string.

Definition system_message : string :=
  "You are a job posting data extraction assistant. Extract structured job information from raw career page content.".

Definition _build_normalization_prompt (raw_content company_name : string) : string :=
  prompt_template company_name (PyStr.prefix_of raw_content 8000).

(** [job.get(key, "").strip()] *)
Definition field (job : json) (key : string) : result string :=
  v ← py_get job key (JStr ""); py_strip v.

(** The dictionary literal of the loop body, its entries evaluated in
    the order they are written. *)
Definition normalized_job_of (job : json) (raw_job : RawJob.t)
  : result NormalizedJob.t :=
  title ← field job "title";
  location ← field job "location";
  job_type ← field job "job_type";
  experience_level ← field job "experience_level";
  description ← field job "description";
  requirements ← field job "requirements";
  url ← field job "url";
  mret {| NormalizedJob.title := title;
          NormalizedJob.location := or_none location;
          NormalizedJob.job_type := or_none job_type;
          NormalizedJob.experience_level := or_none experience_level;
          NormalizedJob.description := or_none description;
          NormalizedJob.requirements := or_none requirements;
          NormalizedJob.url := or_else url (RawJob.url raw_job);
          NormalizedJob.career_page_id := RawJob.career_page_id raw_job;
          NormalizedJob.company_name := RawJob.company_name raw_job;
          NormalizedJob.raw_data := raw_job |}.

(** [for job in jobs_data: ...], collecting [normalized_jobs]. *)
Fixpoint normalize_all (jobs_data : list json) (raw_job : RawJob.t)
  : result (list NormalizedJob.t) :=
  match jobs_data with
  | [] => Ok []
  | job :: rest =>
      title ← py_get job "title" JNull;
      if negb (py_truthy title) then normalize_all rest raw_job
      else
        normalized_job ← normalized_job_of job raw_job;
        normalized_jobs ← normalize_all rest raw_job;
        mret (normalized_job :: normalized_jobs)
  end.

(** The body of the [try] block. *)
Definition parse_body (llm_output : json) (raw_job : RawJob.t)
  : result (list NormalizedJob.t) :=
  llm_output ← py_strip llm_output;
  let start_idx := PyStr.find llm_output "[" in
  let end_idx := PyStr.rfind llm_output "]" + 1 in
  if (start_idx =? -1) || (end_idx =? 0) then Ok []
  else
    let json_str := PyStr.slice llm_output start_idx end_idx in
    jobs_data ← json_loads json_str;
    match jobs_data with
    | JArr jobs => normalize_all jobs raw_job
    | _ => Ok []
    end.

Definition _parse_llm_response (llm_output : json) (raw_job : RawJob.t)
  : result (list NormalizedJob.t) :=
  try_except (parse_body llm_output raw_job)
    (fun e => match exn_kind e with
              | JSONDecodeError => Ok []
              | _ => Ok []
              end).

Definition normalize_job_data (raw_job : RawJob.t)
  : result (list NormalizedJob.t) :=
  let raw_content := RawJob.raw_content raw_job in
  let company_name := RawJob.company_name raw_job in
  if negb (PyStr.truthy raw_content) then Ok []
  else
    let prompt := _build_normalization_prompt raw_content company_name in
    try_except
      (response ← chat system_message prompt;
       message ← py_subscript response "message";
       llm_output ← py_subscript message "content";
       _parse_llm_response llm_output raw_job)
      (fun e => Ok []).

End LLMService.

(** The keys [_parse_llm_response] reads from an element of the array. *)
Definition extracted_keys : list string :=
  ["title"; "location"; "job_type"; "experience_level";
   "description"; "requirements"; "url"]%string.

(** The element survives the check [if not job.get("title"): continue]. *)
Definition has_title (job : json) : bool :=
  match py_get job "title" JNull with
  | Ok title => py_truthy title
  | Raise _ => false
  end.

(** A text written with apostrophes for the double quotes of JSON. *)
Definition quoted (s : string) : string :=
  PyStr.text (map (fun c => if Ascii.eqb c "'" then JsonRef.dquote else c)
                  (PyStr.chars s)).

(** ** app/models: the rows

    A UUID is the text [str()] gives for it, a [DateTime] a number of
    seconds, a nullable column an [option]. *)

Module CareerPage.
Record t := {
  id : string;
  company_name : string;
  url : string;
  is_active : bool;
  last_scraped_at : option Z
}.
End CareerPage.

Module JobPosting.
Record t := {
  id : string;
  career_page_id : string;
  external_id : string;
  title : string;
  location : option string;
  job_type : option string;
  experience_level : option string;
  description : option string;
  requirements : option string;
  url : string;
  raw_data : RawJob.t;
  normalized_at : option Z;
  first_seen_at : Z;
  last_seen_at : Z;
  is_active : bool;
  created_at : Z
}.

(** [job.last_seen_at = t; job.is_active = True] *)
Definition seen_again (now : Z) (j : t) : t :=
  {| id := id j; career_page_id := career_page_id j;
     external_id := external_id j; title := title j;
     location := location j; job_type := job_type j;
     experience_level := experience_level j;
     description := description j; requirements := requirements j;
     url := url j; raw_data := raw_data j;
     normalized_at := normalized_at j; first_seen_at := first_seen_at j;
     last_seen_at := now; is_active := true; created_at := created_at j |}.
End JobPosting.

Module User.
Record t := {
  id : string;
  email : string;
  discord_webhook_url : option string;
  preferences : option (gmap string (list string));
  notification_channels : list string;
  is_active : bool
}.
End User.

Inductive NotificationChannel := EMAIL | DISCORD | DASHBOARD.
Inductive NotificationStatus := PENDING | SENT | FAILED.

Module Notification.
Record t := {
  id : string;
  user_id : string;
  job_posting_id : string;
  channel : NotificationChannel;
  status : NotificationStatus;
  sent_at : option Z;
  error_message : option string;
  created_at : Z
}.
End Notification.

Module NotificationQueue.
Record t := {
  id : string;
  user_id : string;
  job_posting_id : string;
  channels : string;
  priority : Z;
  created_at : Z
}.
End NotificationQueue.

(** Truthiness of a nullable string column: [None] and [""] are falsy. *)
Definition column_truthy (v : option string) : bool :=
  match v with
  | Some s => PyStr.truthy s
  | None => false
  end.

(** [v or default] for a nullable string column. *)
Definition column_or (v : option string) (default : string) : string :=
  match v with
  | Some s => or_else s default
  | None => default
  end.

(** ** app/services/matching_service.py *)

Definition _location_matches (job_location preferred_location : string) : bool :=
  let job_location := PyStr.strip (PyStr.lower job_location) in
  let preferred_location := PyStr.strip (PyStr.lower preferred_location) in
  if String.eqb job_location preferred_location then true
  else if PyStr.contains "remote" preferred_location
          && PyStr.contains "remote" job_location then true
  else if PyStr.contains preferred_location job_location
          || PyStr.contains job_location preferred_location then true
  else false.

(** [x in xs] for a list of strings. *)
Definition str_in (x : string) (xs : list string) : bool :=
  existsb (String.eqb x) xs.

(** [preferences.get(key, [])] *)
Definition pref_get (preferences : gmap string (list string)) (key : string)
  : list string :=
  default [] (preferences !! key).

Definition list_truthy {A} (l : list A) : bool :=
  match l with [] => false | _ => true end.

Definition check_user_match (user : User.t) (job : JobPosting.t) : bool :=
  let preferences := default ∅ (User.preferences user) in
  if bool_decide (preferences = ∅) then true
  else
    let preferred_locations := pref_get preferences "locations" in
    if list_truthy preferred_locations
       && (negb (column_truthy (JobPosting.location job))
           || negb (existsb (_location_matches
                               (default ""%string (JobPosting.location job)))
                            preferred_locations))
    then false
    else
      let preferred_job_types := pref_get preferences "job_types" in
      if list_truthy preferred_job_types
         && (negb (column_truthy (JobPosting.job_type job))
             || negb (str_in (default ""%string (JobPosting.job_type job))
                             preferred_job_types))
      then false
      else
        let preferred_experience_levels :=
          pref_get preferences "experience_levels" in
        if list_truthy preferred_experience_levels
           && (negb (column_truthy (JobPosting.experience_level job))
               || negb (str_in (default ""%string (JobPosting.experience_level job))
                               preferred_experience_levels))
        then false
        else
          let preferred_company_ids := pref_get preferences "company_ids" in
          if list_truthy preferred_company_ids
             && negb (str_in (JobPosting.career_page_id job) preferred_company_ids)
          then false
          else true.

(** ** The SQLAlchemy session

    [db.add], [db.delete] and attribute assignments change the session;
    [db.commit()] writes the session to the database.  Queries read the
    session.  The world also counts the readings of the clock and the
    identifiers drawn, and logs every call to a transport. *)

Record Store := {
  career_pages : list CareerPage.t;
  users : list User.t;
  job_postings : list JobPosting.t;
  notification_queue : list NotificationQueue.t;
  notifications : list Notification.t
}.

Record EmailMessage := {
  Subject : string;
  From : string;
  To : string;
  html_part : string
}.

Record DiscordEmbed := {
  embed_title : string;
  embed_description : string;
  embed_color : Z;
  embed_fields : list (string * string * bool);
  embed_footer : string
}.

Record DiscordWebhook := {
  webhook_url : string;
  embeds : list DiscordEmbed
}.

Inductive Delivery :=
| MailDelivery (message : EmailMessage)
| WebhookDelivery (webhook : DiscordWebhook).

Record World := {
  session : Store;
  database : Store;
  clock : nat;
  drawn : nat;
  outbox : list Delivery
}.

Definition with_session (f : Store -> Store) (w : World) : World :=
  {| session := f (session w); database := database w;
     clock := clock w; drawn := drawn w; outbox := outbox w |}.

Definition set_job_postings (l : list JobPosting.t) (s : Store) : Store :=
  {| career_pages := career_pages s; users := users s; job_postings := l;
     notification_queue := notification_queue s;
     notifications := notifications s |}.

Definition set_notification_queue (l : list NotificationQueue.t) (s : Store) : Store :=
  {| career_pages := career_pages s; users := users s;
     job_postings := job_postings s; notification_queue := l;
     notifications := notifications s |}.

Definition set_notifications (l : list Notification.t) (s : Store) : Store :=
  {| career_pages := career_pages s; users := users s;
     job_postings := job_postings s;
     notification_queue := notification_queue s; notifications := l |}.

(** A computation on the world that returns or raises; what it did to
    the world before raising stays done. *)
Definition M (A : Type) : Type := World -> result A * World.

#[global] Instance M_ret : MRet M := fun A a w => (Ok a, w).
#[global] Instance M_bind : MBind M := fun A B k m w =>
  match m w with
  | (Ok a, w') => k a w'
  | (Raise e, w') => (Raise e, w')
  end.

Definition raise {A} (e : exn) : M A := fun w => (Raise e, w).

Definition lift {A} (r : result A) : M A := fun w => (r, w).

(** [try: body  except Exception as e: handler(e)] *)
Definition try_catch {A} (body : M A) (handler : exn -> M A) : M A :=
  fun w => match body w with
           | (Ok a, w') => (Ok a, w')
           | (Raise e, w') => handler e w'
           end.

Definition get_session : M Store := fun w => (Ok (session w), w).

Definition modify_session (f : Store -> Store) : M unit :=
  fun w => (Ok tt, with_session f w).

(** [db.commit()] *)
Definition commit : M unit :=
  fun w => (Ok tt, {| session := session w; database := session w;
                      clock := clock w; drawn := drawn w; outbox := outbox w |}).

(** [for x in l: body(x)] *)
Fixpoint for_each {A} (l : list A) (body : A -> M unit) : M unit :=
  match l with
  | [] => mret tt
  | x :: r => body x ;; for_each r body
  end.

(** The first row with a property, as [query(...).filter(...).first()]. *)
Definition first_row {A} (p : A -> bool) (rows : list A) : option A :=
  List.find p rows.

(** Assignment to the attributes of the row [first()] returned. *)
Fixpoint update_first {A} (p : A -> bool) (f : A -> A) (rows : list A) : list A :=
  match rows with
  | [] => []
  | x :: r => if p x then f x :: r else x :: update_first p f r
  end.

Section Pipeline.

(** [datetime.utcnow()]: the n-th reading of the clock. *)
Variable utcnow : nat -> Z.

(** [uuid.uuid4()]: the n-th identifier drawn, for a primary key. *)
Variable uuid4 : nat -> string.

(** [aiosmtplib.send] and [webhook.execute()]: what the n-th call to a
    transport does with its message. *)
Variable smtp_send : nat -> EmailMessage -> result unit.
Variable webhook_execute : nat -> DiscordWebhook -> result unit.

(** [settings.email_from], the markup of the mail around the values it
    shows, and [strftime('%Y-%m-%d %H:%M')]. *)
Variable email_from : string.
Variable email_markup : list string -> string.
Variable strftime : Z -> string.

Definition now : M Z :=
  fun w => (Ok (utcnow (clock w)),
            {| session := session w; database := database w;
               clock := S (clock w); drawn := drawn w; outbox := outbox w |}).

Definition new_id : M string :=
  fun w => (Ok (uuid4 (drawn w)),
            {| session := session w; database := database w;
               clock := clock w; drawn := S (drawn w); outbox := outbox w |}).

Definition deliver {A} (d : Delivery) (transport : nat -> result A) : M A :=
  fun w => (transport (length (outbox w)),
            {| session := session w; database := database w;
               clock := clock w; drawn := drawn w;
               outbox := outbox w ++ [d] |}).

(** *** app/workers/scrape_worker.py *)

Definition save_new_job (normalized_job : NormalizedJob.t) (career_page_id : string)
  : M (option JobPosting.t) :=
  let external_id :=
    generate_job_external_id career_page_id
      (NormalizedJob.url normalized_job) (NormalizedJob.title normalized_job) in
  let same_key j := String.eqb (JobPosting.external_id j) external_id in
  db ← get_session;
  match first_row same_key (job_postings db) with
  | Some existing_job =>
      t ← now;
      modify_session (fun s =>
        set_job_postings
          (update_first same_key (JobPosting.seen_again t) (job_postings s)) s);;
      commit;;
      mret None
  | None =>
      normalized_at ← now;
      first_seen_at ← now;
      last_seen_at ← now;
      id ← new_id;
      created_at ← now;
      let new_job :=
        {| JobPosting.id := id;
           JobPosting.career_page_id := career_page_id;
           JobPosting.external_id := external_id;
           JobPosting.title := NormalizedJob.title normalized_job;
           JobPosting.location := NormalizedJob.location normalized_job;
           JobPosting.job_type := NormalizedJob.job_type normalized_job;
           JobPosting.experience_level :=
             NormalizedJob.experience_level normalized_job;
           JobPosting.description := NormalizedJob.description normalized_job;
           JobPosting.requirements := NormalizedJob.requirements normalized_job;
           JobPosting.url := NormalizedJob.url normalized_job;
           JobPosting.raw_data := NormalizedJob.raw_data normalized_job;
           JobPosting.normalized_at := Some normalized_at;
           JobPosting.first_seen_at := first_seen_at;
           JobPosting.last_seen_at := last_seen_at;
           JobPosting.is_active := true;
           JobPosting.created_at := created_at |} in
      modify_session (fun s =>
        set_job_postings (job_postings s ++ [new_job]) s);;
      commit;;
      mret (Some new_job)
  end.

(** *** app/services/notification_service.py *)

(** [db.add(Notification(...))]: the row gets its key and its creation
    time when it is written. *)
Definition add_notification (user : User.t) (job : JobPosting.t)
    (channel : NotificationChannel) (status : NotificationStatus)
    (sent_at : option Z) (error_message : option string) : M unit :=
  id ← new_id;
  created_at ← now;
  modify_session (fun s =>
    set_notifications
      (notifications s ++
         [ {| Notification.id := id;
              Notification.user_id := User.id user;
              Notification.job_posting_id := JobPosting.id job;
              Notification.channel := channel;
              Notification.status := status;
              Notification.sent_at := sent_at;
              Notification.error_message := error_message;
              Notification.created_at := created_at |} ]) s).

(** [job.career_page.company_name]: the relationship is [None] when no
    career page has the key. *)
Definition career_page_company_name (job : JobPosting.t) : M string :=
  db ← get_session;
  match first_row (fun c => String.eqb (CareerPage.id c)
                                        (JobPosting.career_page_id job))
                  (career_pages db) with
  | Some career_page => mret (CareerPage.company_name career_page)
  | None => raise (Exn AttributeError
                       "'NoneType' object has no attribute 'company_name'")
  end.

Definition _create_email_html (user : User.t) (job : JobPosting.t) : M string :=
  company_name ← career_page_company_name job;
  mret (email_markup
          [ JobPosting.title job;
            company_name;
            column_or (JobPosting.location job) "Not specified";
            column_or (JobPosting.job_type job) "Not specified";
            column_or (JobPosting.experience_level job) "Not specified";
            column_or (JobPosting.description job) "No description available";
            column_or (JobPosting.requirements job) "No requirements specified";
            JobPosting.url job ]).

Definition send_email_notification (user : User.t) (job : JobPosting.t) : M unit :=
  try_catch
    (company_name ← career_page_company_name job;
     let subject :=
       ("New Job Match: " ++ JobPosting.title job ++ " at " ++ company_name)%string in
     html_body ← _create_email_html user job;
     let message := {| Subject := subject; From := email_from;
                       To := User.email user; html_part := html_body |} in
     deliver (MailDelivery message) (fun n => smtp_send n message);;
     sent_at ← now;
     add_notification user job EMAIL SENT (Some sent_at) None;;
     commit)
    (fun e =>
       add_notification user job EMAIL FAILED None (Some (exn_text e));;
       commit).

(** The two marks, outside ASCII, that open the title of the embed and
    the name of its link field. *)
Variable title_mark : string.
Variable link_mark : string.

Definition send_discord_notification (user : User.t) (job : JobPosting.t) : M unit :=
  if negb (column_truthy (User.discord_webhook_url user)) then mret tt
  else
    try_catch
      (company_name ← career_page_company_name job;
       let embed :=
         {| embed_title :=
              (title_mark ++ " New Job Match: " ++ JobPosting.title job)%string;
            embed_description :=
              column_or (JobPosting.description job) "No description available";
            embed_color := 0x3498db;
            embed_fields :=
              [ ("Company"%string, company_name, true);
                ("Location"%string,
                 column_or (JobPosting.location job) "Not specified", true);
                ("Job Type"%string,
                 column_or (JobPosting.job_type job) "Not specified", true);
                ("Experience"%string,
                 column_or (JobPosting.experience_level job) "Not specified", true) ]
              ++ (if column_truthy (JobPosting.requirements job)
                  then [ ("Requirements"%string,
                          PyStr.prefix_of
                            (default ""%string (JobPosting.requirements job)) 1024,
                          false) ]
                  else [])
              ++ [ ((link_mark ++ " Apply")%string,
                    ("[View Job Posting](" ++ JobPosting.url job ++ ")")%string,
                    false) ];
            embed_footer :=
              ("Posted: " ++ strftime (JobPosting.first_seen_at job))%string |} in
       let webhook :=
         {| webhook_url := default ""%string (User.discord_webhook_url user);
            embeds := [embed] |} in
       deliver (WebhookDelivery webhook) (fun n => webhook_execute n webhook);;
       sent_at ← now;
       add_notification user job DISCORD SENT (Some sent_at) None;;
       commit)
      (fun e =>
         add_notification user job DISCORD FAILED None (Some (exn_text e));;
         commit).

Definition send_dashboard_notification (user : User.t) (job : JobPosting.t) : M unit :=
  try_catch
    (sent_at ← now;
     add_notification user job DASHBOARD SENT (Some sent_at) None;;
     commit)
    (fun e => mret tt).

(** [db.delete(entry)] *)
Definition delete_entry (entry : NotificationQueue.t) : M unit :=
  modify_session (fun s =>
    set_notification_queue
      (List.filter (fun q => negb (String.eqb (NotificationQueue.id q)
                                         (NotificationQueue.id entry)))
              (notification_queue s)) s).

(** The body of the loop over the channels of one entry. *)
Definition notify_channel (user : User.t) (job : JobPosting.t) (channel : string)
  : M unit :=
  let channel := PyStr.strip channel in
  if String.eqb channel "email" then send_email_notification user job
  else if String.eqb channel "discord" then send_discord_notification user job
  else if String.eqb channel "dashboard" then send_dashboard_notification user job
  else mret tt.

(** The body of the loop over the queue entries, with its [try]. *)
Definition process_entry (entry : NotificationQueue.t) : M unit :=
  try_catch
    (db ← get_session;
     let user := first_row (fun u => String.eqb (User.id u)
                                       (NotificationQueue.user_id entry))
                           (users db) in
     let job := first_row (fun j => String.eqb (JobPosting.id j)
                                      (NotificationQueue.job_posting_id entry))
                          (job_postings db) in
     match user, job with
     | Some user, Some job =>
         let channels := PyStr.split (NotificationQueue.channels entry) "," in
         for_each channels (notify_channel user job);;
         delete_entry entry;;
         commit
     | _, _ => delete_entry entry
     end)
    (fun e => mret tt).

Definition process_notification_queue : M unit :=
  db ← get_session;
  let queue_entries := notification_queue db in
  if negb (list_truthy queue_entries) then mret tt
  else for_each queue_entries process_entry.

End Pipeline.

(** ** Sample data *)

Definition response_example : string :=
  quoted "Here you go: [{'title':'X'}] thanks".

Definition response_with_null : string :=
  quoted "[{'title':'Designer'},{'title':'Engineer','location':null}]".

Definition model_down : string -> string -> result json :=
  fun _ _ => Raise (Exn OtherError "connection refused").

Definition plain_prompt (company_name content : string) : string :=
  ("Extract ALL job postings for " ++ company_name ++ ": " ++ content)%string.

Definition clock_by_minute (n : nat) : Z := 1705312800 + 60 * Z.of_nat n.

Definition numbered_uuid (n : nat) : string :=
  String.concat "-" ("uuid"%string :: repeat "i"%string n).

Definition world_of (s : Store) : World :=
  {| session := s; database := s; clock := 0; drawn := 0; outbox := [] |}.

Definition empty_store : Store :=
  {| career_pages := []; users := []; job_postings := [];
     notification_queue := []; notifications := [] |}.

Definition sample_page : RawJob.t :=
  {| RawJob.url := "https://careers.example/";
     RawJob.career_page_id := "cp-1";
     RawJob.company_name := "Example";
     RawJob.raw_content := "We are hiring";
     RawJob.html_content := "";
     RawJob.metadata := JObj [];
     RawJob.scraped_at := "2024-01-15T10:00:00" |}.

Definition candidate_first : NormalizedJob.t :=
  {| NormalizedJob.title := "Engineer";
     NormalizedJob.location := Some "Remote"%string;
     NormalizedJob.job_type := Some "Full-time"%string;
     NormalizedJob.experience_level := None;
     NormalizedJob.description := Some "Build things"%string;
     NormalizedJob.requirements := None;
     NormalizedJob.url := "https://careers.example/jobs/1";
     NormalizedJob.career_page_id := "cp-1";
     NormalizedJob.company_name := "Example";
     NormalizedJob.raw_data := sample_page |}.

Definition candidate_second : NormalizedJob.t :=
  {| NormalizedJob.title := "Engineer";
     NormalizedJob.location := Some "Berlin"%string;
     NormalizedJob.job_type := None;
     NormalizedJob.experience_level := Some "Senior"%string;
     NormalizedJob.description := None;
     NormalizedJob.requirements := Some "Rust"%string;
     NormalizedJob.url := "https://careers.example/jobs/1";
     NormalizedJob.career_page_id := "cp-1";
     NormalizedJob.company_name := "Example";
     NormalizedJob.raw_data := sample_page |}.

Definition subscriber_remote_only : User.t :=
  {| User.id := "u-1"; User.email := "ada@example.org";
     User.discord_webhook_url := None;
     User.preferences := Some {[ "locations"%string := ["Remote"%string] ]};
     User.notification_channels := ["email"%string];
     User.is_active := true |}.

Definition posting_without_location : JobPosting.t :=
  {| JobPosting.id := "j-1"; JobPosting.career_page_id := "cp-1";
     JobPosting.external_id := generate_job_external_id "cp-1" "https://careers.example/" "Engineer";
     JobPosting.title := "Engineer"; JobPosting.location := None;
     JobPosting.job_type := Some "Full-time"%string;
     JobPosting.experience_level := None;
     JobPosting.description := None; JobPosting.requirements := None;
     JobPosting.url := "https://careers.example/";
     JobPosting.raw_data := sample_page;
     JobPosting.normalized_at := Some 100; JobPosting.first_seen_at := 100;
     JobPosting.last_seen_at := 100; JobPosting.is_active := true;
     JobPosting.created_at := 100 |}.

Definition sample_career_page : CareerPage.t :=
  {| CareerPage.id := "cp-1"; CareerPage.company_name := "Example";
     CareerPage.url := "https://careers.example/";
     CareerPage.is_active := true; CareerPage.last_scraped_at := None |}.

Definition sample_user : User.t :=
  {| User.id := "u-1"; User.email := "ada@example.org";
     User.discord_webhook_url := Some "https://discord.example/hook"%string;
     User.preferences := None;
     User.notification_channels := ["email"%string; "discord"%string];
     User.is_active := true |}.

Definition sample_entry : NotificationQueue.t :=
  {| NotificationQueue.id := "q-1"; NotificationQueue.user_id := "u-1";
     NotificationQueue.job_posting_id := "j-1";
     NotificationQueue.channels := "email,discord";
     NotificationQueue.priority := 0; NotificationQueue.created_at := 100 |}.

Definition stale_entry : NotificationQueue.t :=
  {| NotificationQueue.id := "q-2"; NotificationQueue.user_id := "u-9";
     NotificationQueue.job_posting_id := "j-1";
     NotificationQueue.channels := "email";
     NotificationQueue.priority := 0; NotificationQueue.created_at := 100 |}.

Definition sms_entry : NotificationQueue.t :=
  {| NotificationQueue.id := "q-3"; NotificationQueue.user_id := "u-1";
     NotificationQueue.job_posting_id := "j-1";
     NotificationQueue.channels := "sms";
     NotificationQueue.priority := 0; NotificationQueue.created_at := 100 |}.

Definition sample_store : Store :=
  {| career_pages := [sample_career_page]; users := [sample_user];
     job_postings := [posting_without_location];
     notification_queue := [sample_entry; stale_entry; sms_entry];
     notifications := [] |}.

Definition mail_accepts : nat -> EmailMessage -> result unit :=
  fun _ _ => Ok tt.

Definition webhook_refuses : nat -> DiscordWebhook -> result unit :=
  fun _ _ => Raise (Exn OtherError "404 Not Found").

Definition plain_markup (values : list string) : string :=
  String.concat "; " values.

Definition plain_strftime (t : Z) : string := "2024-01-15 10:00".

(** A step returns and leaves the queue as it was. *)
Definition keeps_queue (m : M unit) : Prop :=
  forall w, exists w', m w = (Ok tt, w')
    /\ notification_queue (session w') = notification_queue (session w)
    /\ users (session w') = users (session w)
    /\ job_postings (session w') = job_postings (session w).

(** ** The rest of the pipeline

    The functions around those above: the recipients of a posting and
    their queue entries, the fetch of a career page, the run over one
    career page and over all of them, and the worker that drains the
    queue. *)

(** The page Firecrawl returns, with the keys the scraper reads; a key
    that is present holds text, [None] is a key that is absent. *)
Record FirecrawlPage := {
  page_url : option string;
  markdown : option string;
  html : option string;
  page_metadata : option json
}.

(** [db = SessionLocal()]: a new session, with nothing pending. *)
Definition SessionLocal : M unit :=
  fun w => (Ok tt, {| session := database w; database := database w;
                      clock := clock w; drawn := drawn w; outbox := outbox w |}).

(** [db.close()]: what was not committed is given up. *)
Definition close : M unit :=
  fun w => (Ok tt, {| session := database w; database := database w;
                      clock := clock w; drawn := drawn w; outbox := outbox w |}).

(** [try: body  finally: final] *)
Definition try_finally {A} (body : M A) (final : M unit) : M A :=
  fun w => match body w with
           | (r, w') => match final w' with
                        | (Ok _, w'') => (r, w'')
                        | (Raise e, w'') => (Raise e, w'')
                        end
           end.

Definition set_career_pages (l : list CareerPage.t) (s : Store) : Store :=
  {| career_pages := l; users := users s; job_postings := job_postings s;
     notification_queue := notification_queue s;
     notifications := notifications s |}.

(** [career_page.last_scraped_at = t] *)
Definition scraped_at_time (t : Z) (c : CareerPage.t) : CareerPage.t :=
  {| CareerPage.id := CareerPage.id c;
     CareerPage.company_name := CareerPage.company_name c;
     CareerPage.url := CareerPage.url c;
     CareerPage.is_active := CareerPage.is_active c;
     CareerPage.last_scraped_at := Some t |}.

(** The key the worker computes for a candidate of a career page. *)
Definition key_of (career_page_id : string) (normalized_job : NormalizedJob.t)
  : string :=
  generate_job_external_id career_page_id
    (NormalizedJob.url normalized_job) (NormalizedJob.title normalized_job).

(** The keys of the postings the session holds. *)
Definition keys (w : World) : list string :=
  map JobPosting.external_id (job_postings (session w)).

Section Orchestration.

Variable utcnow : nat -> Z.
Variable uuid4 : nat -> string.

(** *** app/services/matching_service.py, continued *)

(** [for user in all_users: if check_user_match(user, job): append] *)
Fixpoint matching_users (all_users : list User.t) (job : JobPosting.t)
  : list User.t :=
  match all_users with
  | [] => []
  | user :: rest =>
      if check_user_match user job then user :: matching_users rest job
      else matching_users rest job
  end.

Definition find_matching_users (job : JobPosting.t) : M (list User.t) :=
  db ← get_session;
  let all_users := List.filter User.is_active (users db) in
  mret (matching_users all_users job).

Definition set_queue_append (entry : NotificationQueue.t) (s : Store) : Store :=
  set_notification_queue (notification_queue s ++ [entry]) s.

(** [user.notification_channels or ["email"]] *)
Definition channels_of (user : User.t) : list string :=
  if list_truthy (User.notification_channels user)
  then User.notification_channels user else ["email"%string].

Definition queue_notifications (users : list User.t) (job : JobPosting.t) : M unit :=
  for_each users (fun user =>
    let channels := channels_of user in
    let channels_str := String.concat "," channels in
    created_at ← now utcnow;
    id ← new_id uuid4;
    modify_session (set_queue_append
      {| NotificationQueue.id := id;
         NotificationQueue.user_id := User.id user;
         NotificationQueue.job_posting_id := JobPosting.id job;
         NotificationQueue.channels := channels_str;
         NotificationQueue.priority := 0;
         NotificationQueue.created_at := created_at |}));;
  commit.

(** *** app/workers/scrape_worker.py, continued *)

Definition process_new_job_notifications (job : JobPosting.t) : M unit :=
  matching_users ← find_matching_users job;
  if negb (list_truthy matching_users) then mret tt
  else queue_notifications matching_users job.

(** Step 3 of [scrape_single_career_page]: the loop over the normalized
    jobs, with its count of new jobs. *)
Fixpoint save_new_jobs (all_normalized_jobs : list NormalizedJob.t)
    (career_page_id : string) (new_jobs_count : nat) : M nat :=
  match all_normalized_jobs with
  | [] => mret new_jobs_count
  | normalized_job :: rest =>
      new_job ← save_new_job utcnow uuid4 normalized_job career_page_id;
      match new_job with
      | Some new_job =>
          process_new_job_notifications new_job;;
          save_new_jobs rest career_page_id (S new_jobs_count)
      | None => save_new_jobs rest career_page_id new_jobs_count
      end
  end.

(** *** app/services/scraper_service.py *)

(** [self.firecrawl.scrape_url] and [self.firecrawl.crawl_url] with the
    address and, for a crawl, the limit of pages; the column
    [scrape_config] of a career page, a dictionary or [None]; and
    [isoformat()]. *)
Variable scrape_url : string -> result FirecrawlPage.
Variable crawl_url : string -> json -> result (option (list FirecrawlPage)).
Variable scrape_config : CareerPage.t -> option (list (string * json)).
Variable isoformat : Z -> string.

Definition _extract_jobs_from_scrape (result : FirecrawlPage)
    (career_page : CareerPage.t) : M (list RawJob.t) :=
  t ← now utcnow;
  let jobs :=
    [ {| RawJob.url := CareerPage.url career_page;
         RawJob.career_page_id := CareerPage.id career_page;
         RawJob.company_name := CareerPage.company_name career_page;
         RawJob.raw_content := default ""%string (markdown result);
         RawJob.html_content := default ""%string (html result);
         RawJob.metadata := default (JObj []) (page_metadata result);
         RawJob.scraped_at := isoformat t |} ] in
  mret jobs.

(** [for page in pages: jobs.append(job)] *)
Fixpoint _extract_jobs_from_pages (pages : list FirecrawlPage)
    (career_page : CareerPage.t) : M (list RawJob.t) :=
  match pages with
  | [] => mret []
  | page :: rest =>
      t ← now utcnow;
      let job :=
        {| RawJob.url := default (CareerPage.url career_page) (page_url page);
           RawJob.career_page_id := CareerPage.id career_page;
           RawJob.company_name := CareerPage.company_name career_page;
           RawJob.raw_content := default ""%string (markdown page);
           RawJob.html_content := default ""%string (html page);
           RawJob.metadata := default (JObj []) (page_metadata page);
           RawJob.scraped_at := isoformat t |} in
      jobs ← _extract_jobs_from_pages rest career_page;
      mret (job :: jobs)
  end.

Definition _extract_jobs_from_crawl (result : option (list FirecrawlPage))
    (career_page : CareerPage.t) : M (list RawJob.t) :=
  let pages := default [] result in
  _extract_jobs_from_pages pages career_page.

Definition config_get (config : list (string * json)) (key : string)
    (default : json) : json :=
  match dict_get config key with Some v => v | None => default end.

Definition scrape_career_page (career_page : CareerPage.t) : M (list RawJob.t) :=
  try_catch
    (let scrape_config := default [] (scrape_config career_page) in
     raw_jobs ←
       (if py_truthy (config_get scrape_config "multi_page" (JBool false))
        then
          result ← lift (crawl_url (CareerPage.url career_page)
                           (config_get scrape_config "page_limit" (JInt 10)));
          _extract_jobs_from_crawl result career_page
        else
          result ← lift (scrape_url (CareerPage.url career_page));
          _extract_jobs_from_scrape result career_page);
     t ← now utcnow;
     modify_session (fun s =>
       set_career_pages
         (update_first (fun c => String.eqb (CareerPage.id c)
                                            (CareerPage.id career_page))
                       (scraped_at_time t) (career_pages s)) s);;
     commit;;
     mret raw_jobs)
    (fun e => mret []).

(** *** app/workers/scrape_worker.py: the run *)

Variable json_loads : string -> result json.
Variable chat : string -> string -> result json.
Variable prompt_template : string -> string -> string.

(** Step 2: [for raw_job in raw_jobs: all_normalized_jobs.extend(...)] *)
Fixpoint normalize_each (raw_jobs : list RawJob.t) : M (list NormalizedJob.t) :=
  match raw_jobs with
  | [] => mret []
  | raw_job :: rest =>
      normalized_jobs ← lift (normalize_job_data json_loads chat
                                prompt_template raw_job);
      others ← normalize_each rest;
      mret (normalized_jobs ++ others)
  end.

Definition scrape_single_career_page (career_page : CareerPage.t) : M unit :=
  try_catch
    (raw_jobs ← scrape_career_page career_page;
     if negb (list_truthy raw_jobs) then mret tt
     else
       all_normalized_jobs ← normalize_each raw_jobs;
       if negb (list_truthy all_normalized_jobs) then mret tt
       else
         new_jobs_count ← save_new_jobs all_normalized_jobs
                            (CareerPage.id career_page) 0;
         mret tt)
    (fun e => mret tt).

Definition run_scrape_pipeline : M unit :=
  SessionLocal;;
  try_finally
    (try_catch
       (db ← get_session;
        let career_pages := List.filter CareerPage.is_active (career_pages db) in
        if negb (list_truthy career_pages) then mret tt
        else for_each career_pages scrape_single_career_page)
       (fun e => mret tt))
    close.

End Orchestration.

(** *** app/workers/notification_worker.py *)

Section NotificationWorker.

Variable utcnow : nat -> Z.
Variable uuid4 : nat -> string.
Variable smtp_send : nat -> EmailMessage -> result unit.
Variable webhook_execute : nat -> DiscordWebhook -> result unit.
Variable email_from : string.
Variable email_markup : list string -> string.
Variable strftime : Z -> string.
Variable title_mark : string.
Variable link_mark : string.

Definition run_notification_pipeline : M unit :=
  SessionLocal;;
  try_finally
    (try_catch
       (process_notification_queue utcnow uuid4 smtp_send webhook_execute
          email_from email_markup strftime title_mark link_mark)
       (fun e => mret tt))
    close.

End NotificationWorker.

(** ** Frames

    What a step leaves alone. *)

(** The two stores differ in their queue at most. *)
Definition same_but_queue (s s' : Store) : Prop :=
  career_pages s' = career_pages s /\ users s' = users s
  /\ job_postings s' = job_postings s /\ notifications s' = notifications s.

(** The two stores differ in their notification records at most. *)
Definition same_but_notifications (s s' : Store) : Prop :=
  career_pages s' = career_pages s /\ users s' = users s
  /\ job_postings s' = job_postings s
  /\ notification_queue s' = notification_queue s.

(** The entry made for a recipient of a posting. *)
Definition entry_for (job : JobPosting.t) (user : User.t)
    (entry : NotificationQueue.t) : Prop :=
  NotificationQueue.user_id entry = User.id user
  /\ NotificationQueue.job_posting_id entry = JobPosting.id job
  /\ NotificationQueue.channels entry = String.concat "," (channels_of user)
  /\ NotificationQueue.priority entry = 0.

(** A record as the dispatcher writes them: sent, with its time and no
    error, or failed, with its error and no time. *)
Definition sound_record (n : Notification.t) : Prop :=
  (Notification.status n = SENT /\ Notification.sent_at n <> None
   /\ Notification.error_message n = None)
  \/ (Notification.status n = FAILED /\ Notification.sent_at n = None
      /\ Notification.error_message n <> None).

(** The queue without the rows that have the key of one of the entries. *)
Definition without (entries queue : list NotificationQueue.t)
  : list NotificationQueue.t :=
  fold_left
    (fun queue entry =>
       List.filter (fun q => negb (String.eqb (NotificationQueue.id q)
                                              (NotificationQueue.id entry)))
                   queue)
    entries queue.

(** The subscriber or the posting of the entry is not in the store. *)
Definition stale (s : Store) (entry : NotificationQueue.t) : Prop :=
  first_row (fun u => String.eqb (User.id u) (NotificationQueue.user_id entry))
            (users s) = None
  \/ first_row (fun j => String.eqb (JobPosting.id j)
                           (NotificationQueue.job_posting_id entry))
               (job_postings s) = None.

(** What a scrape run may do to a store: career pages keep their keys,
    subscribers and notification records are as before, queue entries
    and posting keys are only added, after those that were there. *)
Definition store_grows (s s' : Store) : Prop :=
  map CareerPage.id (career_pages s') = map CareerPage.id (career_pages s)
  /\ users s' = users s
  /\ notifications s' = notifications s
  /\ (exists added, notification_queue s' = notification_queue s ++ added)
  /\ (exists added,
        map JobPosting.external_id (job_postings s')
        = map JobPosting.external_id (job_postings s) ++ added).

(** A step of a scrape run: the session grows, nothing is sent, and the
    step either does nothing at all or ends on a commit. *)
Definition grows (w w' : World) : Prop :=
  store_grows (session w) (session w')
  /\ outbox w' = outbox w
  /\ (w' = w \/ database w' = session w').

Definition sample_pages : list FirecrawlPage :=
  [ {| page_url := Some "https://acme.example/careers?page=2"%string;
       markdown := Some "Engineer, Remote"%string; html := None;
       page_metadata := None |};
    {| page_url := None; markdown := None; html := None;
       page_metadata := None |} ].

Definition crawl_two_pages : CareerPage.t -> option (list (string * json)) :=
  fun _ => Some [("multi_page"%string, JBool true);
                 ("page_limit"%string, JInt 2)].


(** ** Shapes of the extracted candidates *)

(** The text has no white space at its two ends. *)
Definition trimmed (s : string) : Prop := PyStr.strip s = s.

(** An optional field is absent, or holds a text that is trimmed and
    not empty. *)
Definition optional_ok (v : option string) : Prop :=
  match v with
  | None => True
  | Some s => s <> ""%string /\ trimmed s
  end.

Definition well_formed (raw_job : RawJob.t) (nj : NormalizedJob.t) : Prop :=
  trimmed (NormalizedJob.title nj)
  /\ optional_ok (NormalizedJob.location nj)
  /\ optional_ok (NormalizedJob.job_type nj)
  /\ optional_ok (NormalizedJob.experience_level nj)
  /\ optional_ok (NormalizedJob.description nj)
  /\ optional_ok (NormalizedJob.requirements nj)
  /\ (NormalizedJob.url nj = RawJob.url raw_job
      \/ (NormalizedJob.url nj <> ""%string /\ trimmed (NormalizedJob.url nj)))
  /\ NormalizedJob.career_page_id nj = RawJob.career_page_id raw_job
  /\ NormalizedJob.company_name nj = RawJob.company_name raw_job
  /\ NormalizedJob.raw_data nj = raw_job.

(** The raw unit with another content, and the candidate with another
    raw unit behind it. *)
Definition with_raw_content (content : string) (raw_job : RawJob.t) : RawJob.t :=
  {| RawJob.url := RawJob.url raw_job;
     RawJob.career_page_id := RawJob.career_page_id raw_job;
     RawJob.company_name := RawJob.company_name raw_job;
     RawJob.raw_content := content;
     RawJob.html_content := RawJob.html_content raw_job;
     RawJob.metadata := RawJob.metadata raw_job;
     RawJob.scraped_at := RawJob.scraped_at raw_job |}.

Definition with_raw_data (raw_job : RawJob.t) (nj : NormalizedJob.t)
  : NormalizedJob.t :=
  {| NormalizedJob.title := NormalizedJob.title nj;
     NormalizedJob.location := NormalizedJob.location nj;
     NormalizedJob.job_type := NormalizedJob.job_type nj;
     NormalizedJob.experience_level := NormalizedJob.experience_level nj;
     NormalizedJob.description := NormalizedJob.description nj;
     NormalizedJob.requirements := NormalizedJob.requirements nj;
     NormalizedJob.url := NormalizedJob.url nj;
     NormalizedJob.career_page_id := NormalizedJob.career_page_id nj;
     NormalizedJob.company_name := NormalizedJob.company_name nj;
     NormalizedJob.raw_data := raw_job |}.

(** A content of [n] times the letter x, then the given end. *)
Definition long_content (n : nat) (ending : string) : string :=
  (PyStr.text (repeat "x"%char n) ++ ending)%string.

Definition long_raw_job (ending : string) : RawJob.t :=
  {| RawJob.url := "https://acme.example/careers";
     RawJob.career_page_id := "page-1";
     RawJob.company_name := "Acme";
     RawJob.raw_content := long_content (Z.to_nat 8000) ending;
     RawJob.html_content := "";
     RawJob.metadata := JObj [];
     RawJob.scraped_at := "2024-01-15T10:00:00" |}.

(** A model that answers every question with the given text. *)
Definition model_replies (reply : string) : string -> string -> result json :=
  fun _ _ => Ok (JObj [("message"%string,
                        JObj [("content"%string, JStr reply)])]).


(** A subscriber who asked for discord and gave no webhook address, and
    the entry queued for them. *)
Definition user_without_hook : User.t :=
  {| User.id := "u-2"; User.email := "bob@example.org";
     User.discord_webhook_url := None;
     User.preferences := None;
     User.notification_channels := ["discord"%string];
     User.is_active := true |}.

Definition discord_entry : NotificationQueue.t :=
  {| NotificationQueue.id := "q-4"; NotificationQueue.user_id := "u-2";
     NotificationQueue.job_posting_id := "j-1";
     NotificationQueue.channels := "discord, discord";
     NotificationQueue.priority := 0; NotificationQueue.created_at := 100 |}.

Definition hookless_store : Store :=
  {| career_pages := [sample_career_page]; users := [user_without_hook];
     job_postings := [posting_without_location];
     notification_queue := [discord_entry];
     notifications := [] |}.


(** A store whose queue holds one entry, for a subscriber who is gone. *)
Definition stale_only_store : Store :=
  {| career_pages := []; users := [sample_user];
     job_postings := [posting_without_location];
     notification_queue := [stale_entry];
     notifications := [] |}.

(** A database whose queue holds a live entry, then one whose subscriber
    is gone; the drain of that queue, and the run of the worker on it. *)
Definition live_then_stale_store : Store :=
  {| career_pages := [sample_career_page]; users := [sample_user];
     job_postings := [posting_without_location];
     notification_queue := [sample_entry; stale_entry];
     notifications := [] |}.

Definition live_then_stale_drain : result unit * World :=
  process_notification_queue clock_by_minute numbered_uuid mail_accepts
    webhook_refuses "jobs@example.org" plain_markup plain_strftime "*" ">"
    (world_of live_then_stale_store).

Definition live_then_stale_run : result unit * World :=
  run_notification_pipeline clock_by_minute numbered_uuid mail_accepts
    webhook_refuses "jobs@example.org" plain_markup plain_strftime "*" ">"
    (world_of live_then_stale_store).

(* ===================================================================== *)
(** * Part II: the theorems                                               *)
(* ===================================================================== *)

(** ** Strings *)

Section StringFacts.
Import PyStr.

Lemma chars_app (a b : string) : chars (a ++ b)%string = chars a ++ chars b.
Proof. induction a as [|c a IH]; simpl; [reflexivity | now rewrite IH]. Qed.

Lemma text_app (l k : list ascii) : text (l ++ k) = (text l ++ text k)%string.
Proof. induction l as [|c l IH]; simpl; [reflexivity | now rewrite IH]. Qed.

Lemma length_text (l : list ascii) : String.length (text l) = length l.
Proof. induction l as [|c l IH]; simpl; [reflexivity | now rewrite IH]. Qed.

Lemma chars_inj (a b : string) : chars a = chars b -> a = b.
Proof.
  intros H. rewrite <- (string_of_list_ascii_of_string a),
    <- (string_of_list_ascii_of_string b). now rewrite H.
Qed.

Lemma lower_upper_char (c : ascii) : lower_char (upper_char c) = lower_char c.
Proof. destruct c as [[] [] [] [] [] [] [] []]; vm_compute; reflexivity. Qed.

Lemma is_space_lower_char (c : ascii) : is_space (lower_char c) = is_space c.
Proof. destruct c as [[] [] [] [] [] [] [] []]; vm_compute; reflexivity. Qed.

Lemma lower_upper (s : string) : lower (upper s) = lower s.
Proof.
  unfold lower, upper. rewrite list_ascii_of_string_of_list_ascii, map_map.
  f_equal. apply map_ext. intros c. apply lower_upper_char.
Qed.

Lemma lower_app (a b : string) : lower (a ++ b) = (lower a ++ lower b)%string.
Proof. unfold lower. now rewrite chars_app, map_app, text_app. Qed.

Lemma chars_lower (s : string) : chars (lower s) = map lower_char (chars s).
Proof. unfold lower. apply list_ascii_of_string_of_list_ascii. Qed.

Lemma lstrip_blank_app (ws l : list ascii) :
  blank ws -> lstrip_chars (ws ++ l) = lstrip_chars l.
Proof.
  induction 1 as [|c ws Hc _ IH]; simpl; [reflexivity | now rewrite Hc].
Qed.

Lemma lstrip_app_keep (l k : list ascii) :
  lstrip_chars l <> [] -> lstrip_chars (l ++ k) = lstrip_chars l ++ k.
Proof.
  induction l as [|c l IH]; simpl; [congruence |].
  destruct (is_space c); [exact IH | reflexivity].
Qed.

Lemma lstrip_all_blank (l : list ascii) : lstrip_chars l = [] -> blank l.
Proof.
  induction l as [|c l IH]; simpl; [constructor |].
  destruct (is_space c) eqn:E; [| discriminate].
  intros H. constructor; [exact E | exact (IH H)].
Qed.

Lemma lstrip_blank (ws : list ascii) : blank ws -> lstrip_chars ws = [].
Proof.
  intros H. rewrite <- (app_nil_r ws). now rewrite lstrip_blank_app.
Qed.

Lemma blank_rev (l : list ascii) : blank l -> blank (rev l).
Proof. apply List.Forall_rev. Qed.

Lemma rstrip_app_blank (l ws : list ascii) :
  blank ws -> rstrip_chars (l ++ ws) = rstrip_chars l.
Proof.
  intros H. unfold rstrip_chars. rewrite rev_app_distr.
  now rewrite lstrip_blank_app by now apply blank_rev.
Qed.

Lemma rstrip_blank (ws : list ascii) : blank ws -> rstrip_chars ws = [].
Proof.
  intros H. rewrite <- (app_nil_l ws). now rewrite rstrip_app_blank.
Qed.

(** Stripping forgets whitespace put around the text, and only there. *)
Lemma strip_chars_padded (ws1 l ws2 : list ascii) :
  blank ws1 -> blank ws2 -> strip_chars (ws1 ++ l ++ ws2) = strip_chars l.
Proof.
  intros H1 H2. unfold strip_chars. rewrite lstrip_blank_app by assumption.
  destruct (lstrip_chars l) as [|c r] eqn:E.
  - apply lstrip_all_blank in E.
    rewrite lstrip_blank; [reflexivity |].
    unfold blank in *. apply Forall_app. now split.
  - rewrite lstrip_app_keep by (rewrite E; discriminate).
    rewrite E. now apply rstrip_app_blank.
Qed.

Lemma starts_with_spec (p l : list ascii) :
  starts_with p l = true <-> exists after, l = p ++ after.
Proof.
  revert l. induction p as [|a p IH]; intros l; simpl.
  - split; [intros _; now exists l | reflexivity].
  - destruct l as [|b l].
    + split; [discriminate | intros [r Hr]; discriminate].
    + rewrite andb_true_iff, Ascii.eqb_eq, IH. split.
      * intros [-> [r ->]]. now exists r.
      * intros [r Hr]. injection Hr as -> ->. split; [reflexivity | now exists r].
Qed.

Lemma contains_chars_spec (p l : list ascii) :
  contains_chars p l = true <-> exists before after, l = before ++ p ++ after.
Proof.
  induction l as [|b l IH].
  - simpl. rewrite orb_false_r, starts_with_spec. split.
    + intros [r Hr]. now exists [], r.
    + intros [pre [post H]]. destruct pre; [now exists post | discriminate].
  - change (contains_chars p (b :: l))
      with (starts_with p (b :: l) || contains_chars p l).
    rewrite orb_true_iff, starts_with_spec, IH. split.
    + intros [[r Hr] | [pre [post H]]].
      * now exists [], r.
      * exists (b :: pre), post. now rewrite H.
    + intros [pre [post H]]. destruct pre as [|x pre].
      * left. now exists post.
      * right. injection H as -> ->. now exists pre, post.
Qed.

(** [sub in s] holds exactly when [sub] occurs in [s]. *)
Lemma contains_spec (sub s : string) :
  contains sub s = true <-> occurs_in sub s.
Proof.
  unfold contains, occurs_in. rewrite contains_chars_spec. split.
  - intros [pre [post H]]. exists (text pre), (text post).
    apply chars_inj.
    now rewrite !chars_app, !list_ascii_of_string_of_list_ascii.
  - intros [pre [post ->]]. exists (chars pre), (chars post).
    now rewrite !chars_app.
Qed.

Lemma strip_padded (ws1 s ws2 : string) :
  blank (chars ws1) -> blank (chars ws2) ->
  strip (ws1 ++ s ++ ws2) = strip s.
Proof.
  intros H1 H2. unfold strip. rewrite !chars_app.
  now rewrite strip_chars_padded.
Qed.

Lemma lower_blank (ws : string) : blank (chars ws) -> blank (chars (lower ws)).
Proof.
  unfold blank. rewrite chars_lower, List.Forall_map.
  apply List.Forall_impl. intros c. now rewrite is_space_lower_char.
Qed.

End StringFacts.

(** ** The identity hash *)

Section HashFacts.
Import PyStr Sha256.

Lemma hex_digit_is_hex (n : Z) : 0 <= n < 16 -> is_hex (hex_digit n) = true.
Proof.
  intros H.
  assert (forallb (fun k => is_hex (hex_digit (Z.of_nat k))) (seq 0 16) = true)
    as A by reflexivity.
  rewrite List.forallb_forall in A. specialize (A (Z.to_nat n)).
  rewrite Z2Nat.id in A by lia. apply A, in_seq. lia.
Qed.

Lemma hex_word_length (x : Z) : length (hex_word x) = 8%nat.
Proof. reflexivity. Qed.

Lemma hex_word_is_hex (x : Z) : Forall (fun c => is_hex c = true) (hex_word x).
Proof.
  unfold hex_word. apply List.Forall_map, List.Forall_forall. intros i _.
  apply hex_digit_is_hex, Z.mod_pos_bound. lia.
Qed.

Lemma hexdigest_length (h : words8) : String.length (hexdigest h) = 64%nat.
Proof.
  unfold hexdigest. rewrite length_text, !length_app, !hex_word_length.
  reflexivity.
Qed.

Lemma hexdigest_is_hex (h : words8) :
  Forall (fun c => is_hex c = true) (chars (hexdigest h)).
Proof.
  unfold hexdigest. rewrite list_ascii_of_string_of_list_ascii.
  repeat (apply Forall_app; split); apply hex_word_is_hex.
Qed.

(** The key is a function of the lower-cased concatenation with its two
    ends trimmed. *)
Lemma external_id_of_key (a b c a' b' c' : string) :
  strip (lower (a ++ ":" ++ b ++ ":" ++ c)) =
    strip (lower (a' ++ ":" ++ b' ++ ":" ++ c')) ->
  generate_job_external_id a b c = generate_job_external_id a' b' c'.
Proof. unfold generate_job_external_id. now intros ->. Qed.

Lemma lower_key_upper (a b c : string) :
  lower (upper a ++ ":" ++ upper b ++ ":" ++ upper c) =
  lower (a ++ ":" ++ b ++ ":" ++ c).
Proof. now rewrite !lower_app, !lower_upper. Qed.

End HashFacts.

Example sha256_empty :
  generate_simple_hash "" =
  "e3b0c44298fc1c149afbf4c8996fb92427ae41e4649b934ca495991b7852b855"%string.
Proof. vm_compute. reflexivity. Qed.

Example sha256_abc :
  generate_simple_hash "abc" =
  "ba7816bf8f01cfea414140de5dae2223b00361a396177a9cb410ff61f20015ad"%string.
Proof. vm_compute. reflexivity. Qed.

Example sha256_two_blocks :
  generate_simple_hash "abcdbcdecdefdefgefghfghighijhijkijkljklmklmnlmnomnopnopq" =
  "248d6a61d20638b8e5c026930c3e6039a33ce45964ff2167f6ecedd419db06c1"%string.
Proof. vm_compute. reflexivity. Qed.

Example external_id_plain :
  generate_job_external_id "a" "b" "c" =
  "b0ee04f880c4ff4261479e2e7822b7410aee4c7159f4185ad5b0d88a312b495e"%string.
Proof. vm_compute. reflexivity. Qed.

Example external_id_padded_url :
  generate_job_external_id "A" " b " "c" =
  "4c3cee164689989855f13c011b082f43d69b2e77716d42716a2df188536fa81b"%string.
Proof. vm_compute. reflexivity. Qed.

(** C1, as the code has it.  For ASCII inputs the key does not change
    when the case of any of its three inputs changes, nor when whitespace
    is put in front of the source identifier and behind the title, the
    two ends of the concatenation [a:b:c]: two calls whose
    concatenations agree after lower-casing and trimming those two ends
    return the same key, which is 64 characters long and made of the
    digits [0-9a-f].  Whitespace around the url is inside the
    concatenation and stays in it. *)
Theorem external_id_normalisation (a b c : string) :
  PyStr.isascii a = true -> PyStr.isascii b = true -> PyStr.isascii c = true ->
  generate_job_external_id (PyStr.upper a) b c = generate_job_external_id a b c
  /\ generate_job_external_id (PyStr.upper a) (PyStr.upper b) (PyStr.upper c)
     = generate_job_external_id a b c
  /\ (forall ws1 ws2 : string,
        PyStr.blank (PyStr.chars ws1) -> PyStr.blank (PyStr.chars ws2) ->
        generate_job_external_id (ws1 ++ a) b (c ++ ws2)
        = generate_job_external_id a b c)
  /\ (forall a' b' c' : string,
        PyStr.strip (PyStr.lower (a' ++ ":" ++ b' ++ ":" ++ c'))
        = PyStr.strip (PyStr.lower (a ++ ":" ++ b ++ ":" ++ c)) ->
        generate_job_external_id a' b' c' = generate_job_external_id a b c)
  /\ String.length (generate_job_external_id a b c) = 64%nat
  /\ Forall (fun x => Sha256.is_hex x = true)
            (PyStr.chars (generate_job_external_id a b c)).
Proof.
  intros _ _ _. split; [| split; [| split; [| split; [| split]]]].
  - apply external_id_of_key. now rewrite !lower_app, lower_upper.
  - apply external_id_of_key. now rewrite lower_key_upper.
  - intros ws1 ws2 H1 H2. apply external_id_of_key.
    replace ((ws1 ++ a) ++ ":" ++ b ++ ":" ++ c ++ ws2)%string
      with (ws1 ++ (a ++ ":" ++ b ++ ":" ++ c) ++ ws2)%string.
    + rewrite 2!lower_app. apply strip_padded; now apply lower_blank.
    + apply chars_inj. rewrite !chars_app. now rewrite <- !app_assoc.
  - intros a' b' c'. apply external_id_of_key.
  - apply hexdigest_length.
  - apply hexdigest_is_hex.
Qed.

Lemma external_id_normalisation_witness :
  PyStr.isascii "7f3a-Page" = true /\
  generate_job_external_id (PyStr.upper "7f3a-Page") "https://jobs.example/Dev" "Dev"
  = generate_job_external_id "7f3a-Page" "https://jobs.example/Dev" "Dev".
Proof.
  split; [reflexivity |].
  apply (external_id_normalisation "7f3a-Page" "https://jobs.example/Dev" "Dev");
    reflexivity.
Defined.

(** C1, as the claim has it: the key of [("a", "b", "c")] is not the key
    of [("a".upper(), " " + "b" + " ", "c")]. *)
Lemma external_id_url_padding_changes_key :
  generate_job_external_id "a" "b" "c"
  <> generate_job_external_id (PyStr.upper "a") (" " ++ "b" ++ " ") "c".
Proof. intros H. vm_compute in H. discriminate H. Qed.

(** ** The matcher *)

(** The comparison reads its two arguments only lower-cased and
    trimmed. *)
Lemma location_matches_norm (a a' b b' : string) :
  PyStr.strip (PyStr.lower a') = PyStr.strip (PyStr.lower a) ->
  PyStr.strip (PyStr.lower b') = PyStr.strip (PyStr.lower b) ->
  _location_matches a' b' = _location_matches a b.
Proof. unfold _location_matches. now intros -> ->. Qed.

Lemma strip_lower_padded (ws1 s ws2 : string) :
  PyStr.blank (PyStr.chars ws1) -> PyStr.blank (PyStr.chars ws2) ->
  PyStr.strip (PyStr.lower (ws1 ++ s ++ ws2)) = PyStr.strip (PyStr.lower s).
Proof.
  intros H1 H2. rewrite 2!lower_app. apply strip_padded; now apply lower_blank.
Qed.

(** C4.  For locations of ASCII characters, [_location_matches] compares
    the two locations case-insensitively and trimmed: its result does
    not change when the case of either location changes, in particular
    when either is upper-cased, nor when white space is put around
    either.  On the lower-cased, trimmed locations it is the
    disjunction, tried in this order, of their equality, of both
    containing "remote", and of one occurring in the other, and nothing
    else makes it true. *)
Theorem location_matches_spec (posted preferred : string) :
  PyStr.isascii posted = true -> PyStr.isascii preferred = true ->
  let p := PyStr.strip (PyStr.lower posted) in
  let q := PyStr.strip (PyStr.lower preferred) in
  _location_matches posted preferred
  = (String.eqb p q
     || (PyStr.contains "remote" q && PyStr.contains "remote" p)
     || (PyStr.contains q p || PyStr.contains p q))
  /\ (_location_matches posted preferred = true <->
      p = q
      \/ (PyStr.occurs_in "remote" q /\ PyStr.occurs_in "remote" p)
      \/ (PyStr.occurs_in q p \/ PyStr.occurs_in p q))
  /\ (forall posted' preferred' : string,
        PyStr.lower posted' = PyStr.lower posted ->
        PyStr.lower preferred' = PyStr.lower preferred ->
        _location_matches posted' preferred'
        = _location_matches posted preferred)
  /\ _location_matches (PyStr.upper posted) preferred
     = _location_matches posted preferred
  /\ _location_matches posted (PyStr.upper preferred)
     = _location_matches posted preferred
  /\ _location_matches (PyStr.upper posted) (PyStr.upper preferred)
     = _location_matches posted preferred
  /\ (forall ws1 ws2 ws3 ws4 : string,
        PyStr.blank (PyStr.chars ws1) -> PyStr.blank (PyStr.chars ws2) ->
        PyStr.blank (PyStr.chars ws3) -> PyStr.blank (PyStr.chars ws4) ->
        _location_matches (ws1 ++ posted ++ ws2) (ws3 ++ preferred ++ ws4)
        = _location_matches posted preferred).
Proof.
  intros _ _ p q.
  assert (_location_matches posted preferred
          = (String.eqb p q
             || (PyStr.contains "remote" q && PyStr.contains "remote" p)
             || (PyStr.contains q p || PyStr.contains p q))) as E.
  { unfold _location_matches. fold p q.
    destruct (String.eqb p q); [reflexivity |].
    destruct (PyStr.contains "remote" q && PyStr.contains "remote" p);
      [reflexivity |].
    now destruct (PyStr.contains q p || PyStr.contains p q). }
  split; [exact E |].
  split.
  { rewrite E, !orb_true_iff, andb_true_iff, String.eqb_eq, !contains_spec.
    tauto. }
  split.
  { intros posted' preferred' Hp Hq.
    apply location_matches_norm; [now rewrite Hp | now rewrite Hq]. }
  split; [apply location_matches_norm; now rewrite ?lower_upper |].
  split; [apply location_matches_norm; now rewrite ?lower_upper |].
  split; [apply location_matches_norm; now rewrite ?lower_upper |].
  intros ws1 ws2 ws3 ws4 H1 H2 H3 H4.
  apply location_matches_norm; now apply strip_lower_padded.
Qed.

Lemma location_matches_spec_witness :
  PyStr.isascii "San Francisco, CA" = true
  /\ PyStr.isascii "san francisco" = true
  /\ _location_matches (PyStr.upper "San Francisco, CA") "san francisco" = true
  /\ _location_matches "San Francisco, CA" (" " ++ "san francisco" ++ "  ") = true.
Proof.
  pose proof (location_matches_spec "San Francisco, CA" "san francisco"
                eq_refl eq_refl) as H.
  cbv zeta in H. destruct H as (_ & _ & _ & U & _ & _ & P).
  split; [reflexivity | split; [reflexivity |]].
  split.
  - rewrite U. reflexivity.
  - change (_location_matches ("" ++ "San Francisco, CA" ++ "")
                               (" " ++ "san francisco" ++ "  ") = true).
    rewrite (P "" "" " " "  ").
    + reflexivity.
    + constructor.
    + constructor.
    + repeat constructor.
    + repeat constructor.
Defined.

Example location_remote_us : _location_matches "Remote - US" "Remote" = true.
Proof. reflexivity. Qed.

Example location_berlin : _location_matches "Berlin" "Remote" = false.
Proof. reflexivity. Qed.

Example location_san_francisco :
  _location_matches "San Francisco, CA" " san francisco " = true.
Proof. reflexivity. Qed.

Section MatcherFacts.

Variables (user : User.t) (job : JobPosting.t).

Let preferences : gmap string (list string) := default ∅ (User.preferences user).

Lemma constrained_not_empty (key : string) :
  pref_get preferences key <> [] -> bool_decide (preferences = ∅) = false.
Proof.
  intros H. apply bool_decide_eq_false. intros E. apply H.
  unfold pref_get. now rewrite E, lookup_empty.
Qed.

Lemma list_truthy_true {A} (l : list A) : l <> [] -> list_truthy l = true.
Proof. destruct l; [congruence | reflexivity]. Qed.

Lemma match_empty_filter : preferences = ∅ -> check_user_match user job = true.
Proof.
  intros E. unfold check_user_match. fold preferences.
  now rewrite E, bool_decide_eq_true_2.
Qed.

Lemma match_location_null :
  pref_get preferences "locations" <> [] ->
  column_truthy (JobPosting.location job) = false ->
  check_user_match user job = false.
Proof.
  intros H N. unfold check_user_match. fold preferences.
  rewrite (constrained_not_empty _ H), (list_truthy_true _ H), N.
  reflexivity.
Qed.

Lemma match_job_type_outside :
  pref_get preferences "job_types" <> [] ->
  column_truthy (JobPosting.job_type job) = false
  \/ str_in (default ""%string (JobPosting.job_type job))
            (pref_get preferences "job_types") = false ->
  check_user_match user job = false.
Proof.
  intros H N. unfold check_user_match. fold preferences.
  rewrite (constrained_not_empty _ H), (list_truthy_true _ H).
  match goal with |- (if ?c then false else _) = false => destruct c end;
    [reflexivity |].
  destruct N as [-> | ->]; simpl; [reflexivity | now rewrite orb_true_r].
Qed.

Lemma match_experience_level_outside :
  pref_get preferences "experience_levels" <> [] ->
  column_truthy (JobPosting.experience_level job) = false
  \/ str_in (default ""%string (JobPosting.experience_level job))
            (pref_get preferences "experience_levels") = false ->
  check_user_match user job = false.
Proof.
  intros H N. unfold check_user_match. fold preferences.
  rewrite (constrained_not_empty _ H), (list_truthy_true _ H).
  do 2 match goal with
       | |- (if ?c then false else _) = false => destruct c; [reflexivity |]
       end.
  destruct N as [-> | ->]; simpl; [reflexivity | now rewrite orb_true_r].
Qed.

End MatcherFacts.

Lemma str_in_false (x : string) (xs : list string) :
  ~ In x xs -> str_in x xs = false.
Proof.
  intros H. unfold str_in. apply not_true_is_false. intros E.
  apply existsb_exists in E as [y [Hy E]]. apply String.eqb_eq in E.
  now subst.
Qed.

(** C3.  A subscriber without preferences (none stored, or an empty
    filter) matches every posting.  When the subscriber lists locations,
    job types or experience levels, a posting whose value on that
    dimension is null does not match; and a posting whose job type is
    not, letter for letter, one of the listed job types does not match.
    So the filter with locations ["Remote"] rejects a posting without a
    location, and the filter with job types ["Contract"] rejects a
    "Full-time" posting. *)
Theorem check_user_match_fails_closed (user : User.t) (job : JobPosting.t) :
  let preferences : gmap string (list string) :=
    default ∅ (User.preferences user) in
  (preferences = ∅ -> check_user_match user job = true)
  /\ (pref_get preferences "locations" <> [] ->
      JobPosting.location job = None -> check_user_match user job = false)
  /\ (pref_get preferences "job_types" <> [] ->
      JobPosting.job_type job = None -> check_user_match user job = false)
  /\ (pref_get preferences "experience_levels" <> [] ->
      JobPosting.experience_level job = None ->
      check_user_match user job = false)
  /\ (forall job_type : string,
        pref_get preferences "job_types" <> [] ->
        JobPosting.job_type job = Some job_type ->
        ~ In job_type (pref_get preferences "job_types") ->
        check_user_match user job = false)
  /\ (User.preferences user = Some {[ "locations"%string := ["Remote"%string] ]} ->
      JobPosting.location job = None -> check_user_match user job = false)
  /\ (User.preferences user = Some {[ "job_types"%string := ["Contract"%string] ]} ->
      JobPosting.job_type job = Some "Full-time"%string ->
      check_user_match user job = false).
Proof.
  intros preferences.
  assert (forall job_type : string,
             pref_get preferences "job_types" <> [] ->
             JobPosting.job_type job = Some job_type ->
             ~ In job_type (pref_get preferences "job_types") ->
             check_user_match user job = false) as Htype.
  { intros t H E N. apply match_job_type_outside; [exact H |].
    right. rewrite E. now apply str_in_false. }
  repeat split.
  - apply match_empty_filter.
  - intros H E. apply match_location_null; [exact H | now rewrite E].
  - intros H E. apply match_job_type_outside; [exact H | left; now rewrite E].
  - intros H E. apply match_experience_level_outside;
      [exact H | left; now rewrite E].
  - exact Htype.
  - intros P E. apply match_location_null; [| now rewrite E].
    rewrite P. unfold pref_get. simpl. now rewrite lookup_singleton_eq.
  - intros P E. apply (Htype "Full-time"%string); [| exact E |]; subst preferences;
      rewrite P; unfold pref_get; simpl; rewrite lookup_singleton_eq; simpl.
    + discriminate.
    + intros [H | []]. discriminate H.
Qed.

Lemma check_user_match_fails_closed_witness :
  pref_get (default ∅ (User.preferences subscriber_remote_only)) "locations" <> []
  /\ JobPosting.location posting_without_location = None
  /\ check_user_match subscriber_remote_only posting_without_location = false.
Proof.
  assert (pref_get (default ∅ (User.preferences subscriber_remote_only))
                   "locations" <> []) as H by (vm_compute; discriminate).
  split; [exact H | split; [reflexivity |]].
  exact (proj1 (proj2 (check_user_match_fails_closed subscriber_remote_only
                         posting_without_location)) H eq_refl).
Defined.

(** ** The extractor *)

Section SpanFacts.
Import PyStr.

Lemma find_from_absent (c : ascii) (l : list ascii) (i : Z) :
  ~ In c l -> find_from c l i = -1.
Proof.
  revert i. induction l as [|x l IH]; intros i H; simpl; [reflexivity |].
  destruct (Ascii.eqb x c) eqn:E.
  - apply Ascii.eqb_eq in E. subst. exfalso. apply H. now left.
  - apply IH. intros N. apply H. now right.
Qed.

Lemma find_from_first (c : ascii) (before after : list ascii) (i : Z) :
  ~ In c before ->
  find_from c (before ++ c :: after) i = i + Z.of_nat (length before).
Proof.
  revert i. induction before as [|x l IH]; intros i H; simpl.
  - rewrite Ascii.eqb_refl. lia.
  - destruct (Ascii.eqb x c) eqn:E.
    + apply Ascii.eqb_eq in E. subst. exfalso. apply H. now left.
    + rewrite IH by (intros N; apply H; now right). lia.
Qed.

Lemma rfind_from_absent (c : ascii) (l : list ascii) (i last : Z) :
  ~ In c l -> rfind_from c l i last = last.
Proof.
  revert i. induction l as [|x l IH]; intros i H; simpl; [reflexivity |].
  destruct (Ascii.eqb x c) eqn:E.
  - apply Ascii.eqb_eq in E. subst. exfalso. apply H. now left.
  - apply IH. intros N. apply H. now right.
Qed.

Lemma rfind_from_last (c : ascii) (before after : list ascii) (i last : Z) :
  ~ In c after ->
  rfind_from c (before ++ c :: after) i last = i + Z.of_nat (length before).
Proof.
  intros H. revert i last. induction before as [|x l IH]; intros i last; simpl.
  - rewrite Ascii.eqb_refl, rfind_from_absent by assumption. lia.
  - rewrite IH. lia.
Qed.

Lemma find_absent (s : string) (c : ascii) : ~ In c (chars s) -> find s c = -1.
Proof. apply find_from_absent. Qed.

Lemma rfind_absent (s : string) (c : ascii) : ~ In c (chars s) -> rfind s c = -1.
Proof. apply rfind_from_absent. Qed.

(** In a text [before [ inside ] after] whose first part has no opening
    bracket and whose last part no closing one, the slice between
    [find("[")] and [rfind("]") + 1] is [[ inside ]]. *)
Lemma bracket_span (before inside after : string) :
  ~ In "["%char (chars before) -> ~ In "]"%char (chars after) ->
  let s := (before ++ "[" ++ inside ++ "]" ++ after)%string in
  find s "[" = Z.of_nat (String.length before)
  /\ rfind s "]" = Z.of_nat (String.length before + 1 + String.length inside)
  /\ slice s (find s "[") (rfind s "]" + 1) = ("[" ++ inside ++ "]")%string.
Proof.
  intros Hb Ha s.
  assert (chars s = chars before ++ "["%char :: chars inside ++ "]"%char :: chars after)
    as Es by (unfold s; now rewrite !chars_app).
  assert (find s "[" = Z.of_nat (String.length before)) as Ef.
  { unfold find. rewrite Es, find_from_first by assumption.
    now rewrite <- (length_text (chars before)), string_of_list_ascii_of_string. }
  assert (rfind s "]" = Z.of_nat (String.length before + 1 + String.length inside))
    as Er.
  { unfold rfind.
    replace (chars s)
      with ((chars before ++ "["%char :: chars inside) ++ "]"%char :: chars after)
      by (rewrite Es, <- app_assoc; reflexivity).
    rewrite rfind_from_last by assumption.
    rewrite length_app. simpl length.
    rewrite <- (length_text (chars before)), <- (length_text (chars inside)),
      !string_of_list_ascii_of_string. lia. }
  split; [exact Ef | split; [exact Er |]].
  unfold slice. rewrite Ef, Er, Es, Nat2Z.id.
  replace (String.length before) with (length (chars before))
    by (now rewrite <- length_text, string_of_list_ascii_of_string).
  rewrite drop_app_length.
  replace (Z.to_nat (Z.of_nat (length (chars before) + 1 + String.length inside) + 1
                     - Z.of_nat (length (chars before))))
    with (S (length (chars inside) + 1))
    by (rewrite <- (length_text (chars inside)), string_of_list_ascii_of_string; lia).
  simpl firstn. rewrite take_app_add. simpl. rewrite take_0.
  rewrite text_app, string_of_list_ascii_of_string. reflexivity.
Qed.

End SpanFacts.

Section ExtractorFacts.

Variable json_loads : string -> result json.
Variable chat : string -> string -> result json.
Variable prompt_template : string -> string -> string.

Lemma try_except_returns {A} (body : result A) (handler : exn -> result A) :
  (forall e, exists a, handler e = Ok a) ->
  exists a, try_except body handler = Ok a.
Proof.
  intros H. destruct body as [a | e]; simpl; [now exists a | apply H].
Qed.

Lemma parse_never_raises (llm_output : json) (raw_job : RawJob.t) :
  exists l, _parse_llm_response json_loads llm_output raw_job = Ok l.
Proof.
  apply try_except_returns. intros e. exists []. now destruct (exn_kind e).
Qed.

Lemma normalize_never_raises (raw_job : RawJob.t) :
  exists l,
    normalize_job_data json_loads chat prompt_template raw_job = Ok l.
Proof.
  unfold normalize_job_data.
  destruct (negb (PyStr.truthy (RawJob.raw_content raw_job))); [now exists [] |].
  apply try_except_returns. intros e. now exists [].
Qed.

(** What the handlers make of the body of [_parse_llm_response]. *)
Lemma parse_of_body (llm_output : json) (raw_job : RawJob.t) :
  _parse_llm_response json_loads llm_output raw_job
  = match parse_body json_loads llm_output raw_job with
    | Ok l => Ok l
    | Raise _ => Ok []
    end.
Proof.
  unfold _parse_llm_response, try_except.
  destruct (parse_body json_loads llm_output raw_job) as [l | e];
    [reflexivity | now destruct (exn_kind e)].
Qed.

(** The body, once the two brackets are found. *)
Lemma parse_body_found (s : string) (raw_job : RawJob.t) :
  PyStr.find (PyStr.strip s) "[" <> -1 ->
  PyStr.rfind (PyStr.strip s) "]" <> -1 ->
  parse_body json_loads (JStr s) raw_job
  = (jobs_data ← json_loads
        (PyStr.slice (PyStr.strip s) (PyStr.find (PyStr.strip s) "[")
                     (PyStr.rfind (PyStr.strip s) "]" + 1));
     match jobs_data with
     | JArr jobs => normalize_all jobs raw_job
     | _ => Ok []
     end).
Proof.
  intros Hf Hr. unfold parse_body. simpl.
  destruct (PyStr.find (PyStr.strip s) "[" =? -1) eqn:E1; [lia |].
  destruct (PyStr.rfind (PyStr.strip s) "]" + 1 =? 0) eqn:E2; [lia |].
  reflexivity.
Qed.

Lemma parse_body_no_bracket (s : string) (raw_job : RawJob.t) :
  ~ In "["%char (PyStr.chars (PyStr.strip s))
  \/ ~ In "]"%char (PyStr.chars (PyStr.strip s)) ->
  parse_body json_loads (JStr s) raw_job = Ok [].
Proof.
  intros H. unfold parse_body. simpl.
  destruct H as [H | H].
  - now rewrite (find_absent _ _ H).
  - rewrite (rfind_absent _ _ H). simpl. now rewrite orb_true_r.
Qed.

(** An element without a title leaves no trace in the result. *)
Lemma untitled_element_dropped (before after : list json) (job : json)
    (d : list (string * json)) (raw_job : RawJob.t) :
  job = JObj d -> has_title job = false ->
  normalize_all (before ++ job :: after) raw_job
  = normalize_all (before ++ after) raw_job.
Proof.
  intros -> H. induction before as [|x l IH]; simpl.
  - unfold has_title in H. simpl in H. now rewrite H.
  - now rewrite IH.
Qed.

(** The elements that survive are those with a title, in their order,
    each turned into one candidate. *)
Lemma normalize_all_survivors (jobs : list json) (raw_job : RawJob.t)
    (res : list NormalizedJob.t) :
  normalize_all jobs raw_job = Ok res ->
  Forall2 (fun job nj => normalized_job_of job raw_job = Ok nj)
          (List.filter has_title jobs) res.
Proof.
  revert res. induction jobs as [|job jobs IH]; intros res H; simpl in *.
  - injection H as <-. constructor.
  - unfold has_title at 1.
    destruct (py_get job "title" JNull) as [title | e]; simpl in H;
      [| discriminate].
    destruct (py_truthy title); simpl in *.
    + destruct (normalized_job_of job raw_job) as [nj | e] eqn:E; simpl in H;
        [| discriminate].
      destruct (normalize_all jobs raw_job) as [rest | e']; simpl in H;
        [| discriminate].
      injection H as <-. constructor; [exact E | now apply IH].
    + now apply IH.
Qed.

Lemma missing_or_empty_title (d : list (string * json)) :
  dict_get d "title" = None \/ dict_get d "title" = Some (JStr "") ->
  has_title (JObj d) = false.
Proof. unfold has_title. simpl. now intros [-> | ->]. Qed.

(** C5.  [normalize_job_data] and [_parse_llm_response] return a list for
    every raw unit and every response, whatever [json.loads] and the
    external model do.  The result is empty when the call to the model
    raises, and when the trimmed response has no opening or no closing
    bracket.  When the response reads [before [ inside ] after], with
    its first opening and its last closing bracket, only [[ inside ]] is
    parsed: a failure to parse it, a value that is not an array, and an
    error while its elements are read, all give the empty list.  When
    the last closing bracket comes before the first opening one the
    empty text is parsed, and the result is empty as [json.loads]
    rejects it.  An
    element whose title is missing or empty changes nothing in the
    result, and the result has one candidate for each element with a
    title. *)
Theorem extract_never_raises (raw_job : RawJob.t) (llm_output : json) :
  (exists l, normalize_job_data json_loads chat prompt_template raw_job = Ok l)
  /\ (exists l, _parse_llm_response json_loads llm_output raw_job = Ok l)
  /\ (forall e,
        chat system_message
             (_build_normalization_prompt prompt_template
                (RawJob.raw_content raw_job) (RawJob.company_name raw_job))
        = Raise e ->
        normalize_job_data json_loads chat prompt_template raw_job = Ok [])
  /\ (forall response message,
        RawJob.raw_content raw_job <> ""%string ->
        chat system_message
             (_build_normalization_prompt prompt_template
                (RawJob.raw_content raw_job) (RawJob.company_name raw_job))
        = Ok response ->
        py_subscript response "message" = Ok message ->
        py_subscript message "content" = Ok llm_output ->
        normalize_job_data json_loads chat prompt_template raw_job
        = _parse_llm_response json_loads llm_output raw_job)
  /\ (forall s,
        llm_output = JStr s ->
        ~ In "["%char (PyStr.chars (PyStr.strip s))
        \/ ~ In "]"%char (PyStr.chars (PyStr.strip s)) ->
        _parse_llm_response json_loads llm_output raw_job = Ok [])
  /\ (forall s before inside after,
        llm_output = JStr s ->
        PyStr.strip s = (before ++ "[" ++ inside ++ "]" ++ after)%string ->
        ~ In "["%char (PyStr.chars before) ->
        ~ In "]"%char (PyStr.chars after) ->
        _parse_llm_response json_loads llm_output raw_job
        = match json_loads ("[" ++ inside ++ "]")%string with
          | Ok (JArr jobs) =>
              match normalize_all jobs raw_job with
              | Ok l => Ok l
              | Raise _ => Ok []
              end
          | Ok _ => Ok []
          | Raise _ => Ok []
          end)
  /\ (forall s e,
        llm_output = JStr s ->
        PyStr.rfind (PyStr.strip s) "]" < PyStr.find (PyStr.strip s) "[" ->
        json_loads ""%string = Raise e ->
        _parse_llm_response json_loads llm_output raw_job = Ok [])
  /\ (forall before after d,
        dict_get d "title" = None \/ dict_get d "title" = Some (JStr "") ->
        normalize_all (before ++ JObj d :: after) raw_job
        = normalize_all (before ++ after) raw_job)
  /\ (forall jobs res,
        normalize_all jobs raw_job = Ok res ->
        Forall2 (fun job nj => normalized_job_of job raw_job = Ok nj)
                (List.filter has_title jobs) res).
Proof.
  split; [apply normalize_never_raises |].
  split; [apply parse_never_raises |].
  split.
  { intros e H. unfold normalize_job_data.
    destruct (negb (PyStr.truthy (RawJob.raw_content raw_job)));
      [reflexivity |].
    now rewrite H. }
  split.
  { intros response message Hc H Hm Ho. unfold normalize_job_data.
    assert (PyStr.truthy (RawJob.raw_content raw_job) = true) as ->.
    { unfold PyStr.truthy. apply negb_true_iff, String.eqb_neq, Hc. }
    simpl negb. cbv iota. rewrite H. simpl. rewrite Hm. simpl. rewrite Ho. simpl.
    destruct (parse_never_raises llm_output raw_job) as [l ->]. reflexivity. }
  split.
  { intros s -> H. now rewrite parse_of_body, parse_body_no_bracket. }
  split.
  { intros s before inside after -> Es Hb Ha.
    destruct (bracket_span before inside after Hb Ha) as (Ef & Er & Esl).
    rewrite <- Es in Ef, Er, Esl.
    rewrite parse_of_body, parse_body_found by lia.
    rewrite Esl. destruct (json_loads ("[" ++ inside ++ "]")%string) as [v | e];
      simpl; [| reflexivity].
    destruct v; try reflexivity. }
  split.
  { intros s e -> Hlt He. rewrite parse_of_body. unfold parse_body. simpl.
    destruct ((PyStr.find (PyStr.strip s) "[" =? -1)
              || (PyStr.rfind (PyStr.strip s) "]" + 1 =? 0)); [reflexivity |].
    unfold PyStr.slice.
    replace (Z.to_nat (PyStr.rfind (PyStr.strip s) "]" + 1
                       - PyStr.find (PyStr.strip s) "[")) with 0%nat by lia.
    rewrite take_0. simpl. now rewrite He. }
  split.
  { intros before after d H.
    apply (untitled_element_dropped before after (JObj d) d); [reflexivity |].
    now apply missing_or_empty_title. }
  intros jobs res. apply normalize_all_survivors.
Qed.

(** A candidate is built from the seven stripped fields of its element
    and from the raw unit. *)
Lemma normalized_job_of_ok (job : json) (raw_job : RawJob.t) (nj : NormalizedJob.t) :
  normalized_job_of job raw_job = Ok nj ->
  exists title location job_type experience_level description requirements url,
    field job "title" = Ok title /\ field job "location" = Ok location
    /\ field job "job_type" = Ok job_type
    /\ field job "experience_level" = Ok experience_level
    /\ field job "description" = Ok description
    /\ field job "requirements" = Ok requirements
    /\ field job "url" = Ok url
    /\ nj = {| NormalizedJob.title := title;
               NormalizedJob.location := or_none location;
               NormalizedJob.job_type := or_none job_type;
               NormalizedJob.experience_level := or_none experience_level;
               NormalizedJob.description := or_none description;
               NormalizedJob.requirements := or_none requirements;
               NormalizedJob.url := or_else url (RawJob.url raw_job);
               NormalizedJob.career_page_id := RawJob.career_page_id raw_job;
               NormalizedJob.company_name := RawJob.company_name raw_job;
               NormalizedJob.raw_data := raw_job |}.
Proof.
  unfold normalized_job_of. intros H.
  destruct (field job "title") as [title | e]; [| discriminate].
  destruct (field job "location") as [location | e]; [| discriminate].
  destruct (field job "job_type") as [job_type | e]; [| discriminate].
  destruct (field job "experience_level") as [experience_level | e];
    [| discriminate].
  destruct (field job "description") as [description | e]; [| discriminate].
  destruct (field job "requirements") as [requirements | e]; [| discriminate].
  destruct (field job "url") as [url | e]; [| discriminate].
  injection H as <-.
  exists title, location, job_type, experience_level, description,
    requirements, url.
  repeat split; reflexivity.
Qed.

(** Each candidate of a result was built from some element. *)
Lemma parse_candidates_built (llm_output : json) (raw_job : RawJob.t)
    (l : list NormalizedJob.t) (nj : NormalizedJob.t) :
  _parse_llm_response json_loads llm_output raw_job = Ok l -> In nj l ->
  exists job, normalized_job_of job raw_job = Ok nj.
Proof.
  rewrite parse_of_body. unfold parse_body.
  destruct (py_strip llm_output) as [s | e]; simpl;
    [| intros [= <-] []].
  destruct ((PyStr.find s "[" =? -1) || (PyStr.rfind s "]" + 1 =? 0));
    [intros [= <-] [] |].
  destruct (json_loads _) as [v | e]; simpl; [| intros [= <-] []].
  destruct v; try (intros [= <-] []).
  destruct (normalize_all l0 raw_job) as [res | e] eqn:E;
    [| intros [= <-] []].
  intros [= <-] Hin. apply normalize_all_survivors in E.
  induction E as [| job c jobs cs Hc _ IH]; [destruct Hin |].
  destruct Hin as [<- | Hin]; [now exists job | now apply IH].
Qed.


Lemma normalize_all_raises (before after : list json) (job : json)
    (raw_job : RawJob.t) (e : exn) :
  has_title job = true -> normalized_job_of job raw_job = Raise e ->
  exists e', normalize_all (before ++ job :: after) raw_job = Raise e'.
Proof.
  intros Ht Hr. induction before as [|x l [e' IH]]; simpl.
  - unfold has_title in Ht.
    destruct (py_get job "title" JNull) as [title | e0]; [| discriminate].
    simpl. rewrite Ht. simpl. rewrite Hr. now exists e.
  - destruct (py_get x "title" JNull) as [title | e0]; simpl; [| now exists e0].
    destruct (py_truthy title); simpl; [| now exists e'].
    destruct (normalized_job_of x raw_job) as [nj | e0]; simpl;
      [| now exists e0].
    rewrite IH. now exists e'.
Qed.

Lemma field_raises (d : list (string * json)) (key : string) (v : json) :
  dict_get d key = Some v -> (forall x, v <> JStr x) ->
  exists e, field (JObj d) key = Raise e.
Proof.
  intros H N. unfold field. simpl. rewrite H. simpl.
  destruct v; try (eexists; reflexivity). now destruct (N s).
Qed.

Lemma normalized_job_of_raises (d : list (string * json)) (key : string)
    (v : json) (raw_job : RawJob.t) :
  In key extracted_keys ->
  dict_get d key = Some v -> (forall x, v <> JStr x) ->
  exists e, normalized_job_of (JObj d) raw_job = Raise e.
Proof.
  intros Hk H N. destruct (field_raises d key v H N) as [e He].
  unfold normalized_job_of.
  destruct (field (JObj d) "title") as [title | e0] eqn:E1;
    [| now exists e0].
  destruct (field (JObj d) "location") as [location | e0] eqn:E2;
    [| now exists e0].
  destruct (field (JObj d) "job_type") as [job_type | e0] eqn:E3;
    [| now exists e0].
  destruct (field (JObj d) "experience_level") as [experience_level | e0] eqn:E4;
    [| now exists e0].
  destruct (field (JObj d) "description") as [description | e0] eqn:E5;
    [| now exists e0].
  destruct (field (JObj d) "requirements") as [requirements | e0] eqn:E6;
    [| now exists e0].
  destruct (field (JObj d) "url") as [url | e0] eqn:E7; [| now exists e0].
  exfalso. simpl in Hk.
  repeat (destruct Hk as [<- | Hk]; [congruence |]). exact Hk.
Qed.

(** C9.  When the parsed array has an element with a title that carries,
    for one of the keys the extractor reads, a value that is not a
    string ([null] among them), stripping that value raises, the handler
    of [_parse_llm_response] returns the empty list, and so does
    [normalize_job_data]: no candidate of the unit is kept, whatever the
    other elements are. *)
Theorem null_field_discards_unit (s : string) (raw_job : RawJob.t)
    (before after : list json) (d : list (string * json))
    (key : string) (title v : json) :
  PyStr.find (PyStr.strip s) "[" <> -1 ->
  PyStr.rfind (PyStr.strip s) "]" <> -1 ->
  json_loads (PyStr.slice (PyStr.strip s) (PyStr.find (PyStr.strip s) "[")
                          (PyStr.rfind (PyStr.strip s) "]" + 1))
  = Ok (JArr (before ++ JObj d :: after)) ->
  dict_get d "title" = Some title -> py_truthy title = true ->
  In key extracted_keys ->
  dict_get d key = Some v -> (forall x, v <> JStr x) ->
  _parse_llm_response json_loads (JStr s) raw_job = Ok []
  /\ (forall response message,
        chat system_message
             (_build_normalization_prompt prompt_template
                (RawJob.raw_content raw_job) (RawJob.company_name raw_job))
        = Ok response ->
        py_subscript response "message" = Ok message ->
        py_subscript message "content" = Ok (JStr s) ->
        normalize_job_data json_loads chat prompt_template raw_job = Ok []).
Proof.
  intros Hf Hr Hj Ht Hty Hk Hv Hn.
  assert (_parse_llm_response json_loads (JStr s) raw_job = Ok []) as P.
  { rewrite parse_of_body, parse_body_found, Hj by assumption. simpl.
    destruct (normalized_job_of_raises d key v raw_job Hk Hv Hn) as [e He].
    destruct (normalize_all_raises before after (JObj d) raw_job e) as [e' ->];
      [| exact He | reflexivity].
    unfold has_title. simpl. now rewrite Ht. }
  split; [exact P |].
  intros response message Hc Hm Ho. unfold normalize_job_data.
  destruct (negb (PyStr.truthy (RawJob.raw_content raw_job)));
    [reflexivity |].
  rewrite Hc. simpl. rewrite Hm. simpl. rewrite Ho. simpl. now rewrite P.
Qed.

End ExtractorFacts.

Lemma extract_never_raises_witness :
  model_down system_message
    (_build_normalization_prompt plain_prompt
       (RawJob.raw_content sample_page) (RawJob.company_name sample_page))
  = Raise (Exn OtherError "connection refused")
  /\ normalize_job_data JsonRef.json_loads model_down plain_prompt sample_page = Ok [].
Proof.
  split; [reflexivity |].
  exact (proj1 (proj2 (proj2
           (extract_never_raises JsonRef.json_loads model_down plain_prompt
              sample_page JNull))) _ eq_refl).
Defined.


Lemma null_field_discards_unit_witness :
  JsonRef.json_loads response_with_null
  = Ok (JArr ([JObj [("title"%string, JStr "Designer")]]
              ++ JObj [("title"%string, JStr "Engineer");
                       ("location"%string, JNull)] :: []))
  /\ _parse_llm_response JsonRef.json_loads (JStr response_with_null) sample_page
     = Ok [].
Proof.
  split; [reflexivity |].
  refine (proj1 (null_field_discards_unit JsonRef.json_loads model_down
                   plain_prompt response_with_null sample_page
                   [JObj [("title"%string, JStr "Designer")]] []
                   [("title"%string, JStr "Engineer"); ("location"%string, JNull)]
                   "location" (JStr "Engineer") JNull _ _ _ _ _ _ _ _));
    try reflexivity; try (vm_compute; discriminate); try (vm_compute; tauto).
Defined.

(** ** Admission *)

Section RowFacts.

Context {A : Type} (p : A -> bool).

Lemma first_row_none (rows : list A) :
  Forall (fun x => p x = false) rows -> first_row p rows = None.
Proof.
  induction 1 as [|x l Hx _ IH]; simpl; [reflexivity | now rewrite Hx].
Qed.

Lemma first_row_app_last (rows : list A) (x : A) :
  Forall (fun x => p x = false) rows -> p x = true ->
  first_row p (rows ++ [x]) = Some x.
Proof.
  intros H Hx. induction H as [|y l Hy _ IH]; simpl.
  - now rewrite Hx.
  - now rewrite Hy.
Qed.

Lemma update_first_app_last (f : A -> A) (rows : list A) (x : A) :
  Forall (fun x => p x = false) rows -> p x = true ->
  update_first p f (rows ++ [x]) = rows ++ [f x].
Proof.
  intros H Hx. induction H as [|y l Hy _ IH]; simpl.
  - now rewrite Hx.
  - now rewrite Hy, IH.
Qed.

Lemma filter_app_last (rows : list A) (x : A) :
  Forall (fun x => p x = false) rows -> p x = true ->
  List.filter p (rows ++ [x]) = [x].
Proof.
  intros H Hx. induction H as [|y l Hy _ IH]; simpl.
  - now rewrite Hx.
  - now rewrite Hy.
Qed.

End RowFacts.

Section AdmissionFacts.

Variable utcnow : nat -> Z.
Variable uuid4 : nat -> string.

(** C2.  In a store without a posting for the key of a candidate, the
    first admission persists one posting [p], built from the candidate;
    a second admission of a candidate with the same source, url and
    title returns [None], adds no posting, and leaves the store with [p]
    changed in its last-seen time and its active flag only: title,
    location, job type, experience level, description, requirements,
    url, raw data, normalization time and first-seen time are those the
    first call wrote, whatever the second candidate says.  Exactly one
    posting has the key, and both calls commit. *)
Theorem admit_twice (w : World) (first second : NormalizedJob.t)
    (career_page_id : string) :
  let key := generate_job_external_id career_page_id
               (NormalizedJob.url first) (NormalizedJob.title first) in
  let same_key j := String.eqb (JobPosting.external_id j) key in
  NormalizedJob.url second = NormalizedJob.url first ->
  NormalizedJob.title second = NormalizedJob.title first ->
  Forall (fun j => JobPosting.external_id j <> key) (job_postings (session w)) ->
  exists (p : JobPosting.t) (w1 w2 : World),
    save_new_job utcnow uuid4 first career_page_id w = (Ok (Some p), w1)
    /\ save_new_job utcnow uuid4 second career_page_id w1 = (Ok None, w2)
    /\ job_postings (session w1) = job_postings (session w) ++ [p]
    /\ job_postings (session w2)
       = job_postings (session w)
         ++ [JobPosting.seen_again (utcnow (clock w1)) p]
    /\ database w1 = session w1 /\ database w2 = session w2
    /\ List.filter same_key (job_postings (session w2))
       = [JobPosting.seen_again (utcnow (clock w1)) p]
    /\ (let p2 := JobPosting.seen_again (utcnow (clock w1)) p in
        JobPosting.title p2 = NormalizedJob.title first
        /\ JobPosting.location p2 = NormalizedJob.location first
        /\ JobPosting.job_type p2 = NormalizedJob.job_type first
        /\ JobPosting.experience_level p2 = NormalizedJob.experience_level first
        /\ JobPosting.description p2 = NormalizedJob.description first
        /\ JobPosting.requirements p2 = NormalizedJob.requirements first
        /\ JobPosting.url p2 = NormalizedJob.url first
        /\ JobPosting.raw_data p2 = NormalizedJob.raw_data first
        /\ JobPosting.normalized_at p2 = JobPosting.normalized_at p
        /\ JobPosting.first_seen_at p2 = JobPosting.first_seen_at p
        /\ JobPosting.id p2 = JobPosting.id p
        /\ JobPosting.external_id p2 = key
        /\ JobPosting.last_seen_at p2 = utcnow (clock w1)
        /\ JobPosting.is_active p2 = true)
    /\ users (session w2) = users (session w)
    /\ notification_queue (session w2) = notification_queue (session w)
    /\ notifications (session w2) = notifications (session w)
    /\ career_pages (session w2) = career_pages (session w).
Proof.
  intros key same_key Hu Ht Hfresh.
  assert (Forall (fun j => same_key j = false) (job_postings (session w))) as Hnone.
  { eapply List.Forall_impl; [| exact Hfresh]. intros j Hj.
    now apply String.eqb_neq. }
  unfold save_new_job at 1. fold key. fold same_key.
  unfold mbind, M_bind, get_session at 1.
  rewrite (first_row_none same_key _ Hnone).
  eexists. eexists. eexists.
  split; [cbn; reflexivity |].
  set (p := {| JobPosting.id := _ |}).
  assert (same_key p = true) as Hp by (apply String.eqb_refl).
  split.
  { unfold save_new_job. rewrite Hu, Ht. fold key. fold same_key.
    unfold mbind, M_bind, get_session. cbn [session with_session set_job_postings job_postings].
    rewrite (first_row_app_last same_key _ p Hnone Hp).
    cbn. reflexivity. }
  cbn [session with_session set_job_postings job_postings database users
       notification_queue notifications career_pages clock].
  rewrite (update_first_app_last same_key _ _ p Hnone Hp).
  repeat split; try reflexivity.
  apply filter_app_last; [exact Hnone | apply String.eqb_refl].
Qed.

End AdmissionFacts.

Lemma admit_twice_witness :
  NormalizedJob.url candidate_second = NormalizedJob.url candidate_first
  /\ NormalizedJob.title candidate_second = NormalizedJob.title candidate_first
  /\ exists p w1 w2,
       save_new_job clock_by_minute numbered_uuid candidate_first "cp-1"
         (world_of empty_store) = (Ok (Some p), w1)
       /\ save_new_job clock_by_minute numbered_uuid candidate_second "cp-1" w1
          = (Ok None, w2)
       /\ job_postings (session w2)
          = [JobPosting.seen_again (clock_by_minute (clock w1)) p].
Proof.
  split; [reflexivity | split; [reflexivity |]].
  destruct (admit_twice clock_by_minute numbered_uuid (world_of empty_store)
              candidate_first candidate_second "cp-1" eq_refl eq_refl
              (List.Forall_nil _))
    as (p & w1 & w2 & H1 & H2 & _ & H4 & _).
  exists p, w1, w2. split; [exact H1 | split; [exact H2 | exact H4]].
Defined.

(** ** Dispatch *)

Section DispatchFacts.

Variable utcnow : nat -> Z.
Variable uuid4 : nat -> string.
Variable smtp_send : nat -> EmailMessage -> result unit.
Variable webhook_execute : nat -> DiscordWebhook -> result unit.
Variable email_from : string.
Variable email_markup : list string -> string.
Variable strftime : Z -> string.
Variable title_mark : string.
Variable link_mark : string.

Let send_email := send_email_notification utcnow uuid4 smtp_send email_from email_markup.
Let send_discord :=
  send_discord_notification utcnow uuid4 webhook_execute strftime title_mark link_mark.
Let send_dashboard := send_dashboard_notification utcnow uuid4.
Let notify :=
  notify_channel utcnow uuid4 smtp_send webhook_execute email_from email_markup
    strftime title_mark link_mark.
Let process :=
  process_entry utcnow uuid4 smtp_send webhook_execute email_from email_markup
    strftime title_mark link_mark.

(** One step of a run: a lookup or a call to a transport, by cases. *)
Ltac run_step :=
  match goal with
  | |- context [first_row ?p ?l] => destruct (first_row p l) eqn:?
  | |- context [smtp_send ?n ?m] => destruct (smtp_send n m) as [[] | ?] eqn:?
  | |- context [webhook_execute ?n ?h] =>
      destruct (webhook_execute n h) as [[] | ?] eqn:?
  end.

Ltac run :=
  unfold try_catch, mbind, M_bind, mret, M_ret, get_session, raise;
  cbn; repeat (run_step; cbn).

Lemma send_email_keeps_queue (user : User.t) (job : JobPosting.t) :
  keeps_queue (send_email user job).
Proof.
  intros w. unfold send_email, send_email_notification,
    _create_email_html, career_page_company_name.
  run; eexists; repeat split.
Qed.

Lemma send_discord_keeps_queue (user : User.t) (job : JobPosting.t) :
  keeps_queue (send_discord user job).
Proof.
  intros w. unfold send_discord, send_discord_notification.
  destruct (negb (column_truthy (User.discord_webhook_url user)));
    [eexists; repeat split |].
  unfold career_page_company_name. run; eexists; repeat split.
Qed.

Lemma send_dashboard_keeps_queue (user : User.t) (job : JobPosting.t) :
  keeps_queue (send_dashboard user job).
Proof. intros w. eexists. repeat split. Qed.

Lemma notify_keeps_queue (user : User.t) (job : JobPosting.t) (channel : string) :
  keeps_queue (notify user job channel).
Proof.
  unfold notify, notify_channel.
  destruct (String.eqb (PyStr.strip channel) "email");
    [apply send_email_keeps_queue |].
  destruct (String.eqb (PyStr.strip channel) "discord");
    [apply send_discord_keeps_queue |].
  destruct (String.eqb (PyStr.strip channel) "dashboard");
    [apply send_dashboard_keeps_queue |].
  intros w. exists w. repeat split.
Qed.

Lemma for_each_keeps_queue {A} (l : list A) (body : A -> M unit) :
  (forall x, keeps_queue (body x)) -> keeps_queue (for_each l body).
Proof.
  intros H. induction l as [|x l IH]; intros w; simpl.
  - exists w. repeat split.
  - destruct (H x w) as (w1 & E1 & Q1 & U1 & J1).
    destruct (IH w1) as (w2 & E2 & Q2 & U2 & J2).
    exists w2. unfold mbind, M_bind. rewrite E1, E2.
    repeat split; congruence.
Qed.

(** The rows of the queue that are not the entry. *)
Let others (entry : NotificationQueue.t) (queue : list NotificationQueue.t) :=
  List.filter (fun q => negb (String.eqb (NotificationQueue.id q)
                                         (NotificationQueue.id entry))) queue.

Lemma others_without_entry (entry : NotificationQueue.t)
    (queue : list NotificationQueue.t) :
  Forall (fun q => NotificationQueue.id q <> NotificationQueue.id entry)
         (others entry queue).
Proof.
  apply List.Forall_forall. intros q H. apply filter_In in H as [_ H].
  apply negb_true_iff in H. now apply String.eqb_neq.
Qed.

(** An entry whose subscriber and posting exist: every channel is tried,
    then the entry is deleted and the deletion committed. *)
Lemma process_found (w : World) (entry : NotificationQueue.t)
    (user : User.t) (job : JobPosting.t) :
  first_row (fun u => String.eqb (User.id u) (NotificationQueue.user_id entry))
            (users (session w)) = Some user ->
  first_row (fun j => String.eqb (JobPosting.id j)
                        (NotificationQueue.job_posting_id entry))
            (job_postings (session w)) = Some job ->
  exists w1,
    for_each (PyStr.split (NotificationQueue.channels entry) ",")
             (notify user job) w = (Ok tt, w1)
    /\ notification_queue (session w1) = notification_queue (session w)
    /\ process entry w
       = (Ok tt,
          {| session := set_notification_queue
                          (others entry (notification_queue (session w)))
                          (session w1);
             database := set_notification_queue
                           (others entry (notification_queue (session w)))
                           (session w1);
             clock := clock w1; drawn := drawn w1; outbox := outbox w1 |}).
Proof.
  intros Hu Hj.
  destruct (for_each_keeps_queue
              (PyStr.split (NotificationQueue.channels entry) ",")
              (notify user job) (notify_keeps_queue user job) w)
    as (w1 & E & Q & _ & _).
  exists w1. split; [exact E | split; [exact Q |]].
  unfold process, process_entry, try_catch, mbind, M_bind, get_session.
  rewrite Hu, Hj. fold (notify user job). rewrite E. cbn.
  unfold others. now rewrite Q.
Qed.

Lemma process_returns (entry : NotificationQueue.t) (w : World) :
  exists w', process entry w = (Ok tt, w').
Proof.
  unfold process, process_entry, try_catch.
  match goal with |- context [match ?m w with _ => _ end] =>
    destruct (m w) as [[[] | e] w'] end; eexists; reflexivity.
Qed.

Lemma for_each_returns {A} (l : list A) (body : A -> M unit) :
  (forall x w, exists w', body x w = (Ok tt, w')) ->
  forall w, exists w', for_each l body w = (Ok tt, w').
Proof.
  intros H. induction l as [|x l IH]; intros w; simpl; [now exists w |].
  destruct (H x w) as [w1 E1]. destruct (IH w1) as [w2 E2].
  exists w2. unfold mbind, M_bind. now rewrite E1.
Qed.

Lemma queue_never_raises (w : World) :
  exists w',
    process_notification_queue utcnow uuid4 smtp_send webhook_execute
      email_from email_markup strftime title_mark link_mark w = (Ok tt, w').
Proof.
  unfold process_notification_queue, mbind, M_bind, get_session.
  destruct (negb (list_truthy (notification_queue (session w))));
    [now exists w |].
  apply for_each_returns. intros x w0. apply process_returns.
Qed.

(** The mail channel when the transport accepts the message. *)
Lemma send_email_sent (w : World) (user : User.t) (job : JobPosting.t)
    (page : CareerPage.t) :
  first_row (fun c => String.eqb (CareerPage.id c) (JobPosting.career_page_id job))
            (career_pages (session w)) = Some page ->
  (forall m, smtp_send (length (outbox w)) m = Ok tt) ->
  exists w' mail,
    send_email user job w = (Ok tt, w')
    /\ notifications (session w')
       = notifications (session w)
         ++ [ {| Notification.id := uuid4 (drawn w);
                 Notification.user_id := User.id user;
                 Notification.job_posting_id := JobPosting.id job;
                 Notification.channel := EMAIL;
                 Notification.status := SENT;
                 Notification.sent_at := Some (utcnow (clock w));
                 Notification.error_message := None;
                 Notification.created_at := utcnow (S (clock w)) |} ]
    /\ outbox w' = outbox w ++ [MailDelivery mail]
    /\ career_pages (session w') = career_pages (session w)
    /\ clock w' = S (S (clock w)) /\ drawn w' = S (drawn w).
Proof.
  intros Hp Hs. unfold send_email, send_email_notification,
    _create_email_html, career_page_company_name.
  unfold try_catch, mbind, M_bind, mret, M_ret, get_session, raise. cbn.
  repeat (first [rewrite Hp | rewrite Hs]; cbn).
  eexists. eexists. repeat split.
Qed.

(** The webhook channel when the transport raises. *)
Lemma send_discord_failed (w : World) (user : User.t) (job : JobPosting.t)
    (page : CareerPage.t) (e : exn) :
  first_row (fun c => String.eqb (CareerPage.id c) (JobPosting.career_page_id job))
            (career_pages (session w)) = Some page ->
  column_truthy (User.discord_webhook_url user) = true ->
  (forall h, webhook_execute (length (outbox w)) h = Raise e) ->
  exists w' hook,
    send_discord user job w = (Ok tt, w')
    /\ notifications (session w')
       = notifications (session w)
         ++ [ {| Notification.id := uuid4 (drawn w);
                 Notification.user_id := User.id user;
                 Notification.job_posting_id := JobPosting.id job;
                 Notification.channel := DISCORD;
                 Notification.status := FAILED;
                 Notification.sent_at := None;
                 Notification.error_message := Some (exn_text e);
                 Notification.created_at := utcnow (clock w) |} ]
    /\ outbox w' = outbox w ++ [WebhookDelivery hook].
Proof.
  intros Hp Hu Hs. unfold send_discord, send_discord_notification.
  rewrite Hu. cbn [negb]. unfold career_page_company_name.
  unfold try_catch, mbind, M_bind, mret, M_ret, get_session, raise. cbn.
  repeat (first [rewrite Hp | rewrite Hs]; cbn).
  eexists. eexists. repeat split.
Qed.

(** C7.  For an entry whose subscriber and posting exist, every channel
    is attempted, the drain of the queue returns without raising, and
    the entry is deleted and the deletion committed, whatever the
    transports did.  With the channels "email,discord", a mail transport
    that accepts the message and a webhook transport that raises, two
    notification records are appended: one [sent] for the mail, with its
    time, and one [failed] for the webhook, with the text of the
    exception. *)
Theorem dispatch_records_each_channel (w : World) (entry : NotificationQueue.t)
    (user : User.t) (job : JobPosting.t) :
  first_row (fun u => String.eqb (User.id u) (NotificationQueue.user_id entry))
            (users (session w)) = Some user ->
  first_row (fun j => String.eqb (JobPosting.id j)
                        (NotificationQueue.job_posting_id entry))
            (job_postings (session w)) = Some job ->
  (exists w',
      process_entry utcnow uuid4 smtp_send webhook_execute email_from
        email_markup strftime title_mark link_mark entry w = (Ok tt, w')
      /\ Forall (fun q => NotificationQueue.id q <> NotificationQueue.id entry)
                (notification_queue (session w'))
      /\ notification_queue (session w')
         = List.filter (fun q => negb (String.eqb (NotificationQueue.id q)
                                                  (NotificationQueue.id entry)))
                       (notification_queue (session w))
      /\ database w' = session w')
  /\ (forall w0, exists w',
        process_notification_queue utcnow uuid4 smtp_send webhook_execute
          email_from email_markup strftime title_mark link_mark w0 = (Ok tt, w'))
  /\ (forall page e,
        first_row (fun c => String.eqb (CareerPage.id c)
                              (JobPosting.career_page_id job))
                  (career_pages (session w)) = Some page ->
        NotificationQueue.channels entry = "email,discord"%string ->
        column_truthy (User.discord_webhook_url user) = true ->
        (forall m, smtp_send (length (outbox w)) m = Ok tt) ->
        (forall h, webhook_execute (S (length (outbox w))) h = Raise e) ->
        exists w' mail hook,
          process_entry utcnow uuid4 smtp_send webhook_execute email_from
            email_markup strftime title_mark link_mark entry w = (Ok tt, w')
          /\ notifications (session w')
             = notifications (session w)
               ++ [ {| Notification.id := uuid4 (drawn w);
                       Notification.user_id := User.id user;
                       Notification.job_posting_id := JobPosting.id job;
                       Notification.channel := EMAIL;
                       Notification.status := SENT;
                       Notification.sent_at := Some (utcnow (clock w));
                       Notification.error_message := None;
                       Notification.created_at := utcnow (S (clock w)) |};
                    {| Notification.id := uuid4 (S (drawn w));
                       Notification.user_id := User.id user;
                       Notification.job_posting_id := JobPosting.id job;
                       Notification.channel := DISCORD;
                       Notification.status := FAILED;
                       Notification.sent_at := None;
                       Notification.error_message := Some (exn_text e);
                       Notification.created_at := utcnow (S (S (clock w))) |} ]
          /\ outbox w' = outbox w ++ [MailDelivery mail; WebhookDelivery hook]
          /\ database w' = session w').
Proof.
  intros Hu Hj.
  destruct (process_found w entry user job Hu Hj) as (w1 & E & Q & P).
  split.
  { eexists. split; [exact P |]. cbn. split; [apply others_without_entry |].
    split; reflexivity. }
  split; [apply queue_never_raises |].
  intros page e Hp Hc Ht Hs Hw.
  destruct (send_email_sent w user job page Hp Hs)
    as (wa & mail & Ea & Na & Oa & Ca & Ka & Da).
  destruct (send_discord_failed wa user job page e) as (wb & hook & Eb & Nb & Ob).
  { now rewrite Ca. }
  { exact Ht. }
  { intros h. rewrite Oa, length_app. simpl length.
    replace (length (outbox w) + 1)%nat with (S (length (outbox w))) by lia.
    apply Hw. }
  assert (w1 = wb) as ->.
  { rewrite Hc in E.
    replace (PyStr.split "email,discord" ",") with ["email"%string; "discord"%string]
      in E by reflexivity.
    cbn [for_each] in E. unfold notify, notify_channel in E.
    replace (PyStr.strip "email") with "email"%string in E by reflexivity.
    replace (PyStr.strip "discord") with "discord"%string in E by reflexivity.
    cbn [String.eqb Ascii.eqb Bool.eqb] in E.
    fold (send_email user job) in E. fold (send_discord user job) in E.
    unfold mbind, M_bind in E. rewrite Ea, Eb in E.
    unfold mret, M_ret in E. congruence. }
  eexists. exists mail, hook. split; [exact P |]. cbn.
  rewrite Nb, Na, Ob, Oa, Ka, Da, <- !app_assoc. repeat split.
Qed.

(** A stale entry is deleted from the session, and only there.  When
    the subscriber or the posting of an entry is not found, [db.delete]
    removes the entry from the session and nothing else happens: no
    transport is called, no notification record is added, the clock is
    not read, nothing is committed, so the database still holds the
    entry, and the step returns, so the loop goes on with the entries
    that follow; the drain of the queue never raises. *)
Theorem stale_entry_dropped (w : World) (entry : NotificationQueue.t) :
  first_row (fun u => String.eqb (User.id u) (NotificationQueue.user_id entry))
            (users (session w)) = None
  \/ first_row (fun j => String.eqb (JobPosting.id j)
                           (NotificationQueue.job_posting_id entry))
               (job_postings (session w)) = None ->
  let w' :=
    with_session
      (set_notification_queue
         (List.filter (fun q => negb (String.eqb (NotificationQueue.id q)
                                                 (NotificationQueue.id entry)))
                      (notification_queue (session w)))) w in
  process_entry utcnow uuid4 smtp_send webhook_execute email_from email_markup
    strftime title_mark link_mark entry w = (Ok tt, w')
  /\ Forall (fun q => NotificationQueue.id q <> NotificationQueue.id entry)
            (notification_queue (session w'))
  /\ notifications (session w') = notifications (session w)
  /\ outbox w' = outbox w
  /\ database w' = database w
  /\ (forall rest,
        for_each (entry :: rest)
          (process_entry utcnow uuid4 smtp_send webhook_execute email_from
             email_markup strftime title_mark link_mark) w
        = for_each rest
            (process_entry utcnow uuid4 smtp_send webhook_execute email_from
               email_markup strftime title_mark link_mark) w')
  /\ (forall w0, exists w1,
        process_notification_queue utcnow uuid4 smtp_send webhook_execute
          email_from email_markup strftime title_mark link_mark w0 = (Ok tt, w1)).
Proof.
  intros H w'.
  assert (process entry w = (Ok tt, w')) as P.
  { unfold process, process_entry, try_catch, mbind, M_bind, get_session.
    destruct H as [-> | ->].
    - reflexivity.
    - now destruct (first_row _ (users (session w))). }
  split; [exact P |].
  split; [apply others_without_entry |].
  split; [reflexivity |]. split; [reflexivity |]. split; [reflexivity |].
  split; [| apply queue_never_raises].
  intros rest. cbn [for_each]. unfold mbind, M_bind.
  fold process. now rewrite P.
Qed.

(** The channel is none of the three the dispatcher knows. *)
Lemma notify_unknown (user : User.t) (job : JobPosting.t) (channel : string)
    (w : World) :
  PyStr.strip channel <> "email"%string ->
  PyStr.strip channel <> "discord"%string ->
  PyStr.strip channel <> "dashboard"%string ->
  notify user job channel w = (Ok tt, w).
Proof.
  intros H1 H2 H3. unfold notify, notify_channel.
  apply String.eqb_neq in H1, H2, H3. now rewrite H1, H2, H3.
Qed.

(** C10.  A channel name of ASCII characters that, once trimmed, is not
    exactly "email", "discord" or "dashboard" does nothing: the world
    after it is the world before it, so no transport is called and no
    notification record is added, and the loop over the channels goes
    on as if the channel were not listed.  The entry is deleted after
    the loop, and the deletion committed, like any entry whose
    subscriber and posting exist. *)
Theorem unknown_channel_ignored (user : User.t) (job : JobPosting.t)
    (channel : string) :
  PyStr.isascii channel = true ->
  PyStr.strip channel <> "email"%string ->
  PyStr.strip channel <> "discord"%string ->
  PyStr.strip channel <> "dashboard"%string ->
  (forall w,
      notify_channel utcnow uuid4 smtp_send webhook_execute email_from
        email_markup strftime title_mark link_mark user job channel w
      = (Ok tt, w))
  /\ (forall before after w,
        for_each (before ++ channel :: after)
          (notify_channel utcnow uuid4 smtp_send webhook_execute email_from
             email_markup strftime title_mark link_mark user job) w
        = for_each (before ++ after)
            (notify_channel utcnow uuid4 smtp_send webhook_execute email_from
               email_markup strftime title_mark link_mark user job) w)
  /\ (forall w entry,
        first_row (fun u => String.eqb (User.id u)
                              (NotificationQueue.user_id entry))
                  (users (session w)) = Some user ->
        first_row (fun j => String.eqb (JobPosting.id j)
                              (NotificationQueue.job_posting_id entry))
                  (job_postings (session w)) = Some job ->
        PyStr.split (NotificationQueue.channels entry) "," = [channel] ->
        exists w',
          process_entry utcnow uuid4 smtp_send webhook_execute email_from
            email_markup strftime title_mark link_mark entry w = (Ok tt, w')
          /\ notifications (session w') = notifications (session w)
          /\ outbox w' = outbox w
          /\ notification_queue (session w')
             = List.filter
                 (fun q => negb (String.eqb (NotificationQueue.id q)
                                            (NotificationQueue.id entry)))
                 (notification_queue (session w))
          /\ database w' = session w').
Proof.
  intros _ H1 H2 H3.
  assert (forall w, notify user job channel w = (Ok tt, w)) as N
    by (intros w; now apply notify_unknown).
  split; [exact N |]. split.
  - intros before after. induction before as [|c l IH]; intros w.
    + cbn [app for_each]. unfold mbind, M_bind. fold (notify user job).
      now rewrite N.
    + cbn [app for_each]. unfold mbind, M_bind.
      destruct (notify_channel _ _ _ _ _ _ _ _ _ user job c w)
        as [[[] | e] w1]; [apply IH | reflexivity].
  - intros w entry Hu Hj Hc.
    destruct (process_found w entry user job Hu Hj) as (w1 & E & Q & P).
    rewrite Hc in E. cbn [for_each] in E. unfold mbind, M_bind in E.
    rewrite N in E. unfold mret, M_ret in E.
    assert (w1 = w) as -> by congruence.
    eexists. split; [exact P |]. repeat split.
Qed.

End DispatchFacts.

Lemma dispatch_records_each_channel_witness :
  first_row (fun u => String.eqb (User.id u) (NotificationQueue.user_id sample_entry))
            (users (session (world_of sample_store))) = Some sample_user
  /\ first_row (fun j => String.eqb (JobPosting.id j)
                           (NotificationQueue.job_posting_id sample_entry))
               (job_postings (session (world_of sample_store)))
     = Some posting_without_location
  /\ exists w' mail hook,
       process_entry clock_by_minute numbered_uuid mail_accepts webhook_refuses
         "jobs@example.org" plain_markup plain_strftime "*" ">" sample_entry
         (world_of sample_store) = (Ok tt, w')
       /\ map Notification.status (notifications (session w')) = [SENT; FAILED]
       /\ map Notification.error_message (notifications (session w'))
          = [None; Some "404 Not Found"%string]
       /\ outbox w' = [MailDelivery mail; WebhookDelivery hook].
Proof.
  split; [reflexivity | split; [reflexivity |]].
  destruct (proj2 (proj2
              (dispatch_records_each_channel clock_by_minute numbered_uuid
                 mail_accepts webhook_refuses "jobs@example.org" plain_markup
                 plain_strftime "*" ">" (world_of sample_store) sample_entry
                 sample_user posting_without_location eq_refl eq_refl))
              sample_career_page (Exn OtherError "404 Not Found")
              eq_refl eq_refl eq_refl (fun _ => eq_refl) (fun _ => eq_refl))
    as (w' & mail & hook & E & N & O & _).
  exists w', mail, hook. split; [exact E |]. rewrite N, O.
  repeat split.
Defined.

Lemma stale_entry_dropped_witness :
  first_row (fun u => String.eqb (User.id u) (NotificationQueue.user_id stale_entry))
            (users (session (world_of sample_store))) = None
  /\ exists w',
       process_entry clock_by_minute numbered_uuid mail_accepts webhook_refuses
         "jobs@example.org" plain_markup plain_strftime "*" ">" stale_entry
         (world_of sample_store) = (Ok tt, w')
       /\ notification_queue (session w') = [sample_entry; sms_entry]
       /\ notifications (session w') = []
       /\ outbox w' = [].
Proof.
  split; [reflexivity |].
  destruct (stale_entry_dropped clock_by_minute numbered_uuid mail_accepts
              webhook_refuses "jobs@example.org" plain_markup plain_strftime
              "*" ">" (world_of sample_store) stale_entry (or_introl eq_refl))
    as (E & _ & N & O & _).
  eexists. split; [exact E |]. repeat split.
Defined.

(** C8.  The code on a queue of a live entry followed by a stale one,
    the subscriber of the second being gone.  The drain returns, and in
    the session no entry is left; the live entry was deleted and the
    deletion committed, but the deletion of the stale entry is never
    committed: when the worker has closed its session the database
    still queues the stale entry.  No notification record is made for
    it: the two records are those of the live entry. *)
Theorem stale_entry_left_in_database :
  fst live_then_stale_drain = Ok tt
  /\ notification_queue (session (snd live_then_stale_drain)) = []
  /\ notification_queue (database (snd live_then_stale_drain)) = [stale_entry]
  /\ fst live_then_stale_run = Ok tt
  /\ notification_queue (database (snd live_then_stale_run)) = [stale_entry]
  /\ notification_queue (session (snd live_then_stale_run)) = [stale_entry]
  /\ map Notification.user_id
         (notifications (database (snd live_then_stale_run)))
     = [User.id sample_user; User.id sample_user].
Proof. vm_compute. repeat split. Qed.

Lemma unknown_channel_ignored_witness :
  PyStr.isascii "sms" = true
  /\ PyStr.strip "sms" <> "email"%string
  /\ PyStr.strip "sms" <> "discord"%string
  /\ PyStr.strip "sms" <> "dashboard"%string
  /\ exists w',
       process_entry clock_by_minute numbered_uuid mail_accepts webhook_refuses
         "jobs@example.org" plain_markup plain_strftime "*" ">" sms_entry
         (world_of sample_store) = (Ok tt, w')
       /\ notifications (session w') = []
       /\ outbox w' = []
       /\ notification_queue (session w') = [sample_entry; stale_entry]
       /\ database w' = session w'.
Proof.
  assert (PyStr.strip "sms" <> "email"%string) as H1 by (vm_compute; discriminate).
  assert (PyStr.strip "sms" <> "discord"%string) as H2 by (vm_compute; discriminate).
  assert (PyStr.strip "sms" <> "dashboard"%string) as H3 by (vm_compute; discriminate).
  split; [reflexivity |].
  split; [exact H1 | split; [exact H2 | split; [exact H3 |]]].
  destruct (proj2 (proj2
              (unknown_channel_ignored clock_by_minute numbered_uuid
                 mail_accepts webhook_refuses "jobs@example.org" plain_markup
                 plain_strftime "*" ">" sample_user posting_without_location
                 "sms" eq_refl H1 H2 H3))
              (world_of sample_store) sms_entry eq_refl eq_refl eq_refl)
    as (w' & E & N & O & Q & D).
  exists w'. split; [exact E |]. rewrite N, O, Q. repeat split. exact D.
Defined.

(* ===================================================================== *)
(** * Part III: further properties of the code                           *)
(* ===================================================================== *)

(** ** The identity hash, continued *)

Lemma append_assoc (a b c : string) : ((a ++ b) ++ c = a ++ b ++ c)%string.
Proof. apply chars_inj. now rewrite !chars_app, app_assoc. Qed.

(** X1.  The three inputs are joined with colons that nothing escapes: a
    colon at the end of the source identifier and one at the start of
    the url give the same key, and likewise between url and title. *)
Theorem external_id_separator_ambiguous (a b c d : string) :
  generate_job_external_id (a ++ ":" ++ b) c d
  = generate_job_external_id a (b ++ ":" ++ c) d
  /\ generate_job_external_id a (b ++ ":" ++ c) d
     = generate_job_external_id a b (c ++ ":" ++ d).
Proof.
  split; apply external_id_of_key; do 2 f_equal;
    now rewrite !append_assoc.
Qed.

(** ** The matcher, continued *)

Section MatcherMore.
Import PyStr.

Lemma strip_blank (s : string) : blank (chars s) -> strip s = ""%string.
Proof.
  intros H. unfold strip, strip_chars. now rewrite lstrip_blank.
Qed.

Lemma contains_empty (s : string) : contains "" s = true.
Proof. unfold contains. now destruct (chars s). Qed.

Lemma contains_self (s : string) : contains s s = true.
Proof.
  apply contains_spec. exists ""%string, ""%string.
  apply chars_inj. now rewrite !chars_app, app_nil_r.
Qed.

(** X2.  The comparison of locations does not depend on which of the two
    is the posting's and which the subscriber's, and a location matches
    itself. *)
Theorem location_matches_symmetric (a b : string) :
  _location_matches a b = _location_matches b a
  /\ _location_matches a a = true.
Proof.
  split.
  - unfold _location_matches.
    rewrite (String.eqb_sym (strip (lower a))).
    destruct (String.eqb (strip (lower b)) (strip (lower a))); [reflexivity |].
    rewrite (andb_comm (contains "remote" (strip (lower b)))).
    destruct (contains "remote" (strip (lower a))
              && contains "remote" (strip (lower b))); [reflexivity |].
    now rewrite orb_comm.
  - unfold _location_matches. now rewrite String.eqb_refl.
Qed.

(** X3.  A preferred location that is empty or only whitespace matches
    every location of a posting: the empty text occurs in every text. *)
Theorem blank_preference_matches_all (posted preferred : string) :
  blank (chars preferred) -> _location_matches posted preferred = true.
Proof.
  intros H. unfold _location_matches.
  rewrite (strip_blank (lower preferred)) by now apply lower_blank.
  destruct (String.eqb _ _); [reflexivity |].
  destruct (_ && _); [reflexivity |].
  now rewrite contains_empty.
Qed.

Lemma blank_preference_matches_all_witness :
  blank (chars "  ") /\ _location_matches "Berlin" "  " = true.
Proof.
  assert (blank (chars "  ")) as H by (repeat constructor).
  split; [exact H |]. exact (blank_preference_matches_all "Berlin" "  " H).
Defined.

End MatcherMore.

Lemma str_in_iff (x : string) (xs : list string) : str_in x xs = true <-> In x xs.
Proof.
  unfold str_in. rewrite existsb_exists. split.
  - intros [y [Hy E]]. apply String.eqb_eq in E. now subst.
  - intros H. exists x. split; [exact H | apply String.eqb_refl].
Qed.

Lemma column_truthy_iff (v : option string) :
  column_truthy v = true <-> exists s, v = Some s /\ s <> ""%string.
Proof.
  destruct v as [s |]; simpl.
  - unfold PyStr.truthy. rewrite negb_true_iff, String.eqb_neq. split.
    + intros H. now exists s.
    + now intros [t [[= ->] H]].
  - split; [discriminate | now intros [s [H _]]].
Qed.

(** X4.  [check_user_match] as one condition: the posting matches
    exactly when each of the four lists of the preferences is empty or
    absent, or is satisfied: some preferred location matches the
    posting's non-empty location, the posting's non-empty job type and
    experience level are in their lists, and its career page is in the
    list of companies. Keys other than these four are never read. *)
Theorem check_user_match_iff (user : User.t) (job : JobPosting.t) :
  let preferences : gmap string (list string) :=
    default ∅ (User.preferences user) in
  check_user_match user job = true <->
  (pref_get preferences "locations" = []
   \/ exists location preferred,
        JobPosting.location job = Some location /\ location <> ""%string
        /\ In preferred (pref_get preferences "locations")
        /\ _location_matches location preferred = true)
  /\ (pref_get preferences "job_types" = []
      \/ exists job_type,
           JobPosting.job_type job = Some job_type /\ job_type <> ""%string
           /\ In job_type (pref_get preferences "job_types"))
  /\ (pref_get preferences "experience_levels" = []
      \/ exists level,
           JobPosting.experience_level job = Some level /\ level <> ""%string
           /\ In level (pref_get preferences "experience_levels"))
  /\ (pref_get preferences "company_ids" = []
      \/ In (JobPosting.career_page_id job) (pref_get preferences "company_ids")).
Proof.
  intros preferences.
  assert (forall (l : list string) (b : bool),
             (list_truthy l && negb b = false) <-> (l = [] \/ b = true)) as T.
  { intros l b. destruct l, b; simpl; split; intros H; auto;
      try discriminate; try (destruct H; congruence). }
  set (b1 := column_truthy (JobPosting.location job)
             && existsb (_location_matches
                           (default ""%string (JobPosting.location job)))
                        (pref_get preferences "locations")).
  set (b2 := column_truthy (JobPosting.job_type job)
             && str_in (default ""%string (JobPosting.job_type job))
                       (pref_get preferences "job_types")).
  set (b3 := column_truthy (JobPosting.experience_level job)
             && str_in (default ""%string (JobPosting.experience_level job))
                       (pref_get preferences "experience_levels")).
  set (b4 := str_in (JobPosting.career_page_id job)
                    (pref_get preferences "company_ids")).
  assert (check_user_match user job
          = negb (list_truthy (pref_get preferences "locations") && negb b1)
            && negb (list_truthy (pref_get preferences "job_types") && negb b2)
            && negb (list_truthy (pref_get preferences "experience_levels")
                     && negb b3)
            && negb (list_truthy (pref_get preferences "company_ids") && negb b4))
    as E.
  { unfold check_user_match. fold preferences.
    destruct (bool_decide (preferences = ∅)) eqn:D.
    - apply bool_decide_eq_true in D. unfold pref_get. rewrite D.
      now rewrite !lookup_empty.
    - unfold b1, b2, b3, b4. rewrite <- !negb_andb.
      repeat match goal with
             | |- (if ?c then false else _) = _ =>
                 destruct c; simpl; try reflexivity
             end. }
  rewrite E, !andb_true_iff, !negb_true_iff, !T.
  unfold b1, b2, b3, b4. rewrite !andb_true_iff, !str_in_iff, !column_truthy_iff.
  rewrite existsb_exists.
  split.
  - intros [[[H1 H2] H3] H4]. repeat split.
    + destruct H1 as [H1 | [(s & Hs & Hn) (p & Hp & Hm)]]; [now left | right].
      rewrite Hs in Hm. simpl in Hm. now exists s, p.
    + destruct H2 as [H2 | [(s & Hs & Hn) Hi]]; [now left | right].
      rewrite Hs in Hi. now exists s.
    + destruct H3 as [H3 | [(s & Hs & Hn) Hi]]; [now left | right].
      rewrite Hs in Hi. now exists s.
    + exact H4.
  - intros (H1 & H2 & H3 & H4). repeat split.
    + destruct H1 as [H1 | (s & p & Hs & Hn & Hp & Hm)]; [now left | right].
      split; [now exists s |]. exists p. rewrite Hs. now split.
    + destruct H2 as [H2 | (s & Hs & Hn & Hi)]; [now left | right].
      split; [now exists s |]. now rewrite Hs.
    + destruct H3 as [H3 | (s & Hs & Hn & Hi)]; [now left | right].
      split; [now exists s |]. now rewrite Hs.
    + exact H4.
Qed.

(** ** Recipients and their queue entries *)

Section SplitFacts.
Import PyStr.

Lemma split_chars_piece (sep : ascii) (a rest piece : list ascii) :
  ~ In sep a ->
  split_chars sep (a ++ rest) piece = split_chars sep rest (rev a ++ piece).
Proof.
  revert piece. induction a as [|c a IH]; intros piece H; simpl; [reflexivity |].
  destruct (Ascii.eqb c sep) eqn:E.
  - apply Ascii.eqb_eq in E. subst. exfalso. apply H. now left.
  - rewrite IH by (intros N; apply H; now right).
    now rewrite <- app_assoc.
Qed.

Lemma split_chars_concat (sep : ascii) (l : list string) :
  l <> [] -> Forall (fun s => ~ In sep (chars s)) l ->
  split_chars sep (chars (String.concat (String sep "") l)) [] = map chars l.
Proof.
  intros Hne H. induction H as [|x l Hx Hl IH]; [congruence |].
  destruct l as [|y l].
  - simpl String.concat. rewrite <- (app_nil_r (chars x)).
    rewrite split_chars_piece by assumption. simpl.
    now rewrite app_nil_r, rev_involutive.
  - change (String.concat (String sep "") (x :: y :: l))
      with (x ++ String sep "" ++ String.concat (String sep "") (y :: l))%string.
    rewrite !chars_app. rewrite split_chars_piece by assumption.
    change (chars (String sep "")) with [sep].
    cbn [app split_chars]. rewrite Ascii.eqb_refl, app_nil_r, rev_involutive.
    rewrite IH by discriminate. reflexivity.
Qed.

End SplitFacts.

(** X5.  The channels of a recipient survive the trip through the queue:
    the entry holds them joined with commas, the dispatcher splits the
    text at the commas, and gets the list back, provided no channel name
    has a comma in it. A recipient without channels gets ["email"]. *)
Theorem queued_channels_round_trip (user : User.t) :
  Forall (fun c => ~ In ","%char (PyStr.chars c)) (User.notification_channels user) ->
  PyStr.split (String.concat "," (channels_of user)) "," = channels_of user
  /\ channels_of user <> []
  /\ (User.notification_channels user = [] -> channels_of user = ["email"%string]).
Proof.
  intros H.
  assert (channels_of user <> []) as Hne.
  { unfold channels_of. destruct (User.notification_channels user); discriminate. }
  split; [| split; [exact Hne |]].
  - unfold PyStr.split. rewrite split_chars_concat; [| exact Hne |].
    + rewrite map_map. rewrite <- (map_id (channels_of user)) at 2.
      apply map_ext. intros s. apply string_of_list_ascii_of_string.
    + unfold channels_of. destruct (User.notification_channels user); [| exact H].
      repeat constructor. vm_compute. intuition discriminate.
  - unfold channels_of. now intros ->.
Qed.

Lemma queued_channels_round_trip_witness :
  Forall (fun c => ~ In ","%char (PyStr.chars c))
         (User.notification_channels sample_user)
  /\ PyStr.split (String.concat "," (channels_of sample_user)) ","
     = ["email"%string; "discord"%string].
Proof.
  assert (Forall (fun c => ~ In ","%char (PyStr.chars c))
                 (User.notification_channels sample_user)) as H.
  { repeat constructor; vm_compute; intuition discriminate. }
  split; [exact H |].
  exact (proj1 (queued_channels_round_trip sample_user H)).
Defined.

Section RecipientFacts.

Variable utcnow : nat -> Z.
Variable uuid4 : nat -> string.

Lemma matching_users_filter (all_users : list User.t) (job : JobPosting.t) :
  matching_users all_users job
  = List.filter (fun user => check_user_match user job) all_users.
Proof.
  induction all_users as [|u l IH]; simpl; [reflexivity |].
  now rewrite IH.
Qed.

Lemma filter_filter {A} (p q : A -> bool) (l : list A) :
  List.filter q (List.filter p l) = List.filter (fun x => p x && q x) l.
Proof.
  induction l as [|x l IH]; simpl; [reflexivity |].
  destruct (p x); simpl; [destruct (q x) |]; now rewrite IH.
Qed.

(** The loop of [queue_notifications], before its commit. *)
Lemma enqueue_loop (recipients : list User.t) (job : JobPosting.t) (w : World) :
  exists w' added,
    for_each recipients (fun user =>
      created_at ← now utcnow;
      id ← new_id uuid4;
      modify_session (set_queue_append
        {| NotificationQueue.id := id;
           NotificationQueue.user_id := User.id user;
           NotificationQueue.job_posting_id := JobPosting.id job;
           NotificationQueue.channels := String.concat "," (channels_of user);
           NotificationQueue.priority := 0;
           NotificationQueue.created_at := created_at |})) w = (Ok tt, w')
    /\ notification_queue (session w') = notification_queue (session w) ++ added
    /\ Forall2 (entry_for job) recipients added
    /\ same_but_queue (session w) (session w')
    /\ database w' = database w /\ outbox w' = outbox w.
Proof.
  revert w. induction recipients as [|u l IH]; intros w.
  - exists w, []. cbn. rewrite app_nil_r. unfold same_but_queue.
    repeat split. constructor.
  - cbn [for_each]. unfold mbind at 1, M_bind at 1.
    match goal with
    | |- context [match ?m w with _ => _ end] =>
        assert (exists e, m w = (Ok tt,
                  {| session := set_queue_append e (session w);
                     database := database w; clock := S (clock w);
                     drawn := S (drawn w); outbox := outbox w |})
                /\ entry_for job u e) as (e & -> & He)
    end.
    { eexists. split; [reflexivity |]. unfold entry_for. repeat split. }
    destruct (IH {| session := set_queue_append e (session w);
                    database := database w; clock := S (clock w);
                    drawn := S (drawn w); outbox := outbox w |})
      as (w' & added & E & Q & F & (S1 & S2 & S3 & S4) & D & O).
    exists w', (e :: added). split; [exact E |]. cbn in *.
    split; [now rewrite Q, <- app_assoc |].
    split; [now constructor |].
    unfold same_but_queue. repeat split; assumption.
Qed.

(** X6.  A new posting is queued once for each active subscriber it
    matches, in the order of the table, with the subscriber, the posting
    and the subscriber's channels joined by commas; inactive subscribers
    and subscribers it does not match get nothing. Nothing else in the
    store changes; the entries are committed, and when there is no
    recipient the world is not touched at all. *)
Theorem new_job_enqueued_per_recipient (job : JobPosting.t) (w : World) :
  let recipients :=
    List.filter (fun user => User.is_active user && check_user_match user job)
                (users (session w)) in
  exists w' added,
    process_new_job_notifications utcnow uuid4 job w = (Ok tt, w')
    /\ notification_queue (session w') = notification_queue (session w) ++ added
    /\ Forall2 (entry_for job) recipients added
    /\ same_but_queue (session w) (session w')
    /\ outbox w' = outbox w
    /\ (recipients = [] -> w' = w)
    /\ (recipients <> [] -> database w' = session w').
Proof.
  intros recipients.
  unfold process_new_job_notifications, find_matching_users.
  unfold mbind at 1, M_bind at 1. unfold mbind at 1, M_bind at 1.
  unfold get_session. cbn [mret M_ret].
  rewrite matching_users_filter, filter_filter. fold recipients.
  destruct recipients as [|u l] eqn:R.
  - exists w, []. cbn. rewrite app_nil_r. unfold same_but_queue.
    repeat split; try constructor. congruence.
  - cbn [list_truthy negb]. rewrite <- R. unfold queue_notifications.
    destruct (enqueue_loop recipients job w)
      as (w1 & added & E & Q & F & (S1 & S2 & S3 & S4) & D & O).
    unfold mbind, M_bind in *. rewrite E.
    eexists. exists added. split; [reflexivity |]. cbn.
    split; [exact Q |]. split; [exact F |].
    unfold same_but_queue. repeat split; try assumption.
    intros N. rewrite R in N. discriminate.
Qed.

End RecipientFacts.

(** ** Admission, continued *)

Section AdmissionMore.

Variable utcnow : nat -> Z.
Variable uuid4 : nat -> string.

Lemma first_row_key_none (key : string) (rows : list JobPosting.t) :
  first_row (fun j => String.eqb (JobPosting.external_id j) key) rows = None
  <-> ~ In key (map JobPosting.external_id rows).
Proof.
  unfold first_row. induction rows as [|j l IH]; simpl; [tauto |].
  destruct (String.eqb (JobPosting.external_id j) key) eqn:E.
  - apply String.eqb_eq in E. split; [discriminate | intros H; exfalso; auto].
  - apply String.eqb_neq in E. rewrite IH. tauto.
Qed.

Lemma seen_again_keys (key : string) (t : Z) (rows : list JobPosting.t) :
  map JobPosting.external_id
      (update_first (fun j => String.eqb (JobPosting.external_id j) key)
                    (JobPosting.seen_again t) rows)
  = map JobPosting.external_id rows.
Proof.
  induction rows as [|j l IH]; simpl; [reflexivity |].
  destruct (String.eqb (JobPosting.external_id j) key); simpl;
    [reflexivity | now rewrite IH].
Qed.

(** One admission, by cases on the key. *)
Lemma save_new_job_run (normalized_job : NormalizedJob.t)
    (career_page_id : string) (w : World) :
  let key := key_of career_page_id normalized_job in
  exists r w',
    save_new_job utcnow uuid4 normalized_job career_page_id w = (Ok r, w')
    /\ (In key (keys w) -> r = None /\ keys w' = keys w)
    /\ (~ In key (keys w) ->
        exists p, r = Some p /\ JobPosting.external_id p = key
                  /\ job_postings (session w') = job_postings (session w) ++ [p])
    /\ same_but_queue (session w) (set_job_postings (job_postings (session w))
                                                    (session w'))
    /\ notification_queue (session w') = notification_queue (session w)
    /\ database w' = session w' /\ outbox w' = outbox w.
Proof.
  intros key. unfold save_new_job.
  change (generate_job_external_id career_page_id
            (NormalizedJob.url normalized_job)
            (NormalizedJob.title normalized_job)) with key.
  clearbody key. unfold mbind at 1, M_bind at 1, get_session.
  destruct (first_row _ (job_postings (session w))) as [j |] eqn:F.
  - eexists. eexists. split; [cbn; reflexivity |]. cbn.
    unfold keys, same_but_queue. cbn.
    split; [intros _; split; [reflexivity | apply seen_again_keys] |].
    split; [| repeat split].
    intros N. exfalso. apply first_row_key_none in N. congruence.
  - eexists. eexists. split; [cbn; reflexivity |]. cbn.
    unfold keys, same_but_queue. cbn.
    split; [intros N; exfalso; now apply first_row_key_none in F |].
    split; [| repeat split].
    intros _. eexists. repeat split.
Qed.

Lemma new_job_frame (job : JobPosting.t) (w : World) :
  exists w' added,
    process_new_job_notifications utcnow uuid4 job w = (Ok tt, w')
    /\ notification_queue (session w') = notification_queue (session w) ++ added
    /\ same_but_queue (session w) (session w')
    /\ outbox w' = outbox w.
Proof.
  unfold process_new_job_notifications, find_matching_users.
  unfold mbind at 1, M_bind at 1. unfold mbind at 1, M_bind at 1.
  unfold get_session. cbn [mret M_ret].
  destruct (negb (list_truthy _)).
  - exists w, []. rewrite app_nil_r. unfold same_but_queue. repeat split.
  - unfold queue_notifications.
    match goal with
    | |- context [for_each ?l _] =>
        destruct (enqueue_loop utcnow uuid4 l job w)
          as (w1 & added & E & Q & _ & (S1 & S2 & S3 & S4) & _ & O)
    end.
    unfold mbind, M_bind in *. rewrite E.
    eexists. exists added. split; [reflexivity |]. cbn.
    unfold same_but_queue. repeat split; assumption.
Qed.

(** The loop over the candidates of a career page: what was there stays,
    every candidate's key is there afterwards, and the count is the
    number of postings added. *)
Lemma save_new_jobs_run (jobs : list NormalizedJob.t) (career_page_id : string)
    (count : nat) (w : World) :
  exists n w' added,
    save_new_jobs utcnow uuid4 jobs career_page_id count w = (Ok n, w')
    /\ (forall k, In k (keys w) -> In k (keys w'))
    /\ (forall c, In c jobs -> In (key_of career_page_id c) (keys w'))
    /\ (length (keys w') = length (keys w) + (n - count))%nat
    /\ (count <= n <= count + length jobs)%nat
    /\ notification_queue (session w') = notification_queue (session w) ++ added
    /\ notifications (session w') = notifications (session w)
    /\ users (session w') = users (session w).
Proof.
  revert count w. induction jobs as [|c l IH]; intros count w.
  - exists count, w, []. cbn. rewrite app_nil_r.
    repeat split; auto; try lia; try (intros c []).
  - cbn [save_new_jobs]. unfold mbind at 1, M_bind at 1.
    destruct (save_new_job_run c career_page_id w)
      as (r & w1 & E & Hin & Hout & (_ & S2 & _ & S4) & Q & _ & _).
    rewrite E. cbn in S2, S4.
    destruct (in_dec string_dec (key_of career_page_id c) (keys w)) as [I | I].
    + destruct (Hin I) as [-> K].
      destruct (IH count w1) as (n & w2 & added & E2 & M & C & L & B & Q2 & N2 & U2).
      exists n, w2, added. split; [exact E2 |].
      rewrite K in *. rewrite Q in Q2. cbn [length].
      repeat split; auto; try lia; try congruence.
      all: intros c' [<- | H]; [apply M; exact I | now apply C].
    + destruct (Hout I) as (p & -> & Kp & P).
      destruct (new_job_frame p w1) as (wn & add1 & En & Qn & (_ & Sn2 & Sn3 & Sn4) & _).
      unfold mbind at 1, M_bind at 1. rewrite En.
      destruct (IH (S count) wn)
        as (n & w2 & added & E2 & M & C & L & B & Q2 & N2 & U2).
      assert (keys wn = keys w ++ [key_of career_page_id c]) as K.
      { unfold keys. rewrite Sn3, P, map_app. simpl. now rewrite Kp. }
      exists n, w2, (add1 ++ added). split; [exact E2 |].
      rewrite K in *. rewrite length_app in L. simpl in L. cbn [length].
      repeat split; try lia; try congruence.
      * intros k H. apply M, in_or_app. now left.
      * intros c' [<- | H]; [apply M, in_or_app; right; now left | now apply C].
      * now rewrite Q2, Qn, Q, <- app_assoc.
Qed.

(** The loop when every candidate's key is already there. *)
Lemma save_new_jobs_known (jobs : list NormalizedJob.t) (career_page_id : string)
    (count : nat) (w : World) :
  (forall c, In c jobs -> In (key_of career_page_id c) (keys w)) ->
  exists w',
    save_new_jobs utcnow uuid4 jobs career_page_id count w = (Ok count, w')
    /\ keys w' = keys w
    /\ notification_queue (session w') = notification_queue (session w)
    /\ notifications (session w') = notifications (session w)
    /\ users (session w') = users (session w)
    /\ outbox w' = outbox w.
Proof.
  revert w. induction jobs as [|c l IH]; intros w H.
  - exists w. repeat split.
  - cbn [save_new_jobs]. unfold mbind at 1, M_bind at 1.
    destruct (save_new_job_run c career_page_id w)
      as (r & w1 & E & Hin & _ & (_ & S2 & _ & S4) & Q & _ & O).
    rewrite E. cbn in S2, S4.
    destruct (Hin (H c (or_introl eq_refl))) as [-> K].
    destruct (IH w1) as (w2 & E2 & K2 & Q2 & N2 & U2 & O2).
    { intros c' Hc. rewrite K. apply H. now right. }
    exists w2. split; [exact E2 |]. repeat split; congruence.
Qed.

(** X7.  A second pass over candidates already seen adds nothing. After
    the candidates of a career page have been admitted, admitting
    candidates with the same urls and titles again, whatever their other
    fields, adds no posting, counts no new job, and queues no
    notification: matching runs for new postings only. The first pass
    counts exactly the postings it adds. *)
Theorem second_pass_adds_nothing (w : World) (first second : list NormalizedJob.t)
    (career_page_id : string) :
  (forall c', In c' second ->
     exists c, In c first
               /\ NormalizedJob.url c' = NormalizedJob.url c
               /\ NormalizedJob.title c' = NormalizedJob.title c) ->
  exists n w1 w2,
    save_new_jobs utcnow uuid4 first career_page_id 0 w = (Ok n, w1)
    /\ save_new_jobs utcnow uuid4 second career_page_id 0 w1 = (Ok 0%nat, w2)
    /\ (length (job_postings (session w1))
        = length (job_postings (session w)) + n)%nat
    /\ (n <= length first)%nat
    /\ keys w2 = keys w1
    /\ notification_queue (session w2) = notification_queue (session w1)
    /\ notifications (session w2) = notifications (session w1)
    /\ outbox w2 = outbox w1.
Proof.
  intros H.
  destruct (save_new_jobs_run first career_page_id 0 w)
    as (n & w1 & added & E & M & C & L & B & Q & N & U).
  destruct (save_new_jobs_known second career_page_id 0 w1)
    as (w2 & E2 & K2 & Q2 & N2 & U2 & O2).
  { intros c' Hc. destruct (H c' Hc) as (c & Hin & Hu & Ht).
    unfold key_of. rewrite Hu, Ht. now apply C. }
  exists n, w1, w2. unfold keys in L. rewrite !length_map in L.
  repeat split; auto; lia.
Qed.

End AdmissionMore.

Lemma second_pass_adds_nothing_witness :
  (forall c', In c' [candidate_second] ->
     exists c, In c [candidate_first]
               /\ NormalizedJob.url c' = NormalizedJob.url c
               /\ NormalizedJob.title c' = NormalizedJob.title c)
  /\ exists n w1 w2,
       save_new_jobs clock_by_minute numbered_uuid [candidate_first] "cp-1" 0
         (world_of empty_store) = (Ok n, w1)
       /\ save_new_jobs clock_by_minute numbered_uuid [candidate_second] "cp-1" 0
            w1 = (Ok 0%nat, w2)
       /\ keys w2 = keys w1.
Proof.
  assert (forall c', In c' [candidate_second] ->
            exists c, In c [candidate_first]
                      /\ NormalizedJob.url c' = NormalizedJob.url c
                      /\ NormalizedJob.title c' = NormalizedJob.title c) as H.
  { intros c' [<- | []]. exists candidate_first.
    split; [now left | split; reflexivity]. }
  split; [exact H |].
  destruct (second_pass_adds_nothing clock_by_minute numbered_uuid
              (world_of empty_store) [candidate_first] [candidate_second]
              "cp-1" H)
    as (n & w1 & w2 & E1 & E2 & _ & _ & K & _).
  exists n, w1, w2. split; [exact E1 | split; [exact E2 | exact K]].
Defined.

Lemma NoDup_snoc {A} (l : list A) (x : A) :
  List.NoDup l -> ~ In x l -> List.NoDup (l ++ [x]).
Proof.
  induction 1 as [|a l Ha Hl IH]; simpl; intros H.
  - apply List.NoDup_cons; [intros [] | apply List.NoDup_nil].
  - apply List.NoDup_cons.
    + intros N. apply in_app_or in N as [N | [<- | []]]; [now apply Ha |].
      apply H. now left.
    + apply IH. intros N. apply H. now right.
Qed.

(** X8.  Admission keeps the keys of the postings distinct: when no two
    postings share a key, none do after any number of candidates has
    been admitted, even candidates that repeat one another. *)
Theorem admission_keeps_keys_distinct (utcnow : nat -> Z) (uuid4 : nat -> string)
    (jobs : list NormalizedJob.t) (career_page_id : string) (w : World) :
  List.NoDup (keys w) ->
  exists n w',
    save_new_jobs utcnow uuid4 jobs career_page_id 0 w = (Ok n, w')
    /\ List.NoDup (keys w')
    /\ (forall c, In c jobs -> In (key_of career_page_id c) (keys w')).
Proof.
  assert (forall count w, List.NoDup (keys w) ->
            exists n w',
              save_new_jobs utcnow uuid4 jobs career_page_id count w = (Ok n, w')
              /\ List.NoDup (keys w')
              /\ (forall k, In k (keys w) -> In k (keys w'))
              /\ (forall c, In c jobs -> In (key_of career_page_id c) (keys w')))
    as G.
  { induction jobs as [|c l IH]; intros count w0 H.
    - exists count, w0. repeat split; auto. intros c [].
    - cbn [save_new_jobs]. unfold mbind at 1, M_bind at 1.
      destruct (save_new_job_run utcnow uuid4 c career_page_id w0)
        as (r & w1 & E & Hin & Hout & _).
      rewrite E.
      destruct (in_dec string_dec (key_of career_page_id c) (keys w0)) as [I | I].
      + destruct (Hin I) as [-> K].
        destruct (IH count w1) as (n & w2 & E2 & N2 & M2 & C2);
          [now rewrite K |].
        exists n, w2. rewrite K in M2. repeat split; auto.
        intros c' [<- | Hc]; [now apply M2 | now apply C2].
      + destruct (Hout I) as (p & -> & Kp & P).
        destruct (new_job_frame utcnow uuid4 p w1)
          as (wn & added & En & _ & (_ & _ & Sn3 & _) & _).
        unfold mbind at 1, M_bind at 1. rewrite En.
        assert (keys wn = keys w0 ++ [key_of career_page_id c]) as K.
        { unfold keys. rewrite Sn3, P, map_app. simpl. now rewrite Kp. }
        destruct (IH (S count) wn) as (n & w2 & E2 & N2 & M2 & C2).
        { rewrite K. now apply NoDup_snoc. }
        exists n, w2. rewrite K in M2. repeat split; auto.
        * intros k Hk. apply M2, in_or_app. now left.
        * intros c' [<- | Hc]; [apply M2, in_or_app; right; now left
                               | now apply C2]. }
  intros H. destruct (G 0%nat w H) as (n & w' & E & N & _ & C).
  now exists n, w'.
Qed.

Lemma admission_keeps_keys_distinct_witness :
  List.NoDup (keys (world_of empty_store))
  /\ exists n w',
       save_new_jobs clock_by_minute numbered_uuid
         [candidate_first; candidate_second] "cp-1" 0 (world_of empty_store)
       = (Ok n, w')
       /\ List.NoDup (keys w').
Proof.
  assert (List.NoDup (keys (world_of empty_store))) as H
    by apply List.NoDup_nil.
  split; [exact H |].
  destruct (admission_keeps_keys_distinct clock_by_minute numbered_uuid
              [candidate_first; candidate_second] "cp-1" (world_of empty_store) H)
    as (n & w' & E & N & _).
  exists n, w'. split; [exact E | exact N].
Defined.

(** ** Dispatch, continued *)

Section DrainFacts.

Variable utcnow : nat -> Z.
Variable uuid4 : nat -> string.
Variable smtp_send : nat -> EmailMessage -> result unit.
Variable webhook_execute : nat -> DiscordWebhook -> result unit.
Variable email_from : string.
Variable email_markup : list string -> string.
Variable strftime : Z -> string.
Variable title_mark : string.
Variable link_mark : string.

Let send_email := send_email_notification utcnow uuid4 smtp_send email_from email_markup.
Let send_discord :=
  send_discord_notification utcnow uuid4 webhook_execute strftime title_mark link_mark.
Let send_dashboard := send_dashboard_notification utcnow uuid4.
Let notify :=
  notify_channel utcnow uuid4 smtp_send webhook_execute email_from email_markup
    strftime title_mark link_mark.
Let process :=
  process_entry utcnow uuid4 smtp_send webhook_execute email_from email_markup
    strftime title_mark link_mark.
Let drain :=
  process_notification_queue utcnow uuid4 smtp_send webhook_execute email_from
    email_markup strftime title_mark link_mark.

(** The step returns, adds at most [bound] records for the subscriber
    and the posting, each of them sound, and changes nothing else in the
    session. *)
Let appends (user : User.t) (job : JobPosting.t) (bound : nat) (m : M unit) : Prop :=
  forall w, exists w' extra,
    m w = (Ok tt, w')
    /\ notifications (session w') = notifications (session w) ++ extra
    /\ Forall sound_record extra
    /\ Forall (fun n => Notification.user_id n = User.id user
                        /\ Notification.job_posting_id n = JobPosting.id job) extra
    /\ (length extra <= bound)%nat
    /\ same_but_notifications (session w) (session w').

Ltac by_cases :=
  unfold try_catch, mbind, M_bind, mret, M_ret, get_session, raise; cbn;
  repeat (match goal with
          | |- context [first_row ?p ?l] => destruct (first_row p l) eqn:?
          | |- context [smtp_send ?n ?m] =>
              destruct (smtp_send n m) as [[] | ?] eqn:?
          | |- context [webhook_execute ?n ?h] =>
              destruct (webhook_execute n h) as [[] | ?] eqn:?
          end; cbn).

Ltac one_record :=
  eexists; eexists; split; [reflexivity |]; cbn;
  split; [reflexivity |];
  split; [apply List.Forall_cons; [| apply List.Forall_nil];
          first [ left; cbn; repeat split; discriminate
                | right; cbn; repeat split; discriminate ] |];
  split; [apply List.Forall_cons; [split; reflexivity | apply List.Forall_nil] |];
  split; [cbn; lia |];
  unfold same_but_notifications; repeat split.

Ltac no_record w :=
  exists w, []; rewrite app_nil_r; unfold same_but_notifications;
  repeat split; try apply List.Forall_nil; cbn; lia.

Lemma send_email_appends (user : User.t) (job : JobPosting.t) :
  appends user job 1 (send_email user job).
Proof.
  intros w. unfold send_email, send_email_notification,
    _create_email_html, career_page_company_name.
  by_cases; one_record.
Qed.

Lemma send_discord_appends (user : User.t) (job : JobPosting.t) :
  appends user job 1 (send_discord user job).
Proof.
  intros w. unfold send_discord, send_discord_notification.
  destruct (negb (column_truthy (User.discord_webhook_url user)));
    [no_record w |].
  unfold career_page_company_name. by_cases; one_record.
Qed.

Lemma send_dashboard_appends (user : User.t) (job : JobPosting.t) :
  appends user job 1 (send_dashboard user job).
Proof.
  intros w. unfold send_dashboard, send_dashboard_notification.
  by_cases; one_record.
Qed.

Lemma notify_appends (user : User.t) (job : JobPosting.t) (channel : string) :
  appends user job 1 (notify user job channel).
Proof.
  unfold notify, notify_channel.
  destruct (String.eqb (PyStr.strip channel) "email");
    [apply send_email_appends |].
  destruct (String.eqb (PyStr.strip channel) "discord");
    [apply send_discord_appends |].
  destruct (String.eqb (PyStr.strip channel) "dashboard");
    [apply send_dashboard_appends |].
  intros w. no_record w.
Qed.

Lemma channels_append (user : User.t) (job : JobPosting.t) (channels : list string) :
  appends user job (length channels) (for_each channels (notify user job)).
Proof.
  induction channels as [|c l IH]; intros w.
  - no_record w.
  - cbn [for_each]. unfold mbind, M_bind.
    destruct (notify_appends user job c w)
      as (w1 & x1 & E1 & N1 & F1 & I1 & L1 & (A1 & B1 & C1 & D1)).
    destruct (IH w1) as (w2 & x2 & E2 & N2 & F2 & I2 & L2 & (A2 & B2 & C2 & D2)).
    rewrite E1. exists w2, (x1 ++ x2). split; [exact E2 |].
    split; [now rewrite N2, N1, <- app_assoc |].
    split; [now apply Forall_app |].
    split; [now apply Forall_app |].
    split; [rewrite length_app; cbn [length]; lia |].
    unfold same_but_notifications. repeat split; congruence.
Qed.


Lemma process_step (entry : NotificationQueue.t) (w : World) :
  exists w' extra,
    process entry w = (Ok tt, w')
    /\ notification_queue (session w')
       = without [entry] (notification_queue (session w))
    /\ notifications (session w') = notifications (session w) ++ extra
    /\ Forall sound_record extra
    /\ career_pages (session w') = career_pages (session w)
    /\ users (session w') = users (session w)
    /\ job_postings (session w') = job_postings (session w).
Proof.
  unfold process, process_entry, try_catch, mbind, M_bind, get_session.
  destruct (first_row _ (users (session w))) as [user |];
    [destruct (first_row _ (job_postings (session w))) as [job |] |].
  - destruct (channels_append user job
                (PyStr.split (NotificationQueue.channels entry) ",") w)
      as (w1 & x & E & N & F & _ & _ & (A & B & C & D)).
    fold (notify user job). rewrite E. cbn.
    eexists. exists x. split; [reflexivity |]. cbn.
    rewrite D. repeat split; assumption.
  - cbn. eexists. exists []. split; [reflexivity |]. cbn.
    rewrite app_nil_r. repeat split. apply List.Forall_nil.
  - cbn. eexists. exists []. split; [reflexivity |]. cbn.
    rewrite app_nil_r. repeat split. apply List.Forall_nil.
Qed.

Lemma drain_loop (entries : list NotificationQueue.t) (w : World) :
  exists w' extra,
    for_each entries process w = (Ok tt, w')
    /\ notification_queue (session w')
       = without entries (notification_queue (session w))
    /\ notifications (session w') = notifications (session w) ++ extra
    /\ Forall sound_record extra
    /\ career_pages (session w') = career_pages (session w)
    /\ users (session w') = users (session w)
    /\ job_postings (session w') = job_postings (session w).
Proof.
  revert w. induction entries as [|e l IH]; intros w.
  - exists w, []. rewrite app_nil_r. repeat split. apply List.Forall_nil.
  - cbn [for_each]. unfold mbind, M_bind.
    destruct (process_step e w) as (w1 & x1 & E1 & Q1 & N1 & F1 & A1 & B1 & C1).
    destruct (IH w1) as (w2 & x2 & E2 & Q2 & N2 & F2 & A2 & B2 & C2).
    rewrite E1. exists w2, (x1 ++ x2). split; [exact E2 |].
    split; [rewrite Q2, Q1; reflexivity |].
    split; [now rewrite N2, N1, <- app_assoc |].
    split; [now apply Forall_app |].
    repeat split; congruence.
Qed.

Lemma stale_step (entry : NotificationQueue.t) (w : World) :
  stale (session w) entry ->
  process entry w
  = (Ok tt,
     with_session
       (set_notification_queue
          (without [entry] (notification_queue (session w)))) w).
Proof.
  unfold process, process_entry, try_catch, mbind, M_bind, get_session.
  intros [H | H]; rewrite H; [reflexivity |].
  now destruct (first_row _ (users (session w))).
Qed.

Lemma stale_loop (entries : list NotificationQueue.t) (w : World) :
  Forall (stale (session w)) entries ->
  for_each entries process w
  = (Ok tt,
     with_session
       (set_notification_queue
          (without entries (notification_queue (session w)))) w).
Proof.
  revert w. induction entries as [|e l IH]; intros w H.
  - cbn. now destruct w as [[] ? ? ? ?].
  - apply List.Forall_cons_iff in H as [He Hl].
    cbn [for_each]. unfold mbind, M_bind. rewrite (stale_step e w He).
    rewrite IH; [reflexivity |].
    eapply List.Forall_impl; [| exact Hl]. intros a Ha. exact Ha.
Qed.

End DrainFacts.

Lemma without_app (l l' queue : list NotificationQueue.t) :
  without (l ++ l') queue = without l' (without l queue).
Proof. unfold without. apply fold_left_app. Qed.

Lemma without_covered (entries queue : list NotificationQueue.t) :
  (forall q, In q queue ->
     exists e, In e entries /\ NotificationQueue.id e = NotificationQueue.id q) ->
  without entries queue = [].
Proof.
  revert queue. induction entries as [|e l IH]; intros queue H.
  - destruct queue as [|q queue]; [reflexivity |].
    destruct (H q (or_introl eq_refl)) as (e & [] & _).
  - cbn. apply IH. intros q Hq. apply filter_In in Hq as [Hq Hne].
    destruct (H q Hq) as (e' & [-> | He'] & Hid).
    + rewrite Hid, String.eqb_refl in Hne. discriminate.
    + now exists e'.
Qed.

Lemma without_self (queue : list NotificationQueue.t) : without queue queue = [].
Proof. apply without_covered. intros q Hq. now exists q. Qed.

Lemma for_each_app {A} (l l' : list A) (body : A -> M unit) (w w1 : World) :
  for_each l body w = (Ok tt, w1) ->
  for_each (l ++ l') body w = for_each l' body w1.
Proof.
  revert w. induction l as [|x l IH]; intros w; cbn.
  - unfold mret, M_ret. congruence.
  - unfold mbind, M_bind. destruct (body x w) as [[[] | e] w2]; [apply IH |].
    discriminate.
Qed.

(** X9.  After [process_notification_queue] the session holds no queue
    entry: every entry read at the start has been deleted, whether it
    was dispatched or stale, and whatever the transports did. The call
    returns; the notification records that were there are kept, in their
    order, and those added after them are each either [sent] with a time
    and no error text or [failed] with an error text and no time; career
    pages, subscribers and postings are as before. *)
Theorem drain_empties_session_queue
    (utcnow : nat -> Z) (uuid4 : nat -> string)
    (smtp_send : nat -> EmailMessage -> result unit)
    (webhook_execute : nat -> DiscordWebhook -> result unit)
    (email_from : string) (email_markup : list string -> string)
    (strftime : Z -> string) (title_mark link_mark : string) (w : World) :
  exists w' added,
    process_notification_queue utcnow uuid4 smtp_send webhook_execute email_from
      email_markup strftime title_mark link_mark w = (Ok tt, w')
    /\ notification_queue (session w') = []
    /\ notifications (session w') = notifications (session w) ++ added
    /\ Forall sound_record added
    /\ career_pages (session w') = career_pages (session w)
    /\ users (session w') = users (session w)
    /\ job_postings (session w') = job_postings (session w).
Proof.
  unfold process_notification_queue, mbind, M_bind, get_session.
  destruct (notification_queue (session w)) as [|q queue] eqn:Q.
  - cbn. exists w, []. rewrite app_nil_r, Q.
    repeat split. apply List.Forall_nil.
  - cbv beta iota. change (negb (list_truthy (q :: queue))) with false.
    cbv iota.
    destruct (drain_loop utcnow uuid4 smtp_send webhook_execute email_from
                email_markup strftime title_mark link_mark (q :: queue) w)
      as (w' & added & E & Hq & rest).
    exists w', added. split; [exact E |].
    split; [| exact rest].
    rewrite Hq, Q. apply without_self.
Qed.

(** X10.  A queue whose entries are all stale is never cleaned: each
    entry is deleted from the session, but [db.commit()] is only reached
    for an entry whose subscriber and posting exist, so when the worker
    closes its session the deletions are given up. One run of
    [run_notification_pipeline] on such a database returns and leaves
    the database, the clock, the identifiers drawn and the messages sent
    exactly as they were: the stale entries are still queued. *)
Theorem stale_only_queue_survives_worker
    (utcnow : nat -> Z) (uuid4 : nat -> string)
    (smtp_send : nat -> EmailMessage -> result unit)
    (webhook_execute : nat -> DiscordWebhook -> result unit)
    (email_from : string) (email_markup : list string -> string)
    (strftime : Z -> string) (title_mark link_mark : string) (w : World) :
  Forall (stale (database w)) (notification_queue (database w)) ->
  run_notification_pipeline utcnow uuid4 smtp_send webhook_execute email_from
    email_markup strftime title_mark link_mark w
  = (Ok tt, {| session := database w; database := database w;
               clock := clock w; drawn := drawn w; outbox := outbox w |}).
Proof.
  intros H.
  unfold run_notification_pipeline, process_notification_queue, try_finally,
    try_catch, SessionLocal, get_session.
  unfold mbind, M_bind. cbn [session].
  destruct (notification_queue (database w)) as [|q queue] eqn:Q;
    [reflexivity |].
  change (negb (list_truthy (q :: queue))) with false. cbv iota.
  rewrite stale_loop by exact H. reflexivity.
Qed.

Lemma stale_only_queue_survives_worker_witness :
  Forall (stale (database (world_of stale_only_store)))
         (notification_queue (database (world_of stale_only_store)))
  /\ notification_queue
       (database
          (snd (run_notification_pipeline clock_by_minute numbered_uuid
                  mail_accepts webhook_refuses "jobs@example.com" plain_markup
                  plain_strftime "*" ">" (world_of stale_only_store))))
     = [stale_entry].
Proof.
  assert (H : Forall (stale (database (world_of stale_only_store)))
                [stale_entry]).
  { apply List.Forall_cons; [left; reflexivity | apply List.Forall_nil]. }
  split; [exact H |].
  rewrite (stale_only_queue_survives_worker clock_by_minute numbered_uuid
             mail_accepts webhook_refuses "jobs@example.com" plain_markup
             plain_strftime "*" ">" _ H).
  reflexivity.
Defined.

(** X11.  When the last entry of the queue has its subscriber and its
    posting, the drain ends on a commit: the database is the session,
    and its queue is empty, also of the stale entries met before. *)
Theorem live_last_entry_commits_all
    (utcnow : nat -> Z) (uuid4 : nat -> string)
    (smtp_send : nat -> EmailMessage -> result unit)
    (webhook_execute : nat -> DiscordWebhook -> result unit)
    (email_from : string) (email_markup : list string -> string)
    (strftime : Z -> string) (title_mark link_mark : string) (w : World)
    (before : list NotificationQueue.t) (entry : NotificationQueue.t) :
  notification_queue (session w) = before ++ [entry] ->
  ~ stale (session w) entry ->
  exists w',
    process_notification_queue utcnow uuid4 smtp_send webhook_execute email_from
      email_markup strftime title_mark link_mark w = (Ok tt, w')
    /\ database w' = session w'
    /\ notification_queue (database w') = [].
Proof.
  intros Q Hlive.
  unfold process_notification_queue, mbind, M_bind, get_session.
  cbv beta iota. rewrite Q.
  replace (negb (list_truthy (before ++ [entry]))) with false
    by (now destruct before).
  destruct (drain_loop utcnow uuid4 smtp_send webhook_execute email_from
              email_markup strftime title_mark link_mark before w)
    as (w1 & x & E & Q1 & _ & _ & _ & U1 & J1).
  rewrite (for_each_app before [entry] _ w w1 E). cbn [for_each].
  unfold mbind, M_bind.
  destruct (first_row (fun u => String.eqb (User.id u)
                                  (NotificationQueue.user_id entry))
                      (users (session w1))) as [user |] eqn:Hu;
    [| exfalso; apply Hlive; left; now rewrite <- U1].
  destruct (first_row (fun j => String.eqb (JobPosting.id j)
                                  (NotificationQueue.job_posting_id entry))
                      (job_postings (session w1))) as [job |] eqn:Hj;
    [| exfalso; apply Hlive; right; now rewrite <- J1].
  destruct (process_found utcnow uuid4 smtp_send webhook_execute email_from
              email_markup strftime title_mark link_mark w1 entry user job Hu Hj)
    as (w2 & _ & _ & P).
  rewrite P. cbn. eexists. split; [reflexivity |]. cbn.
  split; [reflexivity |].
  rewrite Q1, Q.
  change (List.filter _ (without before (before ++ [entry])))
    with (without [entry] (without before (before ++ [entry]))).
  rewrite <- without_app. apply without_self.
Qed.

Lemma live_last_entry_commits_all_witness :
  exists w',
    process_notification_queue clock_by_minute numbered_uuid mail_accepts
      webhook_refuses "jobs@example.com" plain_markup plain_strftime "*" ">"
      (world_of sample_store) = (Ok tt, w')
    /\ database w' = session w'
    /\ notification_queue (database w') = [].
Proof.
  apply (live_last_entry_commits_all clock_by_minute numbered_uuid mail_accepts
           webhook_refuses "jobs@example.com" plain_markup plain_strftime
           "*" ">" (world_of sample_store) [sample_entry; stale_entry] sms_entry).
  - reflexivity.
  - intros [H | H]; vm_compute in H; discriminate.
Defined.

(** X12.  The loop over the channels of an entry sees each name only
    through [channel.strip()]: two lists of names that agree once
    trimmed give the same run, so white space around a name, as in
    "email, discord", changes nothing. *)
Theorem channel_loop_sees_trimmed_names
    (utcnow : nat -> Z) (uuid4 : nat -> string)
    (smtp_send : nat -> EmailMessage -> result unit)
    (webhook_execute : nat -> DiscordWebhook -> result unit)
    (email_from : string) (email_markup : list string -> string)
    (strftime : Z -> string) (title_mark link_mark : string)
    (user : User.t) (job : JobPosting.t) (names names' : list string) (w : World) :
  map PyStr.strip names = map PyStr.strip names' ->
  for_each names
    (notify_channel utcnow uuid4 smtp_send webhook_execute email_from
       email_markup strftime title_mark link_mark user job) w
  = for_each names'
      (notify_channel utcnow uuid4 smtp_send webhook_execute email_from
         email_markup strftime title_mark link_mark user job) w.
Proof.
  revert names' w.
  induction names as [|c l IH]; intros [|c' l'] w H; try discriminate;
    [reflexivity |].
  injection H as Hc Hl. cbn [for_each]. unfold mbind, M_bind.
  replace (notify_channel utcnow uuid4 smtp_send webhook_execute email_from
             email_markup strftime title_mark link_mark user job c' w)
    with (notify_channel utcnow uuid4 smtp_send webhook_execute email_from
            email_markup strftime title_mark link_mark user job c w)
    by (unfold notify_channel; now rewrite Hc).
  destruct (notify_channel _ _ _ _ _ _ _ _ _ user job c w) as [[[] | e] w1];
    [apply IH; exact Hl | reflexivity].
Qed.

Lemma channel_loop_sees_trimmed_names_witness :
  for_each (PyStr.split "email, discord" ",")
    (notify_channel clock_by_minute numbered_uuid mail_accepts webhook_refuses
       "jobs@example.com" plain_markup plain_strftime "*" ">"
       sample_user posting_without_location) (world_of sample_store)
  = for_each ["email"%string; "discord"%string]
      (notify_channel clock_by_minute numbered_uuid mail_accepts webhook_refuses
         "jobs@example.com" plain_markup plain_strftime "*" ">"
         sample_user posting_without_location) (world_of sample_store).
Proof.
  apply (channel_loop_sees_trimmed_names clock_by_minute numbered_uuid
           mail_accepts webhook_refuses "jobs@example.com" plain_markup
           plain_strftime "*" ">" sample_user posting_without_location
           (PyStr.split "email, discord" ",")
           ["email"%string; "discord"%string] (world_of sample_store)).
  reflexivity.
Defined.

(** ** The fetch of a career page *)

Section ScrapeFacts.

Variable utcnow : nat -> Z.
Variable scrape_url : string -> result FirecrawlPage.
Variable crawl_url : string -> json -> result (option (list FirecrawlPage)).
Variable scrape_config : CareerPage.t -> option (list (string * json)).
Variable isoformat : Z -> string.

Let scrape := scrape_career_page utcnow scrape_url crawl_url scrape_config isoformat.

Lemma pages_run (pages : list FirecrawlPage) (career_page : CareerPage.t)
    (w : World) :
  exists jobs,
    _extract_jobs_from_pages utcnow isoformat pages career_page w
    = (Ok jobs,
       {| session := session w; database := database w;
          clock := (length pages + clock w)%nat; drawn := drawn w;
          outbox := outbox w |})
    /\ map RawJob.url jobs
       = map (fun page => default (CareerPage.url career_page) (page_url page))
             pages
    /\ map RawJob.raw_content jobs
       = map (fun page => default ""%string (markdown page)) pages
    /\ Forall (fun job =>
                 RawJob.career_page_id job = CareerPage.id career_page
                 /\ RawJob.company_name job = CareerPage.company_name career_page)
              jobs.
Proof.
  revert w. induction pages as [|page rest IH]; intros w.
  - exists []. cbn. destruct w. repeat split. apply List.Forall_nil.
  - cbn [_extract_jobs_from_pages]. unfold mbind at 1, M_bind at 1.
    unfold now at 1. cbv beta iota.
    unfold mbind at 1, M_bind at 1.
    match goal with
    | |- context [_extract_jobs_from_pages _ _ rest career_page ?w1] =>
        destruct (IH w1) as (jobs & E & U & R & F)
    end.
    rewrite E. cbn. eexists. split.
    + f_equal. f_equal. lia.
    + cbn. rewrite U, R. repeat split.
      apply List.Forall_cons; [split; reflexivity | exact F].
Qed.

Lemma stamp_keeps_ids (career_page : CareerPage.t) (t : Z)
    (rows : list CareerPage.t) :
  map CareerPage.id
      (update_first (fun c => String.eqb (CareerPage.id c)
                                         (CareerPage.id career_page))
                    (scraped_at_time t) rows)
  = map CareerPage.id rows.
Proof.
  induction rows as [|c l IH]; [reflexivity |]. cbn.
  destruct (String.eqb _ _); cbn; [reflexivity | now rewrite IH].
Qed.

End ScrapeFacts.

(** X13.  A fetch that fails leaves no trace. When the transport that
    the configuration of the career page selects raises,
    [scrape_career_page] returns the empty list and the world is the one
    before the call: [last_scraped_at] is not set, nothing is committed,
    the clock is not read. The run over the career page then stops at
    its first test and changes nothing either. *)
Theorem failed_fetch_leaves_no_trace
    (utcnow : nat -> Z) (uuid4 : nat -> string)
    (scrape_url : string -> result FirecrawlPage)
    (crawl_url : string -> json -> result (option (list FirecrawlPage)))
    (scrape_config : CareerPage.t -> option (list (string * json)))
    (isoformat : Z -> string)
    (json_loads : string -> result json)
    (chat : string -> string -> result json)
    (prompt_template : string -> string -> string)
    (career_page : CareerPage.t) (e : exn) (w : World) :
  let config := default [] (scrape_config career_page) in
  (if py_truthy (config_get config "multi_page" (JBool false))
   then crawl_url (CareerPage.url career_page)
          (config_get config "page_limit" (JInt 10)) = Raise e
   else scrape_url (CareerPage.url career_page) = Raise e) ->
  scrape_career_page utcnow scrape_url crawl_url scrape_config isoformat
    career_page w = (Ok [], w)
  /\ scrape_single_career_page utcnow uuid4 scrape_url crawl_url scrape_config
       isoformat json_loads chat prompt_template career_page w = (Ok tt, w).
Proof.
  intros config H.
  assert (S : scrape_career_page utcnow scrape_url crawl_url scrape_config
                isoformat career_page w = (Ok [], w)).
  { unfold scrape_career_page, try_catch. fold config.
    unfold mbind at 1, M_bind at 1.
    destruct (py_truthy (config_get config "multi_page" (JBool false)));
      unfold mbind at 1, M_bind at 1, lift; rewrite H; reflexivity. }
  split; [exact S |].
  unfold scrape_single_career_page, try_catch.
  unfold mbind at 1, M_bind at 1. rewrite S. reflexivity.
Qed.

Lemma failed_fetch_leaves_no_trace_witness :
  scrape_single_career_page clock_by_minute numbered_uuid
    (fun _ => Raise (Exn OtherError "timeout")) (fun _ _ => Ok None)
    (fun _ => None) plain_strftime JsonRef.json_loads model_down plain_prompt
    sample_career_page (world_of sample_store)
  = (Ok tt, world_of sample_store).
Proof.
  apply (failed_fetch_leaves_no_trace clock_by_minute numbered_uuid
           (fun _ => Raise (Exn OtherError "timeout")) (fun _ _ => Ok None)
           (fun _ => None) plain_strftime JsonRef.json_loads model_down
           plain_prompt sample_career_page (Exn OtherError "timeout")
           (world_of sample_store)).
  reflexivity.
Defined.

(** X14.  A crawl gives one raw unit per page, in the order of the
    pages. Each unit has the address of its page, or the address of the
    career page when the page reports none, the text of its page, or the
    empty text, and the key and the company name of the career page. The
    clock is read once per page and once more for [last_scraped_at],
    which is set on the career page and committed: the database is the
    session, the other tables are as before. A crawl that returns no
    page at all still sets and commits the time. *)
Theorem crawl_gives_one_unit_per_page
    (utcnow : nat -> Z)
    (scrape_url : string -> result FirecrawlPage)
    (crawl_url : string -> json -> result (option (list FirecrawlPage)))
    (scrape_config : CareerPage.t -> option (list (string * json)))
    (isoformat : Z -> string)
    (career_page : CareerPage.t) (data : option (list FirecrawlPage))
    (w : World) :
  let config := default [] (scrape_config career_page) in
  let pages := default [] data in
  py_truthy (config_get config "multi_page" (JBool false)) = true ->
  crawl_url (CareerPage.url career_page)
    (config_get config "page_limit" (JInt 10)) = Ok data ->
  exists jobs w',
    scrape_career_page utcnow scrape_url crawl_url scrape_config isoformat
      career_page w = (Ok jobs, w')
    /\ map RawJob.url jobs
       = map (fun page => default (CareerPage.url career_page) (page_url page))
             pages
    /\ map RawJob.raw_content jobs
       = map (fun page => default ""%string (markdown page)) pages
    /\ Forall (fun job =>
                 RawJob.career_page_id job = CareerPage.id career_page
                 /\ RawJob.company_name job = CareerPage.company_name career_page)
              jobs
    /\ clock w' = S (length pages + clock w)
    /\ career_pages (session w')
       = update_first (fun c => String.eqb (CareerPage.id c)
                                           (CareerPage.id career_page))
                      (scraped_at_time (utcnow (length pages + clock w)%nat))
                      (career_pages (session w))
    /\ database w' = session w'
    /\ users (session w') = users (session w)
    /\ job_postings (session w') = job_postings (session w)
    /\ notification_queue (session w') = notification_queue (session w)
    /\ notifications (session w') = notifications (session w).
Proof.
  intros config pages Hm Hc.
  destruct (pages_run utcnow isoformat pages career_page w)
    as (jobs & E & U & R & F).
  exists jobs. unfold scrape_career_page, try_catch. fold config.
  rewrite Hm. unfold mbind at 1, M_bind at 1.
  unfold mbind at 1, M_bind at 1, lift. rewrite Hc.
  unfold _extract_jobs_from_crawl. fold pages. rewrite E.
  cbn. eexists. split; [reflexivity |]. cbn. repeat split; assumption.
Qed.

Lemma crawl_gives_one_unit_per_page_witness :
  exists jobs w',
    scrape_career_page clock_by_minute (fun _ => Raise (Exn OtherError "unused"))
      (fun _ _ => Ok (Some sample_pages)) crawl_two_pages plain_strftime
      sample_career_page (world_of sample_store) = (Ok jobs, w')
    /\ map RawJob.url jobs
       = ["https://acme.example/careers?page=2"%string;
          CareerPage.url sample_career_page]
    /\ map RawJob.raw_content jobs = ["Engineer, Remote"%string; ""%string]
    /\ clock w' = 3%nat
    /\ database w' = session w'.
Proof.
  destruct (crawl_gives_one_unit_per_page clock_by_minute
              (fun _ => Raise (Exn OtherError "unused"))
              (fun _ _ => Ok (Some sample_pages)) crawl_two_pages plain_strftime
              sample_career_page (Some sample_pages) (world_of sample_store)
              eq_refl eq_refl)
    as (jobs & w' & E & U & R & _ & C & _ & D & _).
  exists jobs, w'. repeat split; assumption.
Defined.

(** X15.  Without the key "multi_page" in its configuration, or without
    a configuration, a career page is fetched as one page, and the crawl
    is not used. The result is one raw unit; it has the address of the
    career page, not the address the fetched page reports, and the time
    read first; the time read next is set as [last_scraped_at] and
    committed. *)
Theorem single_page_gives_one_unit
    (utcnow : nat -> Z)
    (scrape_url : string -> result FirecrawlPage)
    (crawl_url : string -> json -> result (option (list FirecrawlPage)))
    (scrape_config : CareerPage.t -> option (list (string * json)))
    (isoformat : Z -> string)
    (career_page : CareerPage.t) (page : FirecrawlPage) (w : World) :
  let config := default [] (scrape_config career_page) in
  dict_get config "multi_page" = None ->
  scrape_url (CareerPage.url career_page) = Ok page ->
  exists w',
    scrape_career_page utcnow scrape_url crawl_url scrape_config isoformat
      career_page w
    = (Ok [ {| RawJob.url := CareerPage.url career_page;
               RawJob.career_page_id := CareerPage.id career_page;
               RawJob.company_name := CareerPage.company_name career_page;
               RawJob.raw_content := default ""%string (markdown page);
               RawJob.html_content := default ""%string (html page);
               RawJob.metadata := default (JObj []) (page_metadata page);
               RawJob.scraped_at := isoformat (utcnow (clock w)) |} ], w')
    /\ clock w' = S (S (clock w))
    /\ career_pages (session w')
       = update_first (fun c => String.eqb (CareerPage.id c)
                                           (CareerPage.id career_page))
                      (scraped_at_time (utcnow (S (clock w))))
                      (career_pages (session w))
    /\ database w' = session w'
    /\ users (session w') = users (session w)
    /\ job_postings (session w') = job_postings (session w)
    /\ notification_queue (session w') = notification_queue (session w)
    /\ notifications (session w') = notifications (session w).
Proof.
  intros config Hm Hs.
  unfold scrape_career_page, try_catch. fold config.
  unfold config_get at 1. rewrite Hm. cbn [py_truthy].
  unfold mbind at 1, M_bind at 1.
  unfold mbind at 1, M_bind at 1, lift. rewrite Hs.
  cbn. eexists. split; [reflexivity |]. cbn. repeat split.
Qed.

Lemma single_page_gives_one_unit_witness :
  exists w',
    scrape_career_page clock_by_minute
      (fun _ => Ok (hd {| page_url := None; markdown := None;
                          html := None; page_metadata := None |}
                       sample_pages))
      (fun _ _ => Raise (Exn OtherError "unused")) (fun _ => None)
      plain_strftime sample_career_page (world_of sample_store)
    = (Ok [ {| RawJob.url := CareerPage.url sample_career_page;
               RawJob.career_page_id := CareerPage.id sample_career_page;
               RawJob.company_name := CareerPage.company_name sample_career_page;
               RawJob.raw_content := "Engineer, Remote";
               RawJob.html_content := "";
               RawJob.metadata := JObj [];
               RawJob.scraped_at := plain_strftime (clock_by_minute 0) |} ], w')
    /\ clock w' = 2%nat.
Proof.
  destruct (single_page_gives_one_unit clock_by_minute
              (fun _ => Ok (hd {| page_url := None; markdown := None;
                                  html := None; page_metadata := None |}
                               sample_pages))
              (fun _ _ => Raise (Exn OtherError "unused")) (fun _ => None)
              plain_strftime sample_career_page
              (hd {| page_url := None; markdown := None;
                     html := None; page_metadata := None |} sample_pages)
              (world_of sample_store) eq_refl eq_refl)
    as (w' & E & C & _).
  exists w'. split; [exact E | exact C].
Defined.

(** ** What a scrape run leaves alone *)

Lemma store_grows_refl (s : Store) : store_grows s s.
Proof.
  unfold store_grows. repeat split; try (exists []; now rewrite app_nil_r).
Qed.

Lemma store_grows_trans (s1 s2 s3 : Store) :
  store_grows s1 s2 -> store_grows s2 s3 -> store_grows s1 s3.
Proof.
  intros (C1 & U1 & N1 & (q1 & Q1) & (k1 & K1))
         (C2 & U2 & N2 & (q2 & Q2) & (k2 & K2)).
  unfold store_grows. repeat split; try congruence.
  - exists (q1 ++ q2). now rewrite Q2, Q1, <- app_assoc.
  - exists (k1 ++ k2). now rewrite K2, K1, <- app_assoc.
Qed.

Lemma grows_refl (w : World) : grows w w.
Proof. split; [apply store_grows_refl | split; [reflexivity | now left]]. Qed.

Lemma grows_trans (w1 w2 w3 : World) : grows w1 w2 -> grows w2 w3 -> grows w1 w3.
Proof.
  intros (S1 & O1 & D1) (S2 & O2 & D2).
  split; [eapply store_grows_trans; eassumption |].
  split; [congruence |].
  destruct D2 as [-> | D2]; [| now right].
  destruct D1 as [-> | D1]; [now left | now right].
Qed.

Section RunFacts.

Variable utcnow : nat -> Z.
Variable uuid4 : nat -> string.
Variable scrape_url : string -> result FirecrawlPage.
Variable crawl_url : string -> json -> result (option (list FirecrawlPage)).
Variable scrape_config : CareerPage.t -> option (list (string * json)).
Variable isoformat : Z -> string.
Variable json_loads : string -> result json.
Variable chat : string -> string -> result json.
Variable prompt_template : string -> string -> string.

Lemma scrape_grows (career_page : CareerPage.t) (w : World) :
  exists jobs w',
    scrape_career_page utcnow scrape_url crawl_url scrape_config isoformat
      career_page w = (Ok jobs, w')
    /\ grows w w'.
Proof.
  unfold scrape_career_page, try_catch.
  unfold mbind at 1, M_bind at 1.
  destruct (py_truthy _).
  - unfold mbind at 1, M_bind at 1, lift.
    destruct (crawl_url _ _) as [data | e];
      [| exists [], w; split; [reflexivity | apply grows_refl]].
    unfold _extract_jobs_from_crawl.
    destruct (pages_run utcnow isoformat (default [] data) career_page w)
      as (jobs & E & _).
    rewrite E. cbn. eexists. eexists. split; [reflexivity |].
    unfold grows, store_grows. cbn. rewrite stamp_keeps_ids.
    repeat split; try (exists []; now rewrite app_nil_r). now right.
  - unfold mbind at 1, M_bind at 1, lift.
    destruct (scrape_url _) as [page | e];
      [| exists [], w; split; [reflexivity | apply grows_refl]].
    cbn. eexists. eexists. split; [reflexivity |].
    unfold grows, store_grows. cbn. rewrite stamp_keeps_ids.
    repeat split; try (exists []; now rewrite app_nil_r). now right.
Qed.

Lemma normalize_each_pure (raw_jobs : list RawJob.t) (w : World) :
  exists r, normalize_each json_loads chat prompt_template raw_jobs w = (r, w).
Proof.
  induction raw_jobs as [|raw rest [r E]]; [now exists (Ok []) |].
  cbn [normalize_each]. unfold mbind at 1, M_bind at 1, lift.
  destruct (normalize_job_data _ _ _ raw) as [l | e]; [| now eexists].
  unfold mbind, M_bind. rewrite E. destruct r; now eexists.
Qed.

Lemma new_job_grows (job : JobPosting.t) (w : World) :
  exists w',
    process_new_job_notifications utcnow uuid4 job w = (Ok tt, w')
    /\ grows w w'.
Proof.
  unfold process_new_job_notifications, find_matching_users.
  unfold mbind at 1, M_bind at 1. unfold mbind at 1, M_bind at 1.
  unfold get_session. cbn [mret M_ret].
  destruct (negb (list_truthy _)); [exists w; split; [reflexivity | apply grows_refl] |].
  unfold queue_notifications.
  match goal with
  | |- context [for_each ?l _] =>
      destruct (enqueue_loop utcnow uuid4 l job w)
        as (w1 & added & E & Q & _ & (S1 & S2 & S3 & S4) & _ & O)
  end.
  unfold mbind, M_bind in *. rewrite E.
  eexists. split; [reflexivity |]. unfold grows, store_grows. cbn.
  rewrite S1, S2, S3, S4. repeat split; try assumption.
  - now exists added.
  - exists []. now rewrite app_nil_r.
  - now right.
Qed.

Lemma save_new_job_grows (normalized_job : NormalizedJob.t)
    (career_page_id : string) (w : World) :
  exists r w',
    save_new_job utcnow uuid4 normalized_job career_page_id w = (Ok r, w')
    /\ grows w w'.
Proof.
  destruct (save_new_job_run utcnow uuid4 normalized_job career_page_id w)
    as (r & w' & E & Hin & Hout & (S1 & S2 & _ & S4) & Q & D & O).
  cbn in S1, S2, S4.
  exists r, w'. split; [exact E |]. unfold grows, store_grows.
  rewrite S1, S2, S4, Q. repeat split; try assumption.
  - exists []. now rewrite app_nil_r.
  - destruct (in_dec string_dec (key_of career_page_id normalized_job) (keys w))
      as [I | I].
    + destruct (Hin I) as [_ K]. exists []. rewrite app_nil_r. exact K.
    + destruct (Hout I) as (p & _ & _ & P). rewrite P, map_app. now eexists.
  - now right.
Qed.

Lemma save_new_jobs_grows (jobs : list NormalizedJob.t) (career_page_id : string)
    (count : nat) (w : World) :
  exists n w',
    save_new_jobs utcnow uuid4 jobs career_page_id count w = (Ok n, w')
    /\ grows w w'.
Proof.
  revert count w. induction jobs as [|c l IH]; intros count w.
  - exists count, w. split; [reflexivity | apply grows_refl].
  - cbn [save_new_jobs]. unfold mbind at 1, M_bind at 1.
    destruct (save_new_job_grows c career_page_id w) as (r & w1 & E & G1).
    rewrite E. destruct r as [p |].
    + unfold mbind at 1, M_bind at 1.
      destruct (new_job_grows p w1) as (w2 & E2 & G2). rewrite E2.
      destruct (IH (S count) w2) as (n & w3 & E3 & G3).
      exists n, w3. split; [exact E3 |].
      eapply grows_trans; [| exact G3]. eapply grows_trans; eassumption.
    + destruct (IH count w1) as (n & w3 & E3 & G3).
      exists n, w3. split; [exact E3 |]. eapply grows_trans; eassumption.
Qed.

Lemma single_grows (career_page : CareerPage.t) (w : World) :
  exists w',
    scrape_single_career_page utcnow uuid4 scrape_url crawl_url scrape_config
      isoformat json_loads chat prompt_template career_page w = (Ok tt, w')
    /\ grows w w'.
Proof.
  unfold scrape_single_career_page, try_catch.
  unfold mbind at 1, M_bind at 1.
  destruct (scrape_grows career_page w) as (raw_jobs & w1 & E & G1).
  rewrite E. destruct (negb (list_truthy raw_jobs));
    [exists w1; split; [reflexivity | exact G1] |].
  unfold mbind at 1, M_bind at 1.
  destruct (normalize_each_pure raw_jobs w1) as (r & En). rewrite En.
  destruct r as [all_normalized_jobs | e];
    [| exists w1; split; [reflexivity | exact G1]].
  destruct (negb (list_truthy all_normalized_jobs));
    [exists w1; split; [reflexivity | exact G1] |].
  unfold mbind at 1, M_bind at 1.
  destruct (save_new_jobs_grows all_normalized_jobs
              (CareerPage.id career_page) 0%nat w1) as (n & w2 & E2 & G2).
  rewrite E2. exists w2. split; [reflexivity |].
  eapply grows_trans; eassumption.
Qed.

Lemma for_each_grows {A} (l : list A) (body : A -> M unit) :
  (forall x w, exists w', body x w = (Ok tt, w') /\ grows w w') ->
  forall w, exists w', for_each l body w = (Ok tt, w') /\ grows w w'.
Proof.
  intros H. induction l as [|x l IH]; intros w.
  - exists w. split; [reflexivity | apply grows_refl].
  - cbn [for_each]. unfold mbind, M_bind.
    destruct (H x w) as (w1 & E1 & G1). rewrite E1.
    destruct (IH w1) as (w2 & E2 & G2).
    exists w2. split; [exact E2 |]. eapply grows_trans; eassumption.
Qed.

End RunFacts.

(** X16.  A scrape run only adds. Whatever the transports, the model and
    the parser of its replies do, [run_scrape_pipeline] returns, and in
    the database it leaves the career pages keep their keys, the
    subscribers and the notification records are those of before, the
    queue is the queue of before followed by the entries added, and the
    keys of the postings are the keys of before followed by the keys
    added. No message is sent, and the session is closed on the
    database. *)
Theorem scrape_run_only_adds
    (utcnow : nat -> Z) (uuid4 : nat -> string)
    (scrape_url : string -> result FirecrawlPage)
    (crawl_url : string -> json -> result (option (list FirecrawlPage)))
    (scrape_config : CareerPage.t -> option (list (string * json)))
    (isoformat : Z -> string)
    (json_loads : string -> result json)
    (chat : string -> string -> result json)
    (prompt_template : string -> string -> string) (w : World) :
  exists w',
    run_scrape_pipeline utcnow uuid4 scrape_url crawl_url scrape_config
      isoformat json_loads chat prompt_template w = (Ok tt, w')
    /\ store_grows (database w) (database w')
    /\ session w' = database w'
    /\ outbox w' = outbox w.
Proof.
  unfold run_scrape_pipeline, try_finally, try_catch, SessionLocal, get_session.
  unfold mbind, M_bind. cbn [session].
  set (w0 := {| session := database w; database := database w;
                clock := clock w; drawn := drawn w; outbox := outbox w |}).
  destruct (negb (list_truthy _)).
  - cbn. eexists. split; [reflexivity |]. cbn.
    split; [apply store_grows_refl | split; reflexivity].
  - match goal with
    | |- context [for_each ?l ?body w0] =>
        destruct (for_each_grows l body
                    (single_grows utcnow uuid4 scrape_url crawl_url
                       scrape_config isoformat json_loads chat prompt_template)
                    w0) as (w1 & E & G & O & D)
    end.
    rewrite E. cbn. eexists. split; [reflexivity |]. cbn.
    split; [| split; [reflexivity | exact O]].
    destruct D as [-> | D]; [apply store_grows_refl |].
    rewrite D. exact G.
Qed.

(** ** The extractor, continued *)

Section TrimFacts.
Import PyStr.

Lemma lstrip_idem (l : list ascii) : lstrip_chars (lstrip_chars l) = lstrip_chars l.
Proof.
  induction l as [|c l IH]; [reflexivity |]. simpl.
  destruct (is_space c) eqn:E; [exact IH |]. simpl. now rewrite E.
Qed.

Lemma lstrip_suffix (l : list ascii) :
  exists ws, blank ws /\ l = ws ++ lstrip_chars l.
Proof.
  induction l as [|c l (ws & B & E)]; [exists []; split; [constructor | reflexivity] |].
  simpl. destruct (is_space c) eqn:S.
  - exists (c :: ws). split; [now constructor |]. simpl. now rewrite <- E.
  - exists []. split; [constructor | reflexivity].
Qed.

Lemma rstrip_prefix (l : list ascii) :
  exists ws, blank ws /\ l = rstrip_chars l ++ ws.
Proof.
  destruct (lstrip_suffix (rev l)) as (ws & B & E).
  exists (rev ws). split; [now apply blank_rev |].
  unfold rstrip_chars. rewrite <- rev_app_distr, <- E. now rewrite rev_involutive.
Qed.

Lemma rstrip_idem (l : list ascii) : rstrip_chars (rstrip_chars l) = rstrip_chars l.
Proof.
  unfold rstrip_chars. now rewrite rev_involutive, lstrip_idem.
Qed.

Lemma lstrip_rstrip_fixed (m : list ascii) :
  lstrip_chars m = m -> lstrip_chars (rstrip_chars m) = rstrip_chars m.
Proof.
  intros F. destruct (rstrip_prefix m) as (ws & B & E).
  destruct (rstrip_chars m) as [|c r] eqn:R; [reflexivity |].
  rewrite E in F. simpl in F. simpl.
  destruct (is_space c) eqn:S; [| reflexivity].
  exfalso.
  assert (L : (length (lstrip_chars (r ++ ws)) <= length (r ++ ws))%nat).
  { destruct (lstrip_suffix (r ++ ws)) as (ws' & _ & E').
    rewrite E' at 2. rewrite length_app. lia. }
  rewrite F in L. simpl in L. lia.
Qed.

Lemma strip_chars_idem (l : list ascii) :
  strip_chars (strip_chars l) = strip_chars l.
Proof.
  unfold strip_chars.
  rewrite (lstrip_rstrip_fixed (lstrip_chars l) (lstrip_idem l)).
  apply rstrip_idem.
Qed.

Lemma strip_trimmed (s : string) : trimmed (strip s).
Proof.
  unfold trimmed, strip. rewrite list_ascii_of_string_of_list_ascii.
  now rewrite strip_chars_idem.
Qed.

Lemma or_none_ok (s : string) : optional_ok (or_none (strip s)).
Proof.
  unfold or_none, truthy. destruct (String.eqb (strip s) "") eqn:E; cbn; [exact I |].
  split; [now apply String.eqb_neq | apply strip_trimmed].
Qed.

Lemma prefix_truthy (s : string) (n : nat) :
  truthy (text (firstn (S n) (chars s))) = truthy s.
Proof. now destruct s. Qed.

End TrimFacts.

Section CandidateFacts.

Variable json_loads : string -> result json.
Variable chat : string -> string -> result json.
Variable prompt_template : string -> string -> string.

Lemma field_strip (job : json) (key x : string) :
  field job key = Ok x -> exists s, x = PyStr.strip s.
Proof.
  unfold field. destruct (py_get job key (JStr "")) as [v | e]; [| discriminate].
  cbn. destruct v; cbn; try discriminate. intros [= <-]. now eexists.
Qed.

Lemma normalized_job_well_formed (job : json) (raw_job : RawJob.t)
    (nj : NormalizedJob.t) :
  normalized_job_of job raw_job = Ok nj -> well_formed raw_job nj.
Proof.
  intros H. apply normalized_job_of_ok in H
    as (t & l & j & x & d & r & u & Ht & Hl & Hj & Hx & Hd & Hr & Hu & ->).
  apply field_strip in Ht as [? ->], Hl as [? ->], Hj as [? ->], Hx as [? ->],
    Hd as [? ->], Hr as [? ->], Hu as [s ->].
  unfold well_formed. cbn.
  repeat (split; [first [apply strip_trimmed | apply or_none_ok] |]).
  split; [| repeat split].
  unfold or_else, PyStr.truthy.
  destruct (String.eqb (PyStr.strip s) "") eqn:E; cbn; [now left | right].
  split; [now apply String.eqb_neq | apply strip_trimmed].
Qed.

Lemma normalize_from_parse (raw_job : RawJob.t) (l : list NormalizedJob.t) :
  normalize_job_data json_loads chat prompt_template raw_job = Ok l ->
  l = [] \/ exists llm_output,
              _parse_llm_response json_loads llm_output raw_job = Ok l.
Proof.
  unfold normalize_job_data.
  destruct (negb (PyStr.truthy _)); [intros [= <-]; now left |].
  unfold try_except.
  destruct (chat _ _) as [response | e]; cbn; [| intros [= <-]; now left].
  destruct (py_subscript response "message") as [message | e]; cbn;
    [| intros [= <-]; now left].
  destruct (py_subscript message "content") as [llm_output | e]; cbn;
    [| intros [= <-]; now left].
  destruct (_parse_llm_response _ llm_output raw_job) as [l' | e] eqn:E;
    [| intros [= <-]; now left].
  intros [= <-]. right. now exists llm_output.
Qed.

Lemma normalized_job_rebase (job : json) (raw_job raw_job' : RawJob.t) :
  RawJob.url raw_job' = RawJob.url raw_job ->
  RawJob.career_page_id raw_job' = RawJob.career_page_id raw_job ->
  RawJob.company_name raw_job' = RawJob.company_name raw_job ->
  normalized_job_of job raw_job'
  = match normalized_job_of job raw_job with
    | Ok nj => Ok (with_raw_data raw_job' nj)
    | Raise e => Raise e
    end.
Proof.
  intros U C N. unfold normalized_job_of, with_raw_data. rewrite U, C, N.
  destruct (field job "title"); [| reflexivity].
  destruct (field job "location"); [| reflexivity].
  destruct (field job "job_type"); [| reflexivity].
  destruct (field job "experience_level"); [| reflexivity].
  destruct (field job "description"); [| reflexivity].
  destruct (field job "requirements"); [| reflexivity].
  destruct (field job "url"); reflexivity.
Qed.

Lemma normalize_all_rebase (jobs : list json) (raw_job raw_job' : RawJob.t) :
  RawJob.url raw_job' = RawJob.url raw_job ->
  RawJob.career_page_id raw_job' = RawJob.career_page_id raw_job ->
  RawJob.company_name raw_job' = RawJob.company_name raw_job ->
  normalize_all jobs raw_job'
  = match normalize_all jobs raw_job with
    | Ok l => Ok (map (with_raw_data raw_job') l)
    | Raise e => Raise e
    end.
Proof.
  intros U C N. induction jobs as [|job rest IH]; [reflexivity |].
  cbn [normalize_all].
  destruct (py_get job "title" JNull) as [title | e]; cbn; [| reflexivity].
  destruct (negb (py_truthy title)); [exact IH |].
  rewrite (normalized_job_rebase job raw_job raw_job' U C N).
  destruct (normalized_job_of job raw_job) as [nj | e]; cbn; [| reflexivity].
  rewrite IH. destruct (normalize_all rest raw_job); reflexivity.
Qed.

Lemma parse_rebase (llm_output : json) (raw_job raw_job' : RawJob.t) :
  RawJob.url raw_job' = RawJob.url raw_job ->
  RawJob.career_page_id raw_job' = RawJob.career_page_id raw_job ->
  RawJob.company_name raw_job' = RawJob.company_name raw_job ->
  _parse_llm_response json_loads llm_output raw_job'
  = match _parse_llm_response json_loads llm_output raw_job with
    | Ok l => Ok (map (with_raw_data raw_job') l)
    | Raise e => Raise e
    end.
Proof.
  intros U C N. rewrite !parse_of_body. unfold parse_body.
  destruct (py_strip llm_output) as [s | e]; cbn; [| reflexivity].
  destruct ((_ =? -1) || (_ =? 0)); [reflexivity |].
  destruct (json_loads _) as [v | e]; cbn; [| reflexivity].
  destruct v; try reflexivity.
  rewrite (normalize_all_rebase _ raw_job raw_job' U C N).
  destruct (normalize_all _ raw_job); reflexivity.
Qed.

End CandidateFacts.

Lemma prefix_of_truthy (s : string) (n : Z) :
  0 < n -> PyStr.truthy (PyStr.prefix_of s n) = PyStr.truthy s.
Proof.
  intros H. unfold PyStr.prefix_of.
  destruct (Z.to_nat n) as [|k] eqn:E; [lia | apply prefix_truthy].
Qed.

(** X17.  Every candidate [normalize_job_data] returns is well formed:
    its title is trimmed; each of location, job type, experience level,
    description and requirements is [None] or a trimmed text that is not
    empty, never the empty text; its url is the url of the raw unit or a
    trimmed text that is not empty; and it carries the career page key,
    the company name and the whole raw unit it was extracted from. The
    call always returns. *)
Theorem candidates_well_formed
    (json_loads : string -> result json)
    (chat : string -> string -> result json)
    (prompt_template : string -> string -> string) (raw_job : RawJob.t) :
  exists l,
    normalize_job_data json_loads chat prompt_template raw_job = Ok l
    /\ Forall (well_formed raw_job) l.
Proof.
  destruct (normalize_never_raises json_loads chat prompt_template raw_job)
    as [l E].
  exists l. split; [exact E |].
  apply normalize_from_parse in E as [-> | [llm_output P]];
    [apply List.Forall_nil |].
  apply List.Forall_forall. intros nj H.
  destruct (parse_candidates_built json_loads llm_output raw_job l nj P H)
    as [job J].
  exact (normalized_job_well_formed job raw_job nj J).
Qed.

(** X18.  The test for a title is made before the title is trimmed. An
    element whose title is white space only, and not empty, passes [if
    not job.get("title")], and the candidate built from it has the empty
    title. *)
Theorem blank_title_passes_check (d : list (string * json)) (ws : string)
    (raw_job : RawJob.t) (nj : NormalizedJob.t) :
  dict_get d "title" = Some (JStr ws) ->
  ws <> ""%string -> PyStr.blank (PyStr.chars ws) ->
  normalized_job_of (JObj d) raw_job = Ok nj ->
  has_title (JObj d) = true
  /\ normalize_all [JObj d] raw_job = Ok [nj]
  /\ NormalizedJob.title nj = ""%string.
Proof.
  intros T N B J.
  assert (P : py_truthy (JStr ws) = true).
  { cbn. unfold PyStr.truthy. apply negb_true_iff. now apply String.eqb_neq. }
  split; [unfold has_title; cbn; now rewrite T |].
  split.
  - cbn [normalize_all py_get]. rewrite T. cbn [mbind result_bind rbind].
    rewrite P. cbn [negb]. rewrite J. reflexivity.
  - apply normalized_job_of_ok in J
      as (t & l & j & x & c & r & u & Ht & _ & _ & _ & _ & _ & _ & ->).
    cbn. unfold field in Ht. cbn in Ht. rewrite T in Ht. cbn in Ht.
    injection Ht as <-. now apply strip_blank.
Qed.

Lemma blank_title_passes_check_witness :
  normalize_all [JObj [("title"%string, JStr "  ")]] sample_page
  = Ok [ {| NormalizedJob.title := "";
            NormalizedJob.location := None;
            NormalizedJob.job_type := None;
            NormalizedJob.experience_level := None;
            NormalizedJob.description := None;
            NormalizedJob.requirements := None;
            NormalizedJob.url := RawJob.url sample_page;
            NormalizedJob.career_page_id := RawJob.career_page_id sample_page;
            NormalizedJob.company_name := RawJob.company_name sample_page;
            NormalizedJob.raw_data := sample_page |} ].
Proof.
  apply (blank_title_passes_check [("title"%string, JStr "  ")] "  "
           sample_page).
  - reflexivity.
  - discriminate.
  - repeat constructor.
  - reflexivity.
Defined.

(** X19.  The content of a raw unit past its first 8000 characters is
    never read. Two raw units that differ only in their content, and
    whose contents agree on the first 8000 characters, put the same
    question to the model and give the same candidates, each carrying
    its own raw unit. *)
Theorem content_beyond_8000_is_not_read
    (json_loads : string -> result json)
    (chat : string -> string -> result json)
    (prompt_template : string -> string -> string)
    (raw_job : RawJob.t) (content : string) :
  PyStr.prefix_of content 8000 = PyStr.prefix_of (RawJob.raw_content raw_job) 8000 ->
  exists l,
    normalize_job_data json_loads chat prompt_template raw_job = Ok l
    /\ normalize_job_data json_loads chat prompt_template
         (with_raw_content content raw_job)
       = Ok (map (with_raw_data (with_raw_content content raw_job)) l).
Proof.
  intros H.
  assert (T : PyStr.truthy content = PyStr.truthy (RawJob.raw_content raw_job)).
  { rewrite <- (prefix_of_truthy content 8000) by lia.
    rewrite H. apply prefix_of_truthy. lia. }
  unfold normalize_job_data, _build_normalization_prompt.
  cbn [RawJob.raw_content RawJob.company_name with_raw_content].
  rewrite T, H.
  destruct (negb (PyStr.truthy _)); [now exists [] |].
  unfold try_except.
  destruct (chat _ _) as [response | e]; cbn; [| now exists []].
  destruct (py_subscript response "message") as [message | e]; cbn;
    [| now exists []].
  destruct (py_subscript message "content") as [llm_output | e]; cbn;
    [| now exists []].
  rewrite (parse_rebase json_loads llm_output raw_job
             (with_raw_content content raw_job) eq_refl eq_refl eq_refl).
  destruct (_parse_llm_response json_loads llm_output raw_job) as [l | e];
    [now exists l | now exists []].
Qed.

Lemma content_beyond_8000_is_not_read_witness :
  exists l,
    normalize_job_data JsonRef.json_loads (model_replies response_example) plain_prompt
      (long_raw_job "Engineer") = Ok l
    /\ normalize_job_data JsonRef.json_loads (model_replies response_example) plain_prompt
         (with_raw_content (long_content (Z.to_nat 8000) "Designer")
            (long_raw_job "Engineer"))
       = Ok (map (with_raw_data
                    (with_raw_content (long_content (Z.to_nat 8000) "Designer")
                       (long_raw_job "Engineer"))) l).
Proof.
  apply (content_beyond_8000_is_not_read JsonRef.json_loads (model_replies response_example)
           plain_prompt (long_raw_job "Engineer")
           (long_content (Z.to_nat 8000) "Designer")).
  vm_compute. reflexivity.
Defined.

(** ** A run without candidates *)

Section SilentRun.

Variable utcnow : nat -> Z.
Variable uuid4 : nat -> string.
Variable scrape_url : string -> result FirecrawlPage.
Variable crawl_url : string -> json -> result (option (list FirecrawlPage)).
Variable scrape_config : CareerPage.t -> option (list (string * json)).
Variable isoformat : Z -> string.
Variable json_loads : string -> result json.
Variable chat : string -> string -> result json.
Variable prompt_template : string -> string -> string.

Lemma scrape_frame (career_page : CareerPage.t) (w : World) :
  exists jobs w',
    scrape_career_page utcnow scrape_url crawl_url scrape_config isoformat
      career_page w = (Ok jobs, w')
    /\ users (session w') = users (session w)
    /\ job_postings (session w') = job_postings (session w)
    /\ notification_queue (session w') = notification_queue (session w)
    /\ notifications (session w') = notifications (session w)
    /\ drawn w' = drawn w /\ outbox w' = outbox w.
Proof.
  unfold scrape_career_page, try_catch.
  unfold mbind at 1, M_bind at 1.
  destruct (py_truthy _).
  - unfold mbind at 1, M_bind at 1, lift.
    destruct (crawl_url _ _) as [data | e];
      [| exists [], w; repeat split].
    unfold _extract_jobs_from_crawl.
    destruct (pages_run utcnow isoformat (default [] data) career_page w)
      as (jobs & E & _).
    rewrite E. cbn. eexists. eexists. split; [reflexivity |].
    cbn. repeat split.
  - unfold mbind at 1, M_bind at 1, lift.
    destruct (scrape_url _) as [page | e];
      [| exists [], w; repeat split].
    cbn. eexists. eexists. split; [reflexivity |]. cbn. repeat split.
Qed.

Lemma normalize_each_silent (raw_jobs : list RawJob.t) (w : World) :
  (forall raw_job,
     normalize_job_data json_loads chat prompt_template raw_job = Ok []) ->
  normalize_each json_loads chat prompt_template raw_jobs w = (Ok [], w).
Proof.
  intros H. induction raw_jobs as [|raw rest IH]; [reflexivity |].
  cbn [normalize_each]. unfold mbind at 1, M_bind at 1, lift.
  rewrite H. unfold mbind, M_bind. rewrite IH. reflexivity.
Qed.

Lemma model_down_silent (raw_job : RawJob.t) :
  (forall prompt, exists e, chat system_message prompt = Raise e) ->
  normalize_job_data json_loads chat prompt_template raw_job = Ok [].
Proof.
  intros H. unfold normalize_job_data.
  destruct (negb (PyStr.truthy _)); [reflexivity |].
  destruct (H (_build_normalization_prompt prompt_template
                 (RawJob.raw_content raw_job) (RawJob.company_name raw_job)))
    as [e E].
  now rewrite E.
Qed.

End SilentRun.

(** X20.  When the model cannot be reached, a run over a career page is
    the fetch alone. If every call of the model raises, the world after
    [scrape_single_career_page] is the world after [scrape_career_page]:
    no posting is saved, no queue entry and no notification record is
    added, no identifier is drawn and no message is sent, while the time
    of the fetch is still recorded when the fetch succeeded. *)
Theorem model_down_run_is_fetch_alone
    (utcnow : nat -> Z) (uuid4 : nat -> string)
    (scrape_url : string -> result FirecrawlPage)
    (crawl_url : string -> json -> result (option (list FirecrawlPage)))
    (scrape_config : CareerPage.t -> option (list (string * json)))
    (isoformat : Z -> string)
    (json_loads : string -> result json)
    (chat : string -> string -> result json)
    (prompt_template : string -> string -> string)
    (career_page : CareerPage.t) (w : World) :
  (forall prompt, exists e, chat system_message prompt = Raise e) ->
  exists raw_jobs w',
    scrape_career_page utcnow scrape_url crawl_url scrape_config isoformat
      career_page w = (Ok raw_jobs, w')
    /\ scrape_single_career_page utcnow uuid4 scrape_url crawl_url scrape_config
         isoformat json_loads chat prompt_template career_page w = (Ok tt, w')
    /\ users (session w') = users (session w)
    /\ job_postings (session w') = job_postings (session w)
    /\ notification_queue (session w') = notification_queue (session w)
    /\ notifications (session w') = notifications (session w)
    /\ drawn w' = drawn w /\ outbox w' = outbox w.
Proof.
  intros H.
  destruct (scrape_frame utcnow scrape_url crawl_url scrape_config isoformat
              career_page w) as (raw_jobs & w' & E & F).
  exists raw_jobs, w'. split; [exact E |]. split; [| exact F].
  unfold scrape_single_career_page, try_catch.
  unfold mbind at 1, M_bind at 1. rewrite E.
  destruct (negb (list_truthy raw_jobs)); [reflexivity |].
  unfold mbind at 1, M_bind at 1.
  rewrite (normalize_each_silent json_loads chat prompt_template raw_jobs w'
             (fun raw_job => model_down_silent json_loads chat prompt_template
                               raw_job H)).
  reflexivity.
Qed.

Lemma model_down_run_is_fetch_alone_witness :
  exists raw_jobs w',
    scrape_career_page clock_by_minute
      (fun _ => Raise (Exn OtherError "unused"))
      (fun _ _ => Ok (Some sample_pages)) crawl_two_pages plain_strftime
      sample_career_page (world_of sample_store) = (Ok raw_jobs, w')
    /\ scrape_single_career_page clock_by_minute numbered_uuid
         (fun _ => Raise (Exn OtherError "unused"))
         (fun _ _ => Ok (Some sample_pages)) crawl_two_pages plain_strftime
         JsonRef.json_loads model_down plain_prompt
         sample_career_page (world_of sample_store) = (Ok tt, w')
    /\ job_postings (session w') = job_postings sample_store.
Proof.
  destruct (model_down_run_is_fetch_alone clock_by_minute numbered_uuid
              (fun _ => Raise (Exn OtherError "unused"))
              (fun _ _ => Ok (Some sample_pages)) crawl_two_pages plain_strftime
              JsonRef.json_loads model_down plain_prompt
              sample_career_page (world_of sample_store)
              (fun _ => ex_intro _ (Exn OtherError "connection refused") eq_refl))
    as (raw_jobs & w' & E & S & _ & J & _).
  exists raw_jobs, w'. split; [exact E |]. split; [exact S | exact J].
Defined.

(** ** A subscriber without a webhook address *)

(** X22.  The discord channel of a subscriber who has no webhook address
    is silent. When every channel name of an entry trims to "discord"
    and the subscriber's [discord_webhook_url] is empty or [None], the
    entry is deleted and the deletion committed, and nothing else
    happens: no webhook is called, no notification record is written,
    not even a failed one, and the clock is not read. *)
Theorem discord_without_address_is_silent
    (utcnow : nat -> Z) (uuid4 : nat -> string)
    (smtp_send : nat -> EmailMessage -> result unit)
    (webhook_execute : nat -> DiscordWebhook -> result unit)
    (email_from : string) (email_markup : list string -> string)
    (strftime : Z -> string) (title_mark link_mark : string)
    (w : World) (entry : NotificationQueue.t) (user : User.t)
    (job : JobPosting.t) :
  first_row (fun u => String.eqb (User.id u) (NotificationQueue.user_id entry))
            (users (session w)) = Some user ->
  first_row (fun j => String.eqb (JobPosting.id j)
                        (NotificationQueue.job_posting_id entry))
            (job_postings (session w)) = Some job ->
  column_truthy (User.discord_webhook_url user) = false ->
  Forall (fun name => PyStr.strip name = "discord"%string)
         (PyStr.split (NotificationQueue.channels entry) ",") ->
  let remaining :=
    set_notification_queue
      (without [entry] (notification_queue (session w))) (session w) in
  process_entry utcnow uuid4 smtp_send webhook_execute email_from email_markup
    strftime title_mark link_mark entry w
  = (Ok tt, {| session := remaining; database := remaining;
               clock := clock w; drawn := drawn w; outbox := outbox w |}).
Proof.
  intros Hu Hj Hd Hc remaining.
  assert (L : for_each (PyStr.split (NotificationQueue.channels entry) ",")
                (notify_channel utcnow uuid4 smtp_send webhook_execute
                   email_from email_markup strftime title_mark link_mark
                   user job) w = (Ok tt, w)).
  { induction Hc as [|name names Hn _ IH]; [reflexivity |].
    cbn [for_each]. unfold mbind, M_bind.
    unfold notify_channel at 1. rewrite Hn. cbn [String.eqb Ascii.eqb Bool.eqb].
    unfold send_discord_notification. rewrite Hd. cbn. exact IH. }
  unfold process_entry, try_catch, get_session.
  unfold mbind at 1, M_bind at 1. rewrite Hu, Hj.
  unfold mbind at 1, M_bind at 1. rewrite L. reflexivity.
Qed.

Lemma discord_without_address_is_silent_witness :
  notifications
    (database
       (snd (process_entry clock_by_minute numbered_uuid mail_accepts
               webhook_refuses "jobs@example.com" plain_markup plain_strftime
               "*" ">" discord_entry (world_of hookless_store))))
  = [].
Proof.
  rewrite (discord_without_address_is_silent clock_by_minute numbered_uuid
             mail_accepts webhook_refuses "jobs@example.com" plain_markup
             plain_strftime "*" ">" (world_of hookless_store) discord_entry
             user_without_hook posting_without_location).
  - reflexivity.
  - reflexivity.
  - reflexivity.
  - reflexivity.
  - repeat constructor.
Defined.
